(** * The Pizza Dough Formula: calculator engine, presets, share links, timer

    A shallow embedding of the JavaScript sources
      src/scripts/calculator/engine.js
      src/scripts/calculator/presets.js
      src/scripts/calculator/units.js
      src/scripts/features/shareRecipe.js
      src/scripts/features/emergencyTimer.js
      src/scripts/features/volumeConverter.js
    and the properties of them that the specification states.

    Numbers.  A JavaScript number is modelled by an exact rational, extended
    with the two infinities and NaN that a division can produce.  Binary64
    rounding error, overflow and the sign of zero are not modelled: every
    statement below is about the exact arithmetic the code writes down. *)

From Stdlib Require Import QArith Qround Qabs Qpower ZArith Lia Lqa Bool List String Ascii.
From Stdlib Require DecimalString DecimalZ DecimalPos DecimalFacts Qcanon.
From stdpp Require Import base option list strings gmap.
Import ListNotations.

Local Open Scope Q_scope.

(* ====================================================================== *)
(** ** JavaScript numbers *)

Module JS.

Inductive num : Type :=
| Fin (q : Q)
| PInf
| NInf
| NaN.

(** Sameness of two numbers as values (not the [===] of the language, which
    makes NaN differ from itself). *)
Definition num_eq (a b : num) : Prop :=
  match a, b with
  | Fin x, Fin y => x == y
  | PInf, PInf | NInf, NInf | NaN, NaN => True
  | _, _ => False
  end.

Definition is_finite (a : num) : bool :=
  match a with Fin _ => true | _ => false end.

(** An infinity with the sign of [q]; NaN for zero. *)
Definition signed_inf (q : Q) : num :=
  match q ?= 0 with
  | Gt => PInf
  | Lt => NInf
  | Eq => NaN
  end.

Definition neg (a : num) : num :=
  match a with
  | Fin q => Fin (- q)
  | PInf => NInf
  | NInf => PInf
  | NaN => NaN
  end.

Definition add (a b : num) : num :=
  match a, b with
  | NaN, _ | _, NaN => NaN
  | Fin x, Fin y => Fin (x + y)
  | PInf, NInf | NInf, PInf => NaN
  | PInf, _ | _, PInf => PInf
  | NInf, _ | _, NInf => NInf
  end.

Definition sub (a b : num) : num := add a (neg b).

Definition mul (a b : num) : num :=
  match a, b with
  | NaN, _ | _, NaN => NaN
  | Fin x, Fin y => Fin (x * y)
  | PInf, Fin y | Fin y, PInf => signed_inf y
  | NInf, Fin y | Fin y, NInf => signed_inf (- y)
  | PInf, PInf | NInf, NInf => PInf
  | PInf, NInf | NInf, PInf => NInf
  end.

(** [a / b].  A finite number divided by zero is an infinity of the
    numerator's sign, and 0/0 is NaN.  (A sum that starts with [1 + ...],
    as the flour denominator does, is never the negative zero.) *)
Definition div (a b : num) : num :=
  match a, b with
  | NaN, _ | _, NaN => NaN
  | Fin x, Fin y => if Qeq_bool y 0 then signed_inf x else Fin (x / y)
  | Fin _, _ => Fin 0
  | _, PInf | _, NInf => NaN
  | PInf, Fin y => if Qle_bool 0 y then PInf else NInf
  | NInf, Fin y => if Qle_bool 0 y then NInf else PInf
  end.

(** The integer nearest to [q], ties towards +Infinity. *)
Definition round_half_up (q : Q) : Z := Qfloor (q + (1 # 2)).

(** [Math.round] *)
Definition Math_round (a : num) : num :=
  match a with
  | Fin q => Fin (inject_Z (round_half_up q))
  | other => other
  end.

(** [Math.pow(10, d)] for an integer exponent. *)
Definition pow10 (d : Z) : Q := Qpower (10 # 1) d.

(** [a < 0], [false] for NaN as every comparison with NaN is. *)
Definition is_negative (a : num) : bool :=
  match a with
  | Fin q => negb (Qle_bool 0 q)
  | NInf => true
  | _ => false
  end.

(** How a call ends: with a value, or with an exception thrown to the caller. *)
Inductive completion (A E : Type) : Type :=
| Normal (value : A)
| Throw (error : E).

Arguments Normal {A E} value.
Arguments Throw {A E} error.

End JS.

Import JS.

(* ====================================================================== *)
(** ** calculator/engine.js *)

Module Engine.

(** The [options] object of the constructor: every property may be missing. *)
Record Options : Type := mkOptions {
  opt_numBalls : option Q;
  opt_ballWeight : option Q;
  opt_hydration : option Q;
  opt_salt : option Q;
  opt_yeast : option Q;
  opt_oil : option Q;
  opt_sugar : option Q;
  opt_humidityAdjust : option bool;
  opt_usePreFerment : option bool;
  opt_preFermentType : option string;
  opt_preFermentFlourPercent : option Q;
  opt_bigaHydration : option Q
}.

Definition no_options : Options :=
  mkOptions None None None None None None None None None None None None.

(** The instance fields of [class DoughCalculator]. *)
Record DoughCalculator : Type := mkCalculator {
  numBalls : Q;
  ballWeight : Q;
  hydration : Q;
  salt : Q;
  yeast : Q;
  oil : Q;
  sugar : Q;
  humidityAdjust : bool;
  usePreFerment : bool;
  preFermentType : string;
  preFermentFlourPercent : Q;
  bigaHydration : Q
}.

(** [x ?? d] *)
Definition nullish {A : Type} (x : option A) (d : A) : A :=
  match x with Some v => v | None => d end.

Definition constructor (options : Options) : DoughCalculator := {|
  numBalls := nullish (opt_numBalls options) 4;
  ballWeight := nullish (opt_ballWeight options) 250;
  hydration := nullish (opt_hydration options) (65 # 100);
  salt := nullish (opt_salt options) (2 # 100);
  yeast := nullish (opt_yeast options) (3 # 1000);
  oil := nullish (opt_oil options) 0;
  sugar := nullish (opt_sugar options) 0;
  humidityAdjust := nullish (opt_humidityAdjust options) false;
  usePreFerment := nullish (opt_usePreFerment options) false;
  preFermentType := nullish (opt_preFermentType options) "poolish"%string;
  preFermentFlourPercent := nullish (opt_preFermentFlourPercent options) (25 # 100);
  bigaHydration := nullish (opt_bigaHydration options) (55 # 100)
|}.

Module Ingredients.
Record t : Type := mk {
  flour : num;
  water : num;
  salt : num;
  yeast : num;
  oil : num;
  sugar : num
}.
End Ingredients.

Module Percentages.
Record t : Type := mk {
  hydration : Q;
  salt : Q;
  yeast : Q;
  oil : Q;
  sugar : Q
}.
End Percentages.

Module PreFermentIngredients.
Record t : Type := mk {
  flour : num;
  water : num;
  yeast : num
}.
End PreFermentIngredients.

Module PreFerment.
Record t : Type := mk {
  type : string;
  ingredients : PreFermentIngredients.t;
  hydration : Q;
  flourPercent : Q
}.
End PreFerment.

(** [finalDough.ingredients]; its [preFerment: 'all'] marker is a constant. *)
Module FinalDough.
Record t : Type := mk {
  preFerment : string;
  flour : num;
  water : num;
  salt : num;
  yeast : num;
  oil : num;
  sugar : num
}.
End FinalDough.

(** The object [calculate] returns, tagged by its [stage]. *)
Inductive CalculatedRecipe : Type :=
| single (ingredients : Ingredients.t) (totalWeight : num)
         (percentages : Percentages.t)
| two_stage (preFerment : PreFerment.t) (finalDough : FinalDough.t)
            (totalWeight : num) (percentages : Percentages.t).

Section Methods.

Variable this : DoughCalculator.

Definition totalDoughWeight : Q := numBalls this * ballWeight this.

Definition effectiveHydration : Q :=
  if humidityAdjust this then hydration this - (25 # 1000) else hydration this.

(** [totalPercentage] of the [flourWeight] getter. *)
Definition totalPercentage : Q :=
  1 + effectiveHydration + salt this + yeast this + oil this + sugar this.

Definition flourWeight : num := div (Fin totalDoughWeight) (Fin totalPercentage).

Definition waterWeight : num := mul flourWeight (Fin effectiveHydration).

Definition round (value : num) (decimals : Z) : num :=
  let factor := pow10 decimals in
  div (Math_round (mul value (Fin factor))) (Fin factor).

Definition preFermentHydration : Q :=
  if String.eqb (preFermentType this) "poolish" then 1 else bigaHydration this.

Definition calculateWithPreFerment
    (totalFlour totalWater salt yeast oil sugar : num)
    (percentages : Percentages.t) : CalculatedRecipe :=
  let preFermentFlour := mul totalFlour (Fin (preFermentFlourPercent this)) in
  let preFermentWater := mul preFermentFlour (Fin preFermentHydration) in
  let preFermentYeast := yeast in
  let finalFlour := sub totalFlour preFermentFlour in
  let finalWater := sub totalWater preFermentWater in
  two_stage
    {| PreFerment.type := preFermentType this;
       PreFerment.ingredients :=
         {| PreFermentIngredients.flour := round preFermentFlour 0;
            PreFermentIngredients.water := round preFermentWater 0;
            PreFermentIngredients.yeast := round preFermentYeast 1 |};
       PreFerment.hydration := preFermentHydration * 100;
       PreFerment.flourPercent := preFermentFlourPercent this * 100 |}
    {| FinalDough.preFerment := "all";
       FinalDough.flour := round finalFlour 0;
       FinalDough.water := round finalWater 0;
       FinalDough.salt := round salt 1;
       FinalDough.yeast := Fin 0;
       FinalDough.oil := round oil 0;
       FinalDough.sugar := round sugar 0 |}
    (round (Fin totalDoughWeight) 0)
    percentages.

Definition calculate : CalculatedRecipe :=
  let flour := flourWeight in
  let water := waterWeight in
  let salt := mul flour (Fin (salt this)) in
  let yeast := mul flour (Fin (yeast this)) in
  let oil := mul flour (Fin (oil this)) in
  let sugar := mul flour (Fin (sugar this)) in
  let percentages :=
    {| Percentages.hydration := effectiveHydration * 100;
       Percentages.salt := Engine.salt this * 100;
       Percentages.yeast := Engine.yeast this * 100;
       Percentages.oil := Engine.oil this * 100;
       Percentages.sugar := Engine.sugar this * 100 |} in
  if negb (usePreFerment this) then
    single
      {| Ingredients.flour := round flour 0;
         Ingredients.water := round water 0;
         Ingredients.salt := round salt 1;
         Ingredients.yeast := round yeast 1;
         Ingredients.oil := round oil 0;
         Ingredients.sugar := round sugar 0 |}
      (round (Fin totalDoughWeight) 0)
      percentages
  else
    calculateWithPreFerment flour water salt yeast oil sugar percentages.

End Methods.

(** The failure the specification asks of an invalid input. *)
Inductive CalculatorError : Type :=
| InvalidParameters.

(** A call [calculator.calculate()] as its caller sees it.  The method body
    holds no [throw], and arithmetic on numbers never throws: the call
    always completes normally with the object built above. *)
Definition calculate_call (this : DoughCalculator)
  : completion CalculatedRecipe CalculatorError :=
  Normal (calculate this).

End Engine.

(* ====================================================================== *)
(** ** The engine: predicates and inputs its properties are stated with *)

Module EngineSpec.
Import Engine.

(** [r] is [x] rounded to [d] decimal places: a whole number of units of
    [10^-d], at most half a unit away.  An infinity or NaN has no nearest
    unit: rounding leaves it as it is. *)
Definition rounded_to (d : Z) (x r : num) : Prop :=
  match x, r with
  | Fin x, Fin r =>
      exists z : Z, r == inject_Z z / pow10 d /\
                    Qabs (r - x) <= (1 # 2) / pow10 d
  | PInf, PInf | NInf, NInf | NaN, NaN => True
  | _, _ => False
  end.

(** The six weights of a single-stage recipe added up, as numbers. *)
Definition ingredient_sum (i : Ingredients.t) : num :=
  add (Ingredients.flour i)
    (add (Ingredients.water i)
      (add (Ingredients.salt i)
        (add (Ingredients.yeast i)
          (add (Ingredients.oil i) (Ingredients.sugar i))))).

(** The unrounded pre-ferment flour and water of [calculateWithPreFerment]. *)
Definition preFermentFlour (c : DoughCalculator) : num :=
  mul (flourWeight c) (Fin (preFermentFlourPercent c)).

Definition preFermentWater (c : DoughCalculator) : num :=
  mul (preFermentFlour c) (Fin (preFermentHydration c)).

(** The specification's worked example: four balls of 250 g at 65 %
    hydration, 2 % salt, 0.3 % yeast, no oil, no sugar. *)
Definition example_options : Options := {|
  opt_numBalls := Some 4;
  opt_ballWeight := Some 250;
  opt_hydration := Some (65 # 100);
  opt_salt := Some (2 # 100);
  opt_yeast := Some (3 # 1000);
  opt_oil := Some 0;
  opt_sugar := Some 0;
  opt_humidityAdjust := None;
  opt_usePreFerment := None;
  opt_preFermentType := None;
  opt_preFermentFlourPercent := None;
  opt_bigaHydration := None
|}.

Definition with_preFerment (o : Options) (type : string) : Options := {|
  opt_numBalls := opt_numBalls o;
  opt_ballWeight := opt_ballWeight o;
  opt_hydration := opt_hydration o;
  opt_salt := opt_salt o;
  opt_yeast := opt_yeast o;
  opt_oil := opt_oil o;
  opt_sugar := opt_sugar o;
  opt_humidityAdjust := opt_humidityAdjust o;
  opt_usePreFerment := Some true;
  opt_preFermentType := Some type;
  opt_preFermentFlourPercent := opt_preFermentFlourPercent o;
  opt_bigaHydration := opt_bigaHydration o
|}.

(** Two parts that make up a total, all three already rounded to whole
    grams: the parts add up to the total within one gram. *)
Definition conserved (part1 part2 total : num) : Prop :=
  match part1, part2, total with
  | Fin a, Fin b, Fin t => Qabs (a + b - t) <= 1
  | _, _, _ => False
  end.

(** The rounding policy on a returned recipe: whole grams for flour, water,
    oil and sugar, one decimal place for salt and yeast, each taken from the
    unrounded weight. *)
Definition rounding_policy (c : DoughCalculator) (r : CalculatedRecipe) : Prop :=
  let flour := flourWeight c in
  match r with
  | single ing _ _ =>
      rounded_to 0 flour (Ingredients.flour ing) /\
      rounded_to 0 (waterWeight c) (Ingredients.water ing) /\
      rounded_to 0 (mul flour (Fin (oil c))) (Ingredients.oil ing) /\
      rounded_to 0 (mul flour (Fin (sugar c))) (Ingredients.sugar ing) /\
      rounded_to 1 (mul flour (Fin (salt c))) (Ingredients.salt ing) /\
      rounded_to 1 (mul flour (Fin (yeast c))) (Ingredients.yeast ing)
  | two_stage pf fd _ _ =>
      let pfi := PreFerment.ingredients pf in
      rounded_to 0 (preFermentFlour c) (PreFermentIngredients.flour pfi) /\
      rounded_to 0 (preFermentWater c) (PreFermentIngredients.water pfi) /\
      rounded_to 0 (sub flour (preFermentFlour c)) (FinalDough.flour fd) /\
      rounded_to 0 (sub (waterWeight c) (preFermentWater c)) (FinalDough.water fd) /\
      rounded_to 0 (mul flour (Fin (oil c))) (FinalDough.oil fd) /\
      rounded_to 0 (mul flour (Fin (sugar c))) (FinalDough.sugar fd) /\
      rounded_to 1 (mul flour (Fin (salt c))) (FinalDough.salt fd) /\
      rounded_to 1 (mul flour (Fin (yeast c))) (PreFermentIngredients.yeast pfi)
  end.

(** Inputs the specification calls invalid: a negative number of balls, and
    percentages that make the flour denominator zero.  The second has a
    hydration of -1 and no salt, yeast, oil or sugar, so that the sum
    [1 + (-1) + 0 + 0 + 0 + 0] is zero in binary floating point as well. *)
Definition negative_balls_options : Options := {|
  opt_numBalls := Some (- (4));
  opt_ballWeight := Some 250;
  opt_hydration := Some (65 # 100);
  opt_salt := Some (2 # 100);
  opt_yeast := Some (3 # 1000);
  opt_oil := Some 0;
  opt_sugar := Some 0;
  opt_humidityAdjust := None;
  opt_usePreFerment := None;
  opt_preFermentType := None;
  opt_preFermentFlourPercent := None;
  opt_bigaHydration := None
|}.

Definition zero_denominator_options : Options := {|
  opt_numBalls := Some 4;
  opt_ballWeight := Some 250;
  opt_hydration := Some (- (1));
  opt_salt := Some 0;
  opt_yeast := Some 0;
  opt_oil := Some 0;
  opt_sugar := Some 0;
  opt_humidityAdjust := None;
  opt_usePreFerment := None;
  opt_preFermentType := None;
  opt_preFermentFlourPercent := None;
  opt_bigaHydration := None
|}.

End EngineSpec.

(* ====================================================================== *)
(** ** calculator/presets.js *)

Module Presets.

Local Open Scope string_scope.

(** A [defaults] object: the six weights and fractions every style gives,
    and the pre-ferment settings only a pre-ferment style gives.  A property
    that the object lacks is [None]. *)
Record Defaults : Type := mkDefaults {
  ballWeight : option Q;
  hydration : option Q;
  salt : option Q;
  yeast : option Q;
  oil : option Q;
  sugar : option Q;
  usePreFerment : option bool;
  preFermentType : option string;
  preFermentFlourPercent : option Q
}.

(** [{}] *)
Definition empty_object : Defaults :=
  mkDefaults None None None None None None None None None.

(** A style of the catalog.  Of its descriptive properties, which only the
    pages read, the short ones are kept; the prose ([description],
    [equipment], [flourRecommendation], [flourProtein], [waterTemp],
    [bakeTemp], [bakeTime], [fermentInstructions], [tips]) is left out. *)
Record PizzaStylePreset : Type := mkPreset {
  id : string;
  name : string;
  icon : string;
  defaults : Defaults;
  showTimer : option bool;
  fermentType : string
}.

Definition plain_defaults (ballWeight hydration salt yeast oil sugar : Q)
  : Defaults :=
  mkDefaults (Some ballWeight) (Some hydration) (Some salt) (Some yeast)
             (Some oil) (Some sugar) None None None.

Definition neapolitan : PizzaStylePreset := {|
  id := "neapolitan"; name := "Neapolitan"; icon := "neapolitan";
  defaults := plain_defaults 250 (62 # 100) (25 # 1000) (3 # 1000) 0 0;
  showTimer := None; fermentType := "cold" |}.

Definition newYork : PizzaStylePreset := {|
  id := "newYork"; name := "New York"; icon := "newYork";
  defaults := plain_defaults 280 (65 # 100) (2 # 100) (4 # 1000) (3 # 100) (2 # 100);
  showTimer := None; fermentType := "cold" |}.

Definition detroit : PizzaStylePreset := {|
  id := "detroit"; name := "Detroit"; icon := "detroit";
  defaults := plain_defaults 400 (72 # 100) (2 # 100) (5 # 1000) (4 # 100) (1 # 100);
  showTimer := None; fermentType := "room" |}.

Definition thinCrispy : PizzaStylePreset := {|
  id := "thinCrispy"; name := "Thin & Crispy"; icon := "thinCrispy";
  defaults := plain_defaults 180 (55 # 100) (2 # 100) (4 # 1000) (2 # 100) 0;
  showTimer := None; fermentType := "room" |}.

Definition poolishBiga : PizzaStylePreset := {|
  id := "poolishBiga"; name := "Poolish/Biga"; icon := "poolishBiga";
  defaults :=
    mkDefaults (Some 260) (Some (65 # 100)) (Some (25 # 1000)) (Some (2 # 1000))
               (Some 0) (Some 0)
               (Some true) (Some "poolish") (Some (25 # 100));
  showTimer := None; fermentType := "preferment" |}.

Definition emergency : PizzaStylePreset := {|
  id := "emergency"; name := "Emergency (2hr)"; icon := "emergency";
  defaults := plain_defaults 250 (60 # 100) (2 # 100) (1 # 100) (2 # 100) (1 # 100);
  showTimer := Some true; fermentType := "quick" |}.

Definition custom : PizzaStylePreset := {|
  id := "custom"; name := "Custom"; icon := "custom";
  defaults := plain_defaults 250 (65 # 100) (2 # 100) (3 # 1000) 0 0;
  showTimer := None; fermentType := "custom" |}.

(** The object literal [PIZZA_STYLES]: its own properties, in the order
    they are written. *)
Definition PIZZA_STYLES : list (string * PizzaStylePreset) :=
  [ ("neapolitan", neapolitan);
    ("newYork", newYork);
    ("detroit", detroit);
    ("thinCrispy", thinCrispy);
    ("poolishBiga", poolishBiga);
    ("emergency", emergency);
    ("custom", custom) ].

(** [PIZZA_STYLES] is an ordinary object, so a property the literal does
    not define is looked up on [Object.prototype].  These are the names
    found there: eleven functions, and the accessor [__proto__] that yields
    the prototype object itself. *)
Definition Object_prototype_names : list string :=
  [ "constructor"; "hasOwnProperty"; "isPrototypeOf"; "propertyIsEnumerable";
    "toLocaleString"; "toString"; "valueOf";
    "__defineGetter__"; "__defineSetter__";
    "__lookupGetter__"; "__lookupSetter__"; "__proto__" ].

(** What [PIZZA_STYLES[id]] evaluates to. *)
Inductive property : Type :=
| Style (preset : PizzaStylePreset)
| Builtin (name : string)
| Undefined.

Fixpoint own_property (key : string) (object : list (string * PizzaStylePreset))
  : option PizzaStylePreset :=
  match object with
  | [] => None
  | (k, v) :: rest => if String.eqb k key then Some v else own_property key rest
  end.

Definition get_property (key : string) : property :=
  match own_property key PIZZA_STYLES with
  | Some preset => Style preset
  | None =>
      if existsb (String.eqb key) Object_prototype_names
      then Builtin key
      else Undefined
  end.

(** Truthiness: every object and function is truthy, [undefined] is not. *)
Definition truthy (v : property) : bool :=
  match v with
  | Style _ | Builtin _ => true
  | Undefined => false
  end.

Inductive TypeError : Type :=
| CannotReadProperty (name : string).

(** [v.defaults]: the preset's object; [undefined] on a built-in, which has
    no such property; a TypeError on [undefined]. *)
Definition get_defaults (v : property) : completion (option Defaults) TypeError :=
  match v with
  | Style preset => Normal (Some (defaults preset))
  | Builtin _ => Normal None
  | Undefined => Throw (CannotReadProperty "defaults")
  end.

(** [{ ...source }]: a copy of the own properties; nothing for [undefined]. *)
Definition spread (source : option Defaults) : Defaults :=
  match source with
  | Some d => d
  | None => empty_object
  end.

Definition getStyleIds : list string := map fst PIZZA_STYLES.

Definition getStyleById (id : string) : property := get_property id.

Definition getStyleDefaults (id : string) : completion Defaults TypeError :=
  let style := get_property id in
  if truthy style then
    match get_defaults style with
    | Normal d => Normal (spread d)
    | Throw e => Throw e
    end
  else
    match get_defaults (Style custom) with
    | Normal d => Normal (spread d)
    | Throw e => Throw e
    end.

Definition getAllStyles : list PizzaStylePreset := map snd PIZZA_STYLES.

End Presets.

(* ====================================================================== *)
(** ** features/emergencyTimer.js *)

Module EmergencyTimer.

Local Open Scope string_scope.
Local Open Scope Z_scope.

Definition DEFAULT_DURATION : Z := 2 * 60 * 60 * 1000.

(** The object [saveState] writes, as JSON, under the key ["emergencyTimer"].
    Times are whole milliseconds. *)
Record Snapshot : Type := mkSnapshot {
  snap_remaining : Z;
  snap_isRunning : bool;
  snap_savedAt : Z;
  snap_duration : Z
}.

(** What the store holds under a key: the JSON text of a snapshot, or text
    that [JSON.parse] rejects (the empty string included). *)
Inductive stored : Type :=
| Json (state : Snapshot)
| Unparseable (text : string).

(** The jobs the timer hands to [setTimeout(..., 0)]. *)
Inductive Task : Type :=
| DeferredStart
| DeferredCompletion.

(** What the page observes: the three callbacks, the beeps of
    [playNotification], and the warning of a failed load.  A tick carries
    the hours, minutes and seconds that [getFormattedTime] prints and the
    progress. *)
Inductive Event : Type :=
| Tick (hours minutes seconds : Z) (progress : num)
| Complete
| StateChange (state : string)
| Beeps
| Warning.

(** The browser around the timer: the clock, [localStorage] ([None] when the
    global is undefined), whether [AudioContext] exists, the queue of
    zero-delay timeouts, and the events so far (oldest first). *)
Record World : Type := mkWorld {
  now : Z;
  localStorage : option (gmap string stored);
  audio : bool;
  timeouts : list Task;
  log : list Event
}.

(** The fields of an [EmergencyTimer].  [intervalId] stands for the live
    interval and holds the [endTime] its callback closes over; a callback
    field tells whether the page has set that callback. *)
Record Timer : Type := mkTimer {
  duration : Z;
  remaining : Z;
  intervalId : option Z;
  isRunning : bool;
  startedAt : option Z;
  onTick : bool;
  onComplete : bool;
  onStateChange : bool
}.

Definition State : Type := Timer * World.

Definition set_remaining (r : Z) (t : Timer) : Timer :=
  mkTimer (duration t) r (intervalId t) (isRunning t) (startedAt t)
          (onTick t) (onComplete t) (onStateChange t).

Definition set_duration (d : Z) (t : Timer) : Timer :=
  mkTimer d (remaining t) (intervalId t) (isRunning t) (startedAt t)
          (onTick t) (onComplete t) (onStateChange t).

Definition set_startedAt (s : option Z) (t : Timer) : Timer :=
  mkTimer (duration t) (remaining t) (intervalId t) (isRunning t) s
          (onTick t) (onComplete t) (onStateChange t).

Definition set_running (running : bool) (interval : option Z) (t : Timer) : Timer :=
  mkTimer (duration t) (remaining t) interval running (startedAt t)
          (onTick t) (onComplete t) (onStateChange t).

(** The page installs its three callbacks. *)
Definition set_callbacks (t : Timer) : Timer :=
  mkTimer (duration t) (remaining t) (intervalId t) (isRunning t) (startedAt t)
          true true true.

Definition set_storage (ls : option (gmap string stored)) (w : World) : World :=
  mkWorld (now w) ls (audio w) (timeouts w) (log w).

Definition emit (e : Event) (w : World) : World :=
  mkWorld (now w) (localStorage w) (audio w) (timeouts w) (log w ++ [e]).

Definition setTimeout (task : Task) (w : World) : World :=
  mkWorld (now w) (localStorage w) (audio w) (timeouts w ++ [task]) (log w).

(** The clock moves on to [t]. *)
Definition at_time (t : Z) (w : World) : World :=
  mkWorld t (localStorage w) (audio w) (timeouts w) (log w).

Definition getTimeComponents (t : Timer) : Z * Z * Z :=
  (remaining t / 3600000,
   Z.rem (remaining t) 3600000 / 60000,
   Z.rem (remaining t) 60000 / 1000).

Definition getProgress (t : Timer) : num :=
  Math_round
    (mul (div (Fin (inject_Z (duration t - remaining t)))
              (Fin (inject_Z (duration t))))
         (Fin 100%Q)).

(** [if (this.onTick) this.onTick(this.getFormattedTime(), this.getProgress())] *)
Definition call_onTick (s : State) : State :=
  let '(t, w) := s in
  if onTick t then
    let '(h, m, sec) := getTimeComponents t in
    (t, emit (Tick h m sec (getProgress t)) w)
  else s.

Definition call_onStateChange (state : string) (s : State) : State :=
  let '(t, w) := s in
  if onStateChange t then (t, emit (StateChange state) w) else s.

Definition call_onComplete (s : State) : State :=
  let '(t, w) := s in
  if onComplete t then (t, emit Complete w) else s.

Definition saveState (s : State) : State :=
  let '(t, w) := s in
  match localStorage w with
  | None => s
  | Some ls =>
      let state := {| snap_remaining := remaining t;
                      snap_isRunning := isRunning t;
                      snap_savedAt := now w;
                      snap_duration := duration t |} in
      (t, set_storage (Some (<["emergencyTimer" := Json state]> ls)) w)
  end.

Definition clearState (s : State) : State :=
  let '(t, w) := s in
  match localStorage w with
  | None => s
  | Some ls => (t, set_storage (Some (delete "emergencyTimer" ls)) w)
  end.

(** The beeps are played when there is an [AudioContext]; any failure is
    caught inside. *)
Definition playNotification (s : State) : State :=
  let '(t, w) := s in
  if audio w then (t, emit Beeps w) else s.

Definition pause (s : State) : State :=
  let '(t, w) := s in
  if negb (isRunning t) then s
  else
    let s1 := saveState (set_running false None t, w) in
    call_onStateChange "paused" s1.

Definition complete (s : State) : State :=
  let '(t, w) := pause s in
  let s1 := (set_remaining 0 t, w) in
  let s2 := call_onComplete s1 in
  let s3 := call_onStateChange "completed" s2 in
  let s4 := playNotification s3 in
  clearState s4.

Definition start (s : State) : State :=
  let '(t, w) := s in
  if isRunning t then s
  else
    let endTime := now w + remaining t in
    let t1 := set_startedAt (Some (now w)) (set_running true (Some endTime) t) in
    let s1 := saveState (t1, w) in
    call_onStateChange "running" s1.

(** One firing of the interval callback [start] installed; nothing fires
    once the interval is cleared. *)
Definition tick (s : State) : State :=
  let '(t, w) := s in
  match intervalId t with
  | None => s
  | Some endTime =>
      let t1 := set_remaining (Z.max 0 (endTime - now w)) t in
      let s1 := call_onTick (t1, w) in
      if remaining (fst s1) <=? 0 then complete s1 else s1
  end.

Definition toggle (s : State) : State :=
  if isRunning (fst s) then pause s else start s.

Definition reset (s : State) : State :=
  let '(t, w) := pause s in
  let t1 := set_startedAt None (set_remaining (duration t) t) in
  let s1 := saveState (t1, w) in
  let s2 := call_onTick s1 in
  call_onStateChange "reset" s2.

Definition setDuration (d : Z) (s : State) : State :=
  let '(t, w) := pause s in
  let t1 := set_remaining d (set_duration d t) in
  call_onTick (saveState (t1, w)).

Definition addTime (milliseconds : Z) (s : State) : State :=
  let '(t, w) := s in
  let t1 := set_remaining (Z.min (remaining t + milliseconds) (duration t)) t in
  call_onTick (saveState (t1, w)).

Definition loadState (s : State) : State :=
  let '(t, w) := s in
  match localStorage w with
  | None => s
  | Some ls =>
      match ls !! "emergencyTimer" with
      | None => s
      | Some (Unparseable text) =>
          if String.eqb text "" then s else (t, emit Warning w)
      | Some (Json state) =>
          let '(t1, w1) :=
            if snap_isRunning state then
              let elapsed := now w - snap_savedAt state in
              let t1 := set_remaining (Z.max 0 (snap_remaining state - elapsed)) t in
              if remaining t1 >? 0 then
                (t1, setTimeout DeferredStart w)
              else
                (set_remaining 0 t1, setTimeout DeferredCompletion w)
            else
              (set_remaining (snap_remaining state) t, w) in
          if snap_duration state =? 0 then (t1, w1)
          else (set_duration (snap_duration state) t1, w1)
      end
  end.

Definition constructor (duration : Z) (w : World) : State :=
  loadState
    ({| duration := duration; remaining := duration; intervalId := None;
        isRunning := false; startedAt := None;
        onTick := false; onComplete := false; onStateChange := false |}, w).

(** The body of each deferred job. *)
Definition run_task (task : Task) (s : State) : State :=
  match task with
  | DeferredStart => start s
  | DeferredCompletion => playNotification (call_onComplete s)
  end.

(** The event loop runs every queued timeout, in order. *)
Definition run_timeouts (s : State) : State :=
  let '(t, w) := s in
  fold_left (fun acc task => run_task task acc) (timeouts w)
            (t, mkWorld (now w) (localStorage w) (audio w) [] (log w)).

(** A page load: construct the timer, let the page set its callbacks, then
    let the deferred jobs run.  They run in a later turn of the event loop,
    [delay] milliseconds after the constructor read the clock, and read the
    clock anew. *)
Definition page_load (duration : Z) (delay : N) (w : World) : State :=
  let '(t, w1) := constructor duration w in
  run_timeouts (set_callbacks t, at_time (now w1 + Z.of_N delay) w1).

(** The snapshot a later page load would find. *)
Definition persisted (w : World) : option stored :=
  match localStorage w with
  | None => None
  | Some ls => ls !! "emergencyTimer"
  end.

(** How often the completion was announced: calls of [onComplete], and
    plays of the beeps. *)
Definition completions (events : list Event) : nat :=
  List.length
    (List.filter (fun e => match e with Complete => true | _ => false end) events).

Definition beeps (events : list Event) : nat :=
  List.length
    (List.filter (fun e => match e with Beeps => true | _ => false end) events).

(** The specification's example of a timer that ran out while the page was
    closed: ten minutes were left when the snapshot was saved at [T], and the
    page is loaded twenty minutes later. *)
Definition T : Z := 1766923200000.

Definition expired_snapshot : Snapshot := {|
  snap_remaining := 600000;
  snap_isRunning := true;
  snap_savedAt := T;
  snap_duration := DEFAULT_DURATION
|}.

Definition expired_world : World := {|
  now := T + 1200000;
  localStorage := Some {[ "emergencyTimer" := Json expired_snapshot ]};
  audio := true;
  timeouts := [];
  log := []
|}.

End EmergencyTimer.

(* ====================================================================== *)
(** ** The platform under shareRecipe.js: strings, numbers as text, URLs

    Strings are strings of bytes (UTF-8).  The URL standard is modelled as
    far as the share links need it: a URL has a scheme, its query runs from
    the first [?] to the first [#], and a query is a list of [name=value]
    pairs in form-urlencoding.  Host validation and the stripping of tabs,
    newlines and surrounding spaces are left out. *)

Module Web.

Local Open Scope string_scope.

(** *** Characters *)

Definition in_range (lo hi c : ascii) : bool :=
  (N.leb (N_of_ascii lo) (N_of_ascii c) && N.leb (N_of_ascii c) (N_of_ascii hi))%bool.

Definition is_digit (c : ascii) : bool := in_range "0" "9" c.

Definition is_alpha (c : ascii) : bool :=
  (in_range "a" "z" c || in_range "A" "Z" c)%bool.

Fixpoint contains (c : ascii) (s : string) : bool :=
  match s with
  | EmptyString => false
  | String x rest => (Ascii.eqb x c || contains c rest)%bool
  end.

(** *** Whole numbers as text *)

(** A whole number below [1e21] in size is printed in plain digits. *)
Definition plain_digits (n : Z) : Prop := (Z.abs n < 10 ^ 21)%Z.

(** [s] without the zeros at its end. *)
Fixpoint strip_trailing_zeros (s : string) : string :=
  match s with
  | EmptyString => EmptyString
  | String c rest =>
      match strip_trailing_zeros rest with
      | EmptyString => if Ascii.eqb c "0" then EmptyString else String c EmptyString
      | tail => String c tail
      end
  end.

(** The exponent notation of a whole number from [1e21] on: the first
    digit, after a point the other digits up to the last that is not zero,
    then [e+] and the number of digits after the first.  The digits are
    those of the number itself, numbers being exact here. *)
Definition exponent_text (p : positive) : string :=
  match DecimalString.NilEmpty.string_of_uint (Pos.to_uint p) with
  | EmptyString => EmptyString
  | String first rest =>
      String first
        (match strip_trailing_zeros rest with
         | EmptyString => EmptyString
         | fraction => String "." fraction
         end
         ++ "e+"
         ++ DecimalString.NilZero.string_of_uint (Nat.to_uint (String.length rest)))
  end.

(** [n.toString()] for a whole number [n]: plain digits below [1e21] in
    size, exponent notation from there on. *)
Definition Number_toString (n : Z) : string :=
  if (Z.abs n <? 10 ^ 21)%Z then DecimalString.NilZero.string_of_int (Z.to_int n)
  else
    match n with
    | Zpos p => exponent_text p
    | Zneg p => String "-" (exponent_text p)
    | Z0 => "0"
    end.

Definition digit_of_ascii (c : ascii) : option (Decimal.uint -> Decimal.uint) :=
  if Ascii.eqb c "0" then Some Decimal.D0
  else if Ascii.eqb c "1" then Some Decimal.D1
  else if Ascii.eqb c "2" then Some Decimal.D2
  else if Ascii.eqb c "3" then Some Decimal.D3
  else if Ascii.eqb c "4" then Some Decimal.D4
  else if Ascii.eqb c "5" then Some Decimal.D5
  else if Ascii.eqb c "6" then Some Decimal.D6
  else if Ascii.eqb c "7" then Some Decimal.D7
  else if Ascii.eqb c "8" then Some Decimal.D8
  else if Ascii.eqb c "9" then Some Decimal.D9
  else None.

(** The longest prefix of digits. *)
Fixpoint leading_digits (s : string) : Decimal.uint :=
  match s with
  | EmptyString => Decimal.Nil
  | String c rest =>
      match digit_of_ascii c with
      | Some d => d (leading_digits rest)
      | None => Decimal.Nil
      end
  end.

(** White space that [parseInt] skips (the one-byte kinds). *)
Definition is_white_space (c : ascii) : bool :=
  let n := N_of_ascii c in
  (N.eqb n 32 || (N.leb 9 n && N.leb n 13))%bool.

Fixpoint skip_white_space (s : string) : string :=
  match s with
  | EmptyString => EmptyString
  | String c rest => if is_white_space c then skip_white_space rest else s
  end.

Definition digits_value (s : string) (sign : Z) : num :=
  match leading_digits s with
  | Decimal.Nil => NaN
  | digits => Fin (inject_Z (sign * Z.of_uint digits))
  end.

(** [parseInt(s, 10)]: white space, an optional sign, then digits up to the
    first character that is not one; NaN when there is no digit. *)
Definition parseInt (s : string) : num :=
  match skip_white_space s with
  | String "-" rest => digits_value rest (-1)
  | String "+" rest => digits_value rest 1
  | other => digits_value other 1
  end.

(** *** Form-urlencoding *)

(** Bytes the serializer leaves as they are. *)
Definition is_unreserved (c : ascii) : bool :=
  (is_alpha c || is_digit c
   || Ascii.eqb c "*" || Ascii.eqb c "-" || Ascii.eqb c "." || Ascii.eqb c "_")%bool.

Definition hex_digit (n : N) : ascii :=
  if N.ltb n 10 then ascii_of_N (48 + n) else ascii_of_N (55 + n).

Definition hex_value (c : ascii) : option N :=
  let n := N_of_ascii c in
  if is_digit c then Some (n - 48)%N
  else if in_range "A" "F" c then Some (n - 55)%N
  else if in_range "a" "f" c then Some (n - 87)%N
  else None.

Definition encode_byte (c : ascii) : string :=
  if is_unreserved c then String c EmptyString
  else if Ascii.eqb c " " then "+"
  else
    let n := N_of_ascii c in
    String "%" (String (hex_digit (n / 16)) (String (hex_digit (n mod 16)) EmptyString)).

Fixpoint form_encode (s : string) : string :=
  match s with
  | EmptyString => EmptyString
  | String c rest => encode_byte c ++ form_encode rest
  end.

Fixpoint plus_to_space (s : string) : string :=
  match s with
  | EmptyString => EmptyString
  | String c rest =>
      String (if Ascii.eqb c "+" then " "%char else c) (plus_to_space rest)
  end.

(** A [%] followed by two hexadecimal digits is one byte; any other byte
    stands for itself. *)
Fixpoint percent_decode (s : string) : string :=
  match s with
  | EmptyString => EmptyString
  | String c tail =>
      let plain := String c (percent_decode tail) in
      if Ascii.eqb c "%" then
        match tail with
        | String h (String l rest) =>
            match hex_value h, hex_value l with
            | Some a, Some b =>
                String (ascii_of_N (16 * a + b)) (percent_decode rest)
            | _, _ => plain
            end
        | _ => plain
        end
      else plain
  end.

Definition form_decode (s : string) : string := percent_decode (plus_to_space s).

(** The characters that structure a query and a URL. *)
Definition is_delimiter (c : ascii) : bool :=
  (Ascii.eqb c "&" || Ascii.eqb c "=" || Ascii.eqb c "#" || Ascii.eqb c "?")%bool.

(** *** URLSearchParams *)

Definition URLSearchParams : Type := list (string * string).

Fixpoint get (name : string) (params : URLSearchParams) : option string :=
  match params with
  | [] => None
  | (n, v) :: rest => if String.eqb n name then Some v else get name rest
  end.

Definition has (name : string) (params : URLSearchParams) : bool :=
  match get name params with Some _ => true | None => false end.

Definition remove (name : string) (params : URLSearchParams) : URLSearchParams :=
  List.filter (fun p => negb (String.eqb (fst p) name)) params.

(** [set]: the first pair of that name takes the value and the others go;
    a new name is appended. *)
Fixpoint set (name value : string) (params : URLSearchParams) : URLSearchParams :=
  match params with
  | [] => [(name, value)]
  | (n, v) :: rest =>
      if String.eqb n name then (name, value) :: remove name rest
      else (n, v) :: set name value rest
  end.

(** [toString] *)
Fixpoint serialize (params : URLSearchParams) : string :=
  match params with
  | [] => ""
  | (n, v) :: rest =>
      form_encode n ++ "=" ++ form_encode v ++
      match rest with
      | [] => ""
      | _ => "&" ++ serialize rest
      end
  end.

(** [s] cut at the first [sep]: what is before it, and what is after it if
    there is one. *)
Fixpoint cut_at (sep : ascii) (s : string) : string * option string :=
  match s with
  | EmptyString => (EmptyString, None)
  | String c rest =>
      if Ascii.eqb c sep then (EmptyString, Some rest)
      else let '(before, after) := cut_at sep rest in (String c before, after)
  end.

Fixpoint split_on (sep : ascii) (s : string) : list string :=
  match s with
  | EmptyString => [EmptyString]
  | String c rest =>
      if Ascii.eqb c sep then EmptyString :: split_on sep rest
      else
        match split_on sep rest with
        | first :: others => String c first :: others
        | [] => [String c EmptyString]
        end
  end.

Definition parse_pair (sequence : string) : string * string :=
  let '(name, value) := cut_at "=" sequence in
  (form_decode name,
   form_decode (match value with Some v => v | None => "" end)).

(** The form-urlencoded parser: the sequences between [&], empty ones
    skipped. *)
Definition parse_query (query : string) : URLSearchParams :=
  List.map parse_pair
    (List.filter (fun sequence => negb (String.eqb sequence ""))
                 (split_on "&" query)).

(** [new URLSearchParams(init)] for a string: one leading [?] is dropped. *)
Definition new_URLSearchParams (init : string) : URLSearchParams :=
  match init with
  | String "?" rest => parse_query rest
  | _ => parse_query init
  end.

(** *** URL *)

Definition is_scheme_char (c : ascii) : bool :=
  (is_alpha c || is_digit c
   || Ascii.eqb c "+" || Ascii.eqb c "-" || Ascii.eqb c ".")%bool.

Fixpoint scheme_ends (s : string) : bool :=
  match s with
  | EmptyString => false
  | String c rest =>
      if Ascii.eqb c ":" then true
      else if is_scheme_char c then scheme_ends rest
      else false
  end.

(** An absolute URL starts with a letter and has a [:] after its scheme. *)
Definition has_scheme (s : string) : bool :=
  match s with
  | EmptyString => false
  | String c rest => (is_alpha c && scheme_ends rest)%bool
  end.

Definition query_of (url : string) : string :=
  let '(before_fragment, _) := cut_at "#" url in
  match cut_at "?" before_fragment with
  | (_, Some query) => query
  | (_, None) => ""
  end.

Inductive URLError : Type :=
| InvalidURL.

(** [new URL(input).searchParams]; the constructor throws a TypeError on a
    string that is not an absolute URL. *)
Definition URL_searchParams (input : string) : completion URLSearchParams URLError :=
  if has_scheme input then Normal (parse_query (query_of input))
  else Throw InvalidURL.

End Web.

(* ====================================================================== *)
(** ** features/shareRecipe.js *)

Module ShareRecipe.
Import Web.

Local Open Scope string_scope.

(** The recipe settings [encodeRecipe] is given: the recipe parameters, with
    the page's style id and flour type.  [numBalls] and [ballWeight] are
    whole numbers, as the link stores them; a string property may be missing.
    [bigaHydration] is part of the parameters although no line of
    [encodeRecipe] reads it. *)
Record Recipe : Type := mkRecipe {
  style : option string;
  numBalls : Z;
  ballWeight : Z;
  hydration : Q;
  salt : Q;
  yeast : Q;
  oil : Q;
  sugar : Q;
  usePreFerment : bool;
  preFermentType : option string;
  preFermentFlourPercent : Q;
  bigaHydration : Q;
  humidityAdjust : bool;
  flourType : option string
}.

(** A string property as a condition: missing and [""] are falsy. *)
Definition truthy (s : option string) : bool :=
  match s with
  | Some text => negb (String.eqb text "")
  | None => false
  end.

(** [s || fallback] *)
Definition or_else (s : option string) (fallback : string) : string :=
  match s with
  | Some text => if String.eqb text "" then fallback else text
  | None => fallback
  end.

Definition set_if (condition : bool) (name value : string)
    (params : URLSearchParams) : URLSearchParams :=
  if condition then set name value params else params.

(** [Math.round(x * scale).toString()] *)
Definition scaled (x scale : Q) : string :=
  Number_toString (round_half_up (x * scale)).

(** The [params] that [encodeRecipe] fills in, statement by statement. *)
Definition encode_params (recipe : Recipe) : URLSearchParams :=
  let params := [] in
  let params := set_if (truthy (style recipe)) "s" (or_else (style recipe) "") params in
  let params := set "n" (Number_toString (numBalls recipe)) params in
  let params := set "w" (Number_toString (ballWeight recipe)) params in
  let params := set "h" (scaled (hydration recipe) 100) params in
  let params := set "sa" (scaled (salt recipe) 1000) params in
  let params := set "y" (scaled (yeast recipe) 1000) params in
  let params := set_if (negb (Qle_bool (oil recipe) 0)) "o"
                       (scaled (oil recipe) 100) params in
  let params := set_if (negb (Qle_bool (sugar recipe) 0)) "su"
                       (scaled (sugar recipe) 100) params in
  let params :=
    if usePreFerment recipe then
      let params := set "pf" "1" params in
      let params := set "pft" (or_else (preFermentType recipe) "poolish") params in
      set "pfp" (scaled (preFermentFlourPercent recipe) 100) params
    else params in
  let params := set_if (humidityAdjust recipe) "ha" "1" params in
  set_if (truthy (flourType recipe)) "ft" (or_else (flourType recipe) "") params.

(** [window.location.origin] when there is a window, the site otherwise. *)
Definition baseUrl (window_origin : option string) : string :=
  match window_origin with
  | Some origin => origin
  | None => "https://thepizzadoughformula.com"
  end.

Definition encodeRecipe (window_origin : option string) (recipe : Recipe) : string :=
  baseUrl window_origin ++ "/?" ++ serialize (encode_params recipe).

(** What [decodeRecipe] may be handed, and what a property of the object it
    returns may hold. *)
Inductive value : Type :=
| VUndefined
| VNull
| VBoolean (b : bool)
| VNumber (n : num)
| VString (s : string)
| VSearchParams (params : URLSearchParams)
| VObject (description : string).

(** [if (text) recipe[key] = f(text)] for the text [params.get] returned *)
Definition assign_if_present (key : string) (text : option string)
    (f : string -> value) (recipe : gmap string value) : gmap string value :=
  if truthy text then <[key := f (or_else text "")]> recipe else recipe.

(** [parseInt(text, 10) / scale] *)
Definition parsed (scale : Q) (text : string) : value :=
  VNumber (div (parseInt text) (Fin scale)).

Definition is_one (text : option string) : bool :=
  match text with
  | Some t => String.eqb t "1"
  | None => false
  end.

(** The object [decodeRecipe] builds from [params]. *)
Definition decode_params (params : URLSearchParams) : gmap string value :=
  let recipe : gmap string value := ∅ in
  let recipe := assign_if_present "style" (get "s" params) VString recipe in
  let recipe := assign_if_present "numBalls" (get "n" params)
                  (fun t => VNumber (parseInt t)) recipe in
  let recipe := assign_if_present "ballWeight" (get "w" params)
                  (fun t => VNumber (parseInt t)) recipe in
  let recipe := assign_if_present "hydration" (get "h" params) (parsed 100) recipe in
  let recipe := assign_if_present "salt" (get "sa" params) (parsed 1000) recipe in
  let recipe := assign_if_present "yeast" (get "y" params) (parsed 1000) recipe in
  let recipe := assign_if_present "oil" (get "o" params) (parsed 100) recipe in
  let recipe := assign_if_present "sugar" (get "su" params) (parsed 100) recipe in
  let recipe :=
    if is_one (get "pf" params) then
      let recipe := <["usePreFerment" := VBoolean true]> recipe in
      let recipe := <["preFermentType" :=
                        VString (or_else (get "pft" params) "poolish")]> recipe in
      assign_if_present "preFermentFlourPercent" (get "pfp" params)
                        (parsed 100) recipe
    else recipe in
  let recipe :=
    if is_one (get "ha" params) then <["humidityAdjust" := VBoolean true]> recipe
    else recipe in
  assign_if_present "flourType" (get "ft" params) VString recipe.

(** [decodeRecipe]; [None] is the [null] it returns. *)
Definition decodeRecipe (input : value) : option (gmap string value) :=
  match input with
  | VString text =>
      let params :=
        match URL_searchParams text with
        | Normal searchParams => searchParams
        | Throw _ => new_URLSearchParams text
        end in
      Some (decode_params params)
  | VSearchParams params => Some (decode_params params)
  | _ => None
  end.

End ShareRecipe.

(* ====================================================================== *)
(** ** Share links: predicates and inputs their properties are stated with *)

Module ShareSpec.
Import Web ShareRecipe.

Local Open Scope string_scope.

(** [x] is a whole multiple of [1 / scale]. *)
Definition on_grid (scale x : Q) : Prop :=
  exists k : Z, x * scale == inject_Z k.

(** The precision a link supports: hundredths for hydration, oil, sugar and
    the pre-ferment's share of the flour, thousandths for salt and yeast. *)
Definition within_precision (p : Recipe) : Prop :=
  on_grid 100 (hydration p) /\
  on_grid 1000 (salt p) /\
  on_grid 1000 (yeast p) /\
  on_grid 100 (oil p) /\
  on_grid 100 (sugar p) /\
  on_grid 100 (preFermentFlourPercent p).

(** The percentages as the link writes them, times 100 or 1000 and rounded,
    are below [1e21] in size, so that they are written in plain digits. *)
Definition percentages_in_plain_digits (p : Recipe) : Prop :=
  plain_digits (round_half_up (hydration p * 100)) /\
  plain_digits (round_half_up (salt p * 1000)) /\
  plain_digits (round_half_up (yeast p * 1000)) /\
  plain_digits (round_half_up (oil p * 100)) /\
  plain_digits (round_half_up (sugar p * 100)) /\
  plain_digits (round_half_up (preFermentFlourPercent p * 100)).

(** Every number of the link is written in plain digits. *)
Definition in_plain_digits (p : Recipe) : Prop :=
  plain_digits (numBalls p) /\
  plain_digits (ballWeight p) /\
  percentages_in_plain_digits p.

(** The object [r] has the number [x] under [key]. *)
Definition holds_number (r : gmap string value) (key : string) (x : Q) : Prop :=
  exists q : Q, r !! key = Some (VNumber (Fin q)) /\ q == x.

(** The origin of a page that has a URL origin ([scheme://host]): it starts
    with a scheme and has neither a query nor a fragment.  (A page with an
    opaque origin has the origin ["null"], which has no scheme.) *)
Definition well_formed_origin (window_origin : option string) : Prop :=
  match window_origin with
  | None => True
  | Some origin =>
      has_scheme origin = true /\
      contains "?" origin = false /\
      contains "#" origin = false
  end.

(** What [decodeRecipe] accepts. *)
Definition is_string_or_params (input : value) : bool :=
  match input with
  | VString _ | VSearchParams _ => true
  | _ => false
  end.

(** A biga recipe within the supported precision: 4 balls of 260 g, 65 %
    hydration, 2.5 % salt, 0.2 % yeast, no oil, no sugar, a quarter of the
    flour in a biga of 50 % hydration (the calculator's default is 55 %). *)
Definition biga_recipe : Recipe := {|
  style := Some "poolishBiga";
  numBalls := 4;
  ballWeight := 260;
  hydration := 65 # 100;
  salt := 25 # 1000;
  yeast := 2 # 1000;
  oil := 0;
  sugar := 0;
  usePreFerment := true;
  preFermentType := Some "biga";
  preFermentFlourPercent := 25 # 100;
  bigaHydration := 50 # 100;
  humidityAdjust := false;
  flourType := None
|}.

(** The value [decodeRecipe] assigns for the text [params.get] returned:
    nothing when the text is missing or empty. *)
Definition text_field (text : option string) (f : string -> value) : option value :=
  if truthy text then Some (f (or_else text "")) else None.

(** What of the recipe [p] the object [r] decoded from its link holds:
    the numbers that the link always carries; oil and sugar when positive;
    the pre-ferment's settings when it is used; the humidity flag when set;
    style and flour type when given; and never a [bigaHydration]. *)
Definition carried_over (p : Recipe) (r : gmap string value) : Prop :=
  holds_number r "numBalls" (inject_Z (numBalls p)) /\
  holds_number r "ballWeight" (inject_Z (ballWeight p)) /\
  holds_number r "hydration" (hydration p) /\
  holds_number r "salt" (salt p) /\
  holds_number r "yeast" (yeast p) /\
  (if Qle_bool (oil p) 0 then r !! "oil" = None
   else holds_number r "oil" (oil p)) /\
  (if Qle_bool (sugar p) 0 then r !! "sugar" = None
   else holds_number r "sugar" (sugar p)) /\
  (if usePreFerment p then
     r !! "usePreFerment" = Some (VBoolean true) /\
     r !! "preFermentType" = Some (VString (or_else (preFermentType p) "poolish")) /\
     holds_number r "preFermentFlourPercent" (preFermentFlourPercent p)
   else
     r !! "usePreFerment" = None /\
     r !! "preFermentType" = None /\
     r !! "preFermentFlourPercent" = None) /\
  r !! "humidityAdjust" = (if humidityAdjust p then Some (VBoolean true) else None) /\
  r !! "style" = (if truthy (style p) then option_map VString (style p) else None) /\
  r !! "flourType" =
    (if truthy (flourType p) then option_map VString (flourType p) else None) /\
  r !! "bigaHydration" = None.

End ShareSpec.

(* ====================================================================== *)
(** ** The engine: further predicates and inputs *)

Module EngineMore.
Import Engine.

(** A weight that is a number and not below zero. *)
Definition nonnegative_weight (a : num) : Prop :=
  exists q : Q, a = Fin q /\ 0 <= q.

(** The calculator [c] with its humidity switch set to [b]. *)
Definition with_humidityAdjust (b : bool) (c : DoughCalculator) : DoughCalculator := {|
  numBalls := numBalls c;
  ballWeight := ballWeight c;
  hydration := hydration c;
  salt := salt c;
  yeast := yeast c;
  oil := oil c;
  sugar := sugar c;
  humidityAdjust := b;
  usePreFerment := usePreFerment c;
  preFermentType := preFermentType c;
  preFermentFlourPercent := preFermentFlourPercent c;
  bigaHydration := bigaHydration c
|}.

(** [totalWeight] of either kind of result. *)
Definition totalWeight (r : CalculatedRecipe) : num :=
  match r with
  | single _ tw _ => tw
  | two_stage _ _ tw _ => tw
  end.

(** A poolish that takes half of the flour of a dough of 20 % hydration:
    it needs more water than the whole recipe has. *)
Definition dry_dough_with_poolish : DoughCalculator := {|
  numBalls := 4;
  ballWeight := 250;
  hydration := 20 # 100;
  salt := 2 # 100;
  yeast := 3 # 1000;
  oil := 0;
  sugar := 0;
  humidityAdjust := false;
  usePreFerment := true;
  preFermentType := "poolish";
  preFermentFlourPercent := 50 # 100;
  bigaHydration := 55 # 100
|}.

End EngineMore.

(* ====================================================================== *)
(** ** calculator/engine.js: the calculator to and from URL parameters *)

Module EngineURL.
Import Web Engine.

Local Open Scope string_scope.

(** *** [parseInt] without a radix: a [0x] prefix selects base 16 *)

Definition hex_digit_of_ascii (c : ascii)
  : option (Hexadecimal.uint -> Hexadecimal.uint) :=
  match hex_value c with
  | Some 0%N => Some Hexadecimal.D0
  | Some 1%N => Some Hexadecimal.D1
  | Some 2%N => Some Hexadecimal.D2
  | Some 3%N => Some Hexadecimal.D3
  | Some 4%N => Some Hexadecimal.D4
  | Some 5%N => Some Hexadecimal.D5
  | Some 6%N => Some Hexadecimal.D6
  | Some 7%N => Some Hexadecimal.D7
  | Some 8%N => Some Hexadecimal.D8
  | Some 9%N => Some Hexadecimal.D9
  | Some 10%N => Some Hexadecimal.Da
  | Some 11%N => Some Hexadecimal.Db
  | Some 12%N => Some Hexadecimal.Dc
  | Some 13%N => Some Hexadecimal.Dd
  | Some 14%N => Some Hexadecimal.De
  | Some 15%N => Some Hexadecimal.Df
  | _ => None
  end.

Fixpoint leading_hex_digits (s : string) : Hexadecimal.uint :=
  match s with
  | EmptyString => Hexadecimal.Nil
  | String c rest =>
      match hex_digit_of_ascii c with
      | Some d => d (leading_hex_digits rest)
      | None => Hexadecimal.Nil
      end
  end.

Definition hex_digits_value (s : string) (sign : Z) : num :=
  match leading_hex_digits s with
  | Hexadecimal.Nil => NaN
  | digits => Fin (inject_Z (sign * Z.of_hex_uint digits))
  end.

(** The digits after the sign: hexadecimal after [0x] or [0X], decimal
    otherwise. *)
Definition unsigned_value (s : string) (sign : Z) : num :=
  match s with
  | String "0" (String x rest) =>
      if (Ascii.eqb x "x" || Ascii.eqb x "X")%bool
      then hex_digits_value rest sign
      else digits_value s sign
  | _ => digits_value s sign
  end.

(** [parseInt(s)] *)
Definition parseInt_any_radix (s : string) : num :=
  match skip_white_space s with
  | String "-" rest => unsigned_value rest (-1)
  | String "+" rest => unsigned_value rest 1
  | other => unsigned_value other 1
  end.

(** [parseInt(params.get(name))]: the text of a missing parameter is
    ["null"], which is no number. *)
Definition parseInt_of (text : option string) : num :=
  match text with
  | Some t => parseInt_any_radix t
  | None => NaN
  end.

(** *** The options that [fromURLParams] hands to the constructor *)

(** [x || undefined] for a number: zero and NaN are falsy. *)
Definition or_undefined (x : num) : option num :=
  match x with
  | NaN => None
  | Fin q => if Qeq_bool q 0 then None else Some x
  | _ => Some x
  end.

(** [params.has(name) ? parseInt(params.get(name)) / scale : undefined] *)
Definition scaled_option (params : URLSearchParams) (name : string) (scale : Q)
  : option num :=
  if has name params
  then Some (div (parseInt_of (get name params)) (Fin scale))
  else None.

(** [params.get(name) === '1'] *)
Definition is_one (text : option string) : bool :=
  match text with
  | Some t => String.eqb t "1"
  | None => false
  end.

(** [params.get('pft') || undefined] *)
Definition text_or_undefined (text : option string) : option string :=
  match text with
  | Some t => if String.eqb t "" then None else Some t
  | None => None
  end.

(** The options object, with numbers as the language has them. *)
Record URLOptions : Type := mkURLOptions {
  url_numBalls : option num;
  url_ballWeight : option num;
  url_hydration : option num;
  url_salt : option num;
  url_yeast : option num;
  url_oil : option num;
  url_sugar : option num;
  url_usePreFerment : bool;
  url_preFermentType : option string;
  url_preFermentFlourPercent : option num;
  url_humidityAdjust : bool
}.

Definition options_from_params (params : URLSearchParams) : URLOptions := {|
  url_numBalls := or_undefined (parseInt_of (get "n" params));
  url_ballWeight := or_undefined (parseInt_of (get "w" params));
  url_hydration := scaled_option params "h" 100;
  url_salt := scaled_option params "sa" 1000;
  url_yeast := scaled_option params "y" 1000;
  url_oil := scaled_option params "o" 100;
  url_sugar := scaled_option params "su" 100;
  url_usePreFerment := is_one (get "pf" params);
  url_preFermentType := text_or_undefined (get "pft" params);
  url_preFermentFlourPercent := scaled_option params "pfp" 100;
  url_humidityAdjust := is_one (get "ha" params)
|}.

(** The fields of the calculator that [fromURLParams] returns, with numbers
    as the language has them: the constructor keeps whatever number it is
    given, so a parameter that is present and holds no number leaves NaN in
    its field. *)
Record CalculatorFields : Type := mkFields {
  f_numBalls : num;
  f_ballWeight : num;
  f_hydration : num;
  f_salt : num;
  f_yeast : num;
  f_oil : num;
  f_sugar : num;
  f_humidityAdjust : bool;
  f_usePreFerment : bool;
  f_preFermentType : string;
  f_preFermentFlourPercent : num;
  f_bigaHydration : num
}.

(** [new DoughCalculator(options)] for these options: each field is the
    option, or the constructor's default when the option is [undefined]. *)
Definition construct (o : URLOptions) : CalculatorFields := {|
  f_numBalls := nullish (url_numBalls o) (Fin 4);
  f_ballWeight := nullish (url_ballWeight o) (Fin 250);
  f_hydration := nullish (url_hydration o) (Fin (65 # 100));
  f_salt := nullish (url_salt o) (Fin (2 # 100));
  f_yeast := nullish (url_yeast o) (Fin (3 # 1000));
  f_oil := nullish (url_oil o) (Fin 0);
  f_sugar := nullish (url_sugar o) (Fin 0);
  f_humidityAdjust := url_humidityAdjust o;
  f_usePreFerment := url_usePreFerment o;
  f_preFermentType := nullish (url_preFermentType o) "poolish";
  f_preFermentFlourPercent := nullish (url_preFermentFlourPercent o) (Fin (25 # 100));
  f_bigaHydration := Fin (55 # 100)
|}.

(** [DoughCalculator.fromURLParams(params)]: always a calculator. *)
Definition fromURLParams (params : URLSearchParams) : CalculatorFields :=
  construct (options_from_params params).

Definition finite (x : num) : option Q :=
  match x with
  | Fin q => Some q
  | _ => None
  end.

(** The calculator of the engine, whose fields are finite numbers, that has
    these fields; there is none when a field is NaN or infinite. *)
Definition as_calculator (f : CalculatorFields) : option DoughCalculator :=
  match finite (f_numBalls f), finite (f_ballWeight f),
        finite (f_hydration f), finite (f_salt f), finite (f_yeast f),
        finite (f_oil f), finite (f_sugar f),
        finite (f_preFermentFlourPercent f), finite (f_bigaHydration f) with
  | Some n, Some w, Some h, Some sa, Some y, Some oi, Some su, Some pfp, Some bh =>
      Some {|
        numBalls := n;
        ballWeight := w;
        hydration := h;
        salt := sa;
        yeast := y;
        oil := oi;
        sugar := su;
        humidityAdjust := f_humidityAdjust f;
        usePreFerment := f_usePreFerment f;
        preFermentType := f_preFermentType f;
        preFermentFlourPercent := pfp;
        bigaHydration := bh
      |}
  | _, _, _, _, _, _, _, _, _ => None
  end.

(** *** [toURLParams] *)

Section ToURLParams.

(** [x.toString()] for a number that is not whole: its digits depend on
    the binary representation and are left open. *)
Variable fraction_text : Q -> string.

(** [x.toString()] *)
Definition number_text (x : Q) : string :=
  let reduced := Qred x in
  match Qden reduced with
  | xH => Number_toString (Qnum reduced)
  | _ => fraction_text x
  end.

Definition set_if (condition : bool) (name value : string)
    (params : URLSearchParams) : URLSearchParams :=
  if condition then set name value params else params.

Definition toURLParams (this : DoughCalculator) : URLSearchParams :=
  let params := [] in
  let params := set "n" (number_text (numBalls this)) params in
  let params := set "w" (number_text (ballWeight this)) params in
  let params := set "h" (Number_toString (round_half_up (hydration this * 100))) params in
  let params := set "sa" (Number_toString (round_half_up (salt this * 1000))) params in
  let params := set "y" (Number_toString (round_half_up (yeast this * 1000))) params in
  let params := set_if (negb (Qle_bool (oil this) 0)) "o"
                  (Number_toString (round_half_up (oil this * 100))) params in
  let params := set_if (negb (Qle_bool (sugar this) 0)) "su"
                  (Number_toString (round_half_up (sugar this * 100))) params in
  let params :=
    if usePreFerment this then
      let params := set "pf" "1" params in
      let params := set "pft" (preFermentType this) params in
      set "pfp" (Number_toString
                   (round_half_up (preFermentFlourPercent this * 100))) params
    else params in
  set_if (humidityAdjust this) "ha" "1" params.

End ToURLParams.

(** The numbers that [toURLParams] writes after rounding are below [1e21]
    in size, so that they are written in plain digits. *)
Definition percentages_in_plain_digits (c : DoughCalculator) : Prop :=
  plain_digits (round_half_up (hydration c * 100)) /\
  plain_digits (round_half_up (salt c * 1000)) /\
  plain_digits (round_half_up (yeast c * 1000)) /\
  plain_digits (round_half_up (oil c * 100)) /\
  plain_digits (round_half_up (sugar c * 100)) /\
  plain_digits (round_half_up (preFermentFlourPercent c * 100)).

(** What comes back of a calculator that went through its URL parameters. *)
Definition restored_from (c c' : DoughCalculator) : Prop :=
  numBalls c' == numBalls c /\
  ballWeight c' == ballWeight c /\
  hydration c' == hydration c /\
  salt c' == salt c /\
  yeast c' == yeast c /\
  oil c' == (if Qle_bool (oil c) 0 then 0 else oil c) /\
  sugar c' == (if Qle_bool (sugar c) 0 then 0 else sugar c) /\
  humidityAdjust c' = humidityAdjust c /\
  usePreFerment c' = usePreFerment c /\
  preFermentType c' =
    (if usePreFerment c
     then (if String.eqb (preFermentType c) "" then "poolish" else preFermentType c)
     else "poolish") /\
  preFermentFlourPercent c' ==
    (if usePreFerment c then preFermentFlourPercent c else 25 # 100) /\
  bigaHydration c' == 55 # 100.

(** A parsed number that [x || undefined] discards: zero, or no number. *)
Definition discarded (x : num) : Prop :=
  match x with
  | NaN => True
  | Fin q => q == 0
  | _ => False
  end.

(** A biga calculator whose biga hydration is not the default. *)
Definition biga_calculator : DoughCalculator := {|
  numBalls := 4;
  ballWeight := 260;
  hydration := 65 # 100;
  salt := 25 # 1000;
  yeast := 2 # 1000;
  oil := 0;
  sugar := 0;
  humidityAdjust := true;
  usePreFerment := true;
  preFermentType := "biga";
  preFermentFlourPercent := 30 # 100;
  bigaHydration := 50 # 100
|}.

End EngineURL.

(* ====================================================================== *)
(** ** The timer: further predicates and states *)

Module EmergencyTimerMore.
Import EmergencyTimer.

Local Open Scope string_scope.
Local Open Scope Z_scope.

(** The same timer when the clock shows [t]. *)
Definition advance (t : Z) (s : State) : State :=
  (fst s, at_time t (snd s)).

Definition flag (b : bool) : nat := if b then 1%nat else 0%nat.

(** The duration a loaded snapshot leaves: its own, unless that is zero. *)
Definition loaded_duration (d : Z) (state : Snapshot) : Z :=
  if snap_duration state =? 0 then d else snap_duration state.

(** A new timer of two hours in a browser with an empty store, at noon of
    the example day. *)
Definition fresh_world : World := {|
  now := T;
  localStorage := Some ∅;
  audio := true;
  timeouts := [];
  log := []
|}.

Definition fresh : State :=
  let '(t, w) := constructor DEFAULT_DURATION fresh_world in
  (set_callbacks t, w).

(** The specification's example of a resumed timer: ninety minutes were
    left at [T], the page comes back forty-five minutes later. *)
Definition running_snapshot : Snapshot := {|
  snap_remaining := 5400000;
  snap_isRunning := true;
  snap_savedAt := T;
  snap_duration := DEFAULT_DURATION
|}.

Definition running_world : World := {|
  now := T + 2700000;
  localStorage := Some {[ "emergencyTimer" := Json running_snapshot ]};
  audio := true;
  timeouts := [];
  log := []
|}.

End EmergencyTimerMore.

(* ====================================================================== *)
(** ** features/shareRecipe.js: the recipe of the page's own URL *)

Module ShareRecipeMore.
Import Web ShareRecipe.

Local Open Scope string_scope.

(** [hasRecipeInURL()]; [window_search] is [window.location.search], or
    [None] where there is no window. *)
Definition hasRecipeInURL (window_search : option string) : bool :=
  match window_search with
  | None => false
  | Some search =>
      let params := new_URLSearchParams search in
      (has "n" params || has "s" params)%bool
  end.

(** [getRecipeFromURL()] *)
Definition getRecipeFromURL (window_search : option string)
  : option (gmap string value) :=
  match window_search with
  | None => None
  | Some search =>
      if negb (hasRecipeInURL window_search) then None
      else decodeRecipe (VString search)
  end.

(** The parameter names [decodeRecipe] reads. *)
Definition PARAM_MAP_keys : list string :=
  [ "s"; "n"; "w"; "h"; "sa"; "y"; "o"; "su"; "pf"; "pft"; "pfp"; "ha"; "ft" ].

(** The numbers [decodeRecipe] reads whatever the other parameters are:
    the parameter, the property it becomes, and the scale it is divided by. *)
Definition numeric_parameters : list (string * string * Q) :=
  [ ("n", "numBalls", 1); ("w", "ballWeight", 1);
    ("h", "hydration", 100); ("sa", "salt", 1000); ("y", "yeast", 1000);
    ("o", "oil", 100); ("su", "sugar", 100) ].

(** The object [r] has under [key] a number within [tolerance] of [x]. *)
Definition holds_number_within (r : gmap string value) (key : string)
    (x tolerance : Q) : Prop :=
  exists q : Q, r !! key = Some (VNumber (Fin q)) /\ Qabs (q - x) <= tolerance.

(** A recipe off the grid of the link: 66.6 % hydration, 2.25 % salt,
    0.35 % yeast, 0.4 % oil. *)
Definition off_grid_recipe : Recipe := {|
  style := None;
  numBalls := 6;
  ballWeight := 270;
  hydration := 666 # 1000;
  salt := 225 # 10000;
  yeast := 35 # 10000;
  oil := 4 # 1000;
  sugar := 0;
  usePreFerment := true;
  preFermentType := None;
  preFermentFlourPercent := 333 # 1000;
  bigaHydration := 55 # 100;
  humidityAdjust := true;
  flourType := None
|}.

End ShareRecipeMore.

(* ====================================================================== *)
(** ** calculator/units.js *)

Module Units.
Import Web.

Local Open Scope string_scope.

Definition GRAMS_PER_OUNCE : Q := 283495 # 10000.

(** A unit definition of [UNITS]. *)
Record UnitDefinition : Type := mkUnit {
  id : string;
  name : string;
  abbrev : string;
  convert : num -> num
}.

Definition grams_unit : UnitDefinition := {|
  id := "grams"; name := "Grams"; abbrev := "g";
  convert := fun grams => grams |}.

Definition ounces_unit : UnitDefinition := {|
  id := "ounces"; name := "Ounces"; abbrev := "oz";
  convert := fun grams => div grams (Fin GRAMS_PER_OUNCE) |}.

(** The own properties of [UNITS]. *)
Definition UNITS : list (string * UnitDefinition) :=
  [ ("grams", grams_unit); ("ounces", ounces_unit) ].

(** What [UNITS[unit]] evaluates to: a unit definition, a property that
    [UNITS] inherits from [Object.prototype], or [undefined]. *)
Inductive property : Type :=
| Unit (definition : UnitDefinition)
| Builtin (name : string)
| Undefined.

Fixpoint own_property (key : string) (object : list (string * UnitDefinition))
  : option UnitDefinition :=
  match object with
  | [] => None
  | (k, v) :: rest => if String.eqb k key then Some v else own_property key rest
  end.

Definition get_property (key : string) : property :=
  match own_property key UNITS with
  | Some definition => Unit definition
  | None =>
      if existsb (String.eqb key) Presets.Object_prototype_names
      then Builtin key
      else Undefined
  end.

Inductive TypeError : Type :=
| NotAFunction (name : string)
| CannotReadProperty (name : string).

(** The parameter default [unit = 'grams']; [None] is a unit left out. *)
Definition or_grams (unit : option string) : string :=
  match unit with
  | Some u => u
  | None => "grams"
  end.

(** [Math.round(x * 10) / 10] *)
Definition round_to_tenth (x : num) : num :=
  div (Math_round (mul x (Fin 10))) (Fin 10).

(** [convertWeight(grams, unit)].  An inherited property is truthy and has
    no [convert], so calling it throws. *)
Definition convertWeight (grams : num) (unit : option string)
  : completion num TypeError :=
  let unit := or_grams unit in
  match get_property unit with
  | Undefined => Normal grams
  | Builtin _ => Throw (NotAFunction "convert")
  | Unit unitDef =>
      let converted := convert unitDef grams in
      if String.eqb unit "ounces" then Normal (round_to_tenth converted)
      else Normal (Math_round converted)
  end.

(** [a < limit], [false] for NaN. *)
Definition below (a : num) (limit : Q) : bool :=
  match a with
  | Fin q => negb (Qle_bool limit q)
  | NInf => true
  | _ => false
  end.

Section Formatting.

(** The digits of a number that is not whole, left open as for the URL
    parameters of the calculator. *)
Variable fraction_text : Q -> string.

(** A number inside a template literal. *)
Definition Number_text (x : num) : string :=
  match x with
  | Fin q => EngineURL.number_text fraction_text q
  | PInf => "Infinity"
  | NInf => "-Infinity"
  | NaN => "NaN"
  end.

(** [formatWeight(grams, unit)] *)
Definition formatWeight (grams : num) (unit : option string)
  : completion string TypeError :=
  let unit := or_grams unit in
  match convertWeight grams (Some unit) with
  | Throw e => Throw e
  | Normal converted =>
      match get_property unit with
      | Unit unitDef => Normal (Number_text converted ++ abbrev unitDef)
      | Builtin _ => Normal (Number_text converted ++ "undefined")
      | Undefined => Throw (CannotReadProperty "abbrev")
      end
  end.

(** [formatWeightPrecise(grams, unit)] *)
Definition formatWeightPrecise (grams : num) (unit : option string)
  : completion string TypeError :=
  let unit := or_grams unit in
  match get_property unit with
  | Undefined => Throw (CannotReadProperty "convert")
  | Builtin _ => Throw (NotAFunction "convert")
  | Unit unitDef =>
      let converted := convert unitDef grams in
      let converted :=
        if below grams 10 then round_to_tenth converted
        else Math_round converted in
      Normal (Number_text converted ++ abbrev unitDef)
  end.

End Formatting.

(** [localStorage] as these functions use it: text under a key; [None] when
    the global is undefined.  The store is taken to accept the item. *)
Definition Storage : Type := option (gmap string string).

(** [getStoredUnit()] *)
Definition getStoredUnit (localStorage : Storage) : string :=
  match localStorage with
  | None => "grams"
  | Some store => ShareRecipe.or_else (store !! "preferredUnit") "grams"
  end.

(** [setStoredUnit(unit)] *)
Definition setStoredUnit (unit : string) (localStorage : Storage) : Storage :=
  match localStorage with
  | None => None
  | Some store => Some (<["preferredUnit" := unit]> store)
  end.

(** [toggleUnit(currentUnit)] *)
Definition toggleUnit (currentUnit : string) : string :=
  if String.eqb currentUnit "grams" then "ounces" else "grams".

End Units.
(* ====================================================================== *)
(** ** features/volumeConverter.js *)

Module VolumeConverter.

Local Open Scope string_scope.

(** An ingredient of [VOLUME_CONVERSIONS]; a rate the object lacks is
    [None]. *)
Record Ingredient : Type := mkIngredient {
  id : string;
  name : string;
  gramsPerCup : option Q;
  gramsPerTsp : option Q;
  gramsPerTbsp : option Q;
  commonMeasures : list (string * Q)
}.

Definition cup_measures (quarter third half two_thirds three_quarters one : Q)
  : list (string * Q) :=
  [ ("1/4", quarter); ("1/3", third); ("1/2", half);
    ("2/3", two_thirds); ("3/4", three_quarters); ("1", one) ].

Definition allPurposeFlour : Ingredient := {|
  id := "allPurposeFlour"; name := "All-Purpose Flour";
  gramsPerCup := Some 125; gramsPerTsp := None; gramsPerTbsp := None;
  commonMeasures := cup_measures 31 42 63 83 94 125 |}.

Definition breadFlour : Ingredient := {|
  id := "breadFlour"; name := "Bread Flour";
  gramsPerCup := Some 127; gramsPerTsp := None; gramsPerTbsp := None;
  commonMeasures := cup_measures 32 42 64 85 95 127 |}.

Definition doubleZeroFlour : Ingredient := {|
  id := "00Flour"; name := "00 Flour";
  gramsPerCup := Some 115; gramsPerTsp := None; gramsPerTbsp := None;
  commonMeasures := cup_measures 29 38 58 77 86 115 |}.

Definition wholeWheatFlour : Ingredient := {|
  id := "wholeWheatFlour"; name := "Whole Wheat Flour";
  gramsPerCup := Some 120; gramsPerTsp := None; gramsPerTbsp := None;
  commonMeasures := cup_measures 30 40 60 80 90 120 |}.

Definition semolinaFlour : Ingredient := {|
  id := "semolinaFlour"; name := "Semolina Flour";
  gramsPerCup := Some 167; gramsPerTsp := None; gramsPerTbsp := None;
  commonMeasures := cup_measures 42 56 84 111 125 167 |}.

Definition water : Ingredient := {|
  id := "water"; name := "Water";
  gramsPerCup := Some 237; gramsPerTsp := None; gramsPerTbsp := None;
  commonMeasures := cup_measures 59 79 119 158 178 237 |}.

Definition sugar : Ingredient := {|
  id := "sugar"; name := "Granulated Sugar";
  gramsPerCup := Some 200; gramsPerTsp := None; gramsPerTbsp := None;
  commonMeasures := cup_measures 50 67 100 133 150 200 |}.

Definition tableSalt : Ingredient := {|
  id := "tableSalt"; name := "Table Salt";
  gramsPerCup := Some 273; gramsPerTsp := Some 6; gramsPerTbsp := Some 18;
  commonMeasures :=
    [ ("1 tsp", 6); ("2 tsp", 12); ("1 tbsp", 18); ("2 tbsp", 36) ] |}.

Definition kosherSalt : Ingredient := {|
  id := "kosherSalt"; name := "Kosher Salt (Diamond Crystal)";
  gramsPerCup := Some 160; gramsPerTsp := Some 3; gramsPerTbsp := Some 9;
  commonMeasures :=
    [ ("1 tsp", 3); ("2 tsp", 6); ("1 tbsp", 9); ("2 tbsp", 18) ] |}.

Definition oliveOil : Ingredient := {|
  id := "oliveOil"; name := "Olive Oil";
  gramsPerCup := Some 216; gramsPerTsp := None; gramsPerTbsp := Some 14;
  commonMeasures :=
    [ ("1 tbsp", 14); ("2 tbsp", 28); ("1/4", 54); ("1/2", 108) ] |}.

Definition instantYeast : Ingredient := {|
  id := "instantYeast"; name := "Instant Yeast";
  gramsPerCup := None; gramsPerTsp := Some 3; gramsPerTbsp := None;
  commonMeasures :=
    [ ("1/4 tsp", 75 # 100); ("1/2 tsp", 15 # 10); ("1 tsp", 3); ("2 tsp", 6) ] |}.

Definition activeYeast : Ingredient := {|
  id := "activeYeast"; name := "Active Dry Yeast";
  gramsPerCup := None; gramsPerTsp := Some 4; gramsPerTbsp := None;
  commonMeasures :=
    [ ("1/4 tsp", 1); ("1/2 tsp", 2); ("1 tsp", 4); ("2 tsp", 8) ] |}.

(** The own properties of [VOLUME_CONVERSIONS], in the order of the source. *)
Definition VOLUME_CONVERSIONS : list (string * Ingredient) :=
  [ ("allPurposeFlour", allPurposeFlour); ("breadFlour", breadFlour);
    ("00Flour", doubleZeroFlour); ("wholeWheatFlour", wholeWheatFlour);
    ("semolinaFlour", semolinaFlour); ("water", water); ("sugar", sugar);
    ("tableSalt", tableSalt); ("kosherSalt", kosherSalt);
    ("oliveOil", oliveOil); ("instantYeast", instantYeast);
    ("activeYeast", activeYeast) ].

(** The own properties of [FRACTIONS]. *)
Definition FRACTIONS : list (string * Q) :=
  [ ("1/4", 25 # 100); ("1/3", 333 # 1000); ("1/2", 5 # 10);
    ("2/3", 667 # 1000); ("3/4", 75 # 100); ("1", 1);
    ("1 1/4", 125 # 100); ("1 1/2", 15 # 10); ("2", 2); ("3", 3) ].

(** What [VOLUME_CONVERSIONS[id]] evaluates to. *)
Inductive property : Type :=
| Found (ingredient : Ingredient)
| Builtin (name : string)
| Undefined.

Fixpoint own_property {A : Type} (key : string) (object : list (string * A))
  : option A :=
  match object with
  | [] => None
  | (k, v) :: rest => if String.eqb k key then Some v else own_property key rest
  end.

Definition get_property (key : string) : property :=
  match own_property key VOLUME_CONVERSIONS with
  | Some ingredient => Found ingredient
  | None =>
      if existsb (String.eqb key) Presets.Object_prototype_names
      then Builtin key
      else Undefined
  end.

(** A rate read off [VOLUME_CONVERSIONS[id]] and used as a condition: the
    rate when there is one and it is not zero.  An inherited property is an
    object without rates. *)
Definition rate (field : Ingredient -> option Q) (p : property) : option Q :=
  match p with
  | Found ingredient =>
      match field ingredient with
      | Some r => if Qeq_bool r 0 then None else Some r
      | None => None
      end
  | _ => None
  end.

(** [cupsToGrams(cups, ingredientId)]; [None] is [null]. *)
Definition cupsToGrams (cups : num) (ingredientId : string) : option num :=
  let ingredient := get_property ingredientId in
  match rate gramsPerCup ingredient with
  | None => None
  | Some perCup => Some (Math_round (mul cups (Fin perCup)))
  end.

(** [Math.round(x * 10) / 10] *)
Definition round_to_tenth (x : num) : num :=
  div (Math_round (mul x (Fin 10))) (Fin 10).

(** [tbspToGrams(tbsp, ingredientId)] *)
Definition tbspToGrams (tbsp : num) (ingredientId : string) : option num :=
  let ingredient := get_property ingredientId in
  match rate gramsPerTbsp ingredient with
  | Some perTbsp => Some (round_to_tenth (mul tbsp (Fin perTbsp)))
  | None =>
      match rate gramsPerCup ingredient with
      | Some perCup =>
          Some (round_to_tenth (mul (div tbsp (Fin 16)) (Fin perCup)))
      | None => None
      end
  end.

(** [tspToGrams(tsp, ingredientId)] *)
Definition tspToGrams (tsp : num) (ingredientId : string) : option num :=
  let ingredient := get_property ingredientId in
  match rate gramsPerTsp ingredient with
  | Some perTsp => Some (round_to_tenth (mul tsp (Fin perTsp)))
  | None =>
      match rate gramsPerCup ingredient with
      | Some perCup =>
          Some (round_to_tenth (mul (div tsp (Fin 48)) (Fin perCup)))
      | None => None
      end
  end.

(** [getAllIngredients()] *)
Definition getAllIngredients : list Ingredient := map snd VOLUME_CONVERSIONS.

(** [getIngredientById(id)] *)
Definition getIngredientById (id : string) : property := get_property id.

End VolumeConverter.
(* ====================================================================== *)
(** ** Properties of the engine *)

Module EngineProofs.
Import Engine EngineSpec.

(** *** Rounding *)

Lemma round_Fin_0 (x : Q) :
  round (Fin x) 0 = Fin (inject_Z (Qfloor (x * 1 + (1 # 2))) / 1).
Proof. reflexivity. Qed.

Lemma round_Fin_1 (x : Q) :
  round (Fin x) 1 = Fin (inject_Z (Qfloor (x * (10 # 1) + (1 # 2))) / (10 # 1)).
Proof. reflexivity. Qed.

Lemma floor_half_bounds (y : Q) :
  inject_Z (Qfloor (y + (1 # 2))) - (1 # 2) <= y /\
  y < inject_Z (Qfloor (y + (1 # 2))) + (1 # 2).
Proof.
  pose proof (Qfloor_le (y + (1 # 2))) as Hlo.
  pose proof (Qlt_floor (y + (1 # 2))) as Hhi.
  rewrite inject_Z_plus in Hhi.
  change (inject_Z 1) with 1 in Hhi.
  split; lra.
Qed.

Lemma rounded_to_round_0 (x : num) :
  rounded_to 0 x (round x 0).
Proof.
  destruct x as [x | | |]; try exact I.
  rewrite round_Fin_0. cbn [rounded_to].
  exists (Qfloor (x * 1 + (1 # 2))).
  change (pow10 0) with 1.
  split; [reflexivity |].
  destruct (floor_half_bounds (x * 1)) as [Hlo Hhi].
  apply Qabs_Qle_condition.
  set (z := inject_Z (Qfloor (x * 1 + (1 # 2)))) in *.
  assert (Hz : z / 1 == z) by (field).
  assert (Ht : (1 # 2) / 1 == 1 # 2) by reflexivity.
  rewrite Hz, Ht. split; lra.
Qed.

Lemma rounded_to_round_1 (x : num) :
  rounded_to 1 x (round x 1).
Proof.
  destruct x as [x | | |]; try exact I.
  rewrite round_Fin_1. cbn [rounded_to].
  exists (Qfloor (x * (10 # 1) + (1 # 2))).
  change (pow10 1) with (10 # 1).
  split; [reflexivity |].
  destruct (floor_half_bounds (x * (10 # 1))) as [Hlo Hhi].
  apply Qabs_Qle_condition.
  set (z := inject_Z (Qfloor (x * (10 # 1) + (1 # 2)))) in *.
  assert (Hz : z / (10 # 1) == z * (1 # 10)) by (field).
  assert (Ht : (1 # 2) / (10 # 1) == 1 # 20) by reflexivity.
  rewrite Hz, Ht. split; lra.
Qed.

(** *** The flour weight *)

Lemma flourWeight_defined (c : DoughCalculator) :
  ~ totalPercentage c == 0 ->
  flourWeight c = Fin (totalDoughWeight c / totalPercentage c).
Proof.
  intros Hd. unfold flourWeight, div.
  destruct (Qeq_bool (totalPercentage c) 0) eqn:E; [| reflexivity].
  apply Qeq_bool_iff in E. contradiction.
Qed.

Lemma flourWeight_undefined (c : DoughCalculator) :
  totalPercentage c == 0 ->
  flourWeight c = signed_inf (totalDoughWeight c).
Proof.
  intros Hd. unfold flourWeight, div.
  apply Qeq_bool_iff in Hd. now rewrite Hd.
Qed.

Lemma calculate_single (c : DoughCalculator) :
  usePreFerment c = false ->
  calculate c =
    single
      {| Ingredients.flour := round (flourWeight c) 0;
         Ingredients.water := round (waterWeight c) 0;
         Ingredients.salt := round (mul (flourWeight c) (Fin (salt c))) 1;
         Ingredients.yeast := round (mul (flourWeight c) (Fin (yeast c))) 1;
         Ingredients.oil := round (mul (flourWeight c) (Fin (oil c))) 0;
         Ingredients.sugar := round (mul (flourWeight c) (Fin (sugar c))) 0 |}
      (round (Fin (totalDoughWeight c)) 0)
      {| Percentages.hydration := effectiveHydration c * 100;
         Percentages.salt := salt c * 100;
         Percentages.yeast := yeast c * 100;
         Percentages.oil := oil c * 100;
         Percentages.sugar := sugar c * 100 |}.
Proof. intros H. unfold calculate. now rewrite H. Qed.

Lemma calculate_two_stage (c : DoughCalculator) :
  usePreFerment c = true ->
  calculate c =
    calculateWithPreFerment c (flourWeight c) (waterWeight c)
      (mul (flourWeight c) (Fin (salt c)))
      (mul (flourWeight c) (Fin (yeast c)))
      (mul (flourWeight c) (Fin (oil c)))
      (mul (flourWeight c) (Fin (sugar c)))
      {| Percentages.hydration := effectiveHydration c * 100;
         Percentages.salt := salt c * 100;
         Percentages.yeast := yeast c * 100;
         Percentages.oil := oil c * 100;
         Percentages.sugar := sugar c * 100 |}.
Proof. intros H. unfold calculate. now rewrite H. Qed.

(** *** C7: the rounding policy *)

(** C7.  Whatever the input, the weights [calculate] returns are the unrounded
    weights rounded to whole grams (flour, water, oil, sugar) and to one
    decimal place (salt, yeast); on the worked example (4 balls of 250 g,
    hydration 0.65, salt 0.02, yeast 0.003, no oil or sugar) the result is
    flour 598, water 389, salt 12.0, yeast 1.8. *)
Theorem calculate_rounding_policy :
  (forall c : DoughCalculator, rounding_policy c (calculate c)) /\
  (exists ing tw pc,
     calculate (constructor example_options) = single ing tw pc /\
     num_eq (Ingredients.flour ing) (Fin 598) /\
     num_eq (Ingredients.water ing) (Fin 389) /\
     num_eq (Ingredients.salt ing) (Fin 12) /\
     num_eq (Ingredients.yeast ing) (Fin (18 # 10))).
Proof.
  split.
  - intros c. unfold rounding_policy.
    destruct (usePreFerment c) eqn:E.
    + rewrite (calculate_two_stage c E).
      unfold calculateWithPreFerment; cbn -[round rounded_to].
      repeat split;
        first [apply rounded_to_round_0 | apply rounded_to_round_1].
    + rewrite (calculate_single c E). cbn -[round rounded_to].
      repeat split;
        first [apply rounded_to_round_0 | apply rounded_to_round_1].
  - eexists _, _, _. split; [reflexivity |].
    repeat split; vm_compute; reflexivity.
Qed.

(** *** C4: all of the yeast goes into the pre-ferment *)

(** C4.  With [usePreFerment] set, the two-stage recipe gives the pre-ferment
    the whole recipe's yeast, flour weight times yeast fraction rounded to one
    decimal place, and the final dough's yeast is exactly 0. *)
Theorem preferment_takes_all_yeast (c : DoughCalculator) :
  usePreFerment c = true ->
  exists pf fd tw pc,
    calculate c = two_stage pf fd tw pc /\
    PreFermentIngredients.yeast (PreFerment.ingredients pf) =
      round (mul (flourWeight c) (Fin (yeast c))) 1 /\
    rounded_to 1 (mul (flourWeight c) (Fin (yeast c)))
      (PreFermentIngredients.yeast (PreFerment.ingredients pf)) /\
    FinalDough.yeast fd = Fin 0.
Proof.
  intros E. rewrite (calculate_two_stage c E).
  unfold calculateWithPreFerment.
  eexists _, _, _, _. split; [reflexivity |].
  cbn -[round rounded_to].
  repeat split. apply rounded_to_round_1.
Qed.

Lemma preferment_takes_all_yeast_example :
  exists pf fd tw pc,
    calculate (constructor (with_preFerment example_options "poolish")) =
      two_stage pf fd tw pc /\
    PreFermentIngredients.yeast (PreFerment.ingredients pf) =
      round (mul (flourWeight (constructor (with_preFerment example_options "poolish")))
                 (Fin (3 # 1000))) 1 /\
    rounded_to 1
      (mul (flourWeight (constructor (with_preFerment example_options "poolish")))
           (Fin (3 # 1000)))
      (PreFermentIngredients.yeast (PreFerment.ingredients pf)) /\
    FinalDough.yeast fd = Fin 0.
Proof.
  apply (preferment_takes_all_yeast
           (constructor (with_preFerment example_options "poolish"))).
  reflexivity.
Defined.

(** *** C8: the hydration of the pre-ferment *)

(** C8.  With [usePreFerment] set, the pre-ferment's hydration is 1.0 (shown
    as 100 %) for a poolish, whatever the other parameters are, and
    [bigaHydration] for a biga; the pre-ferment's water is its flour times
    that hydration (then rounded to whole grams as every water weight). *)
Theorem preferment_hydration (c : DoughCalculator) :
  usePreFerment c = true ->
  exists pf fd tw pc,
    calculate c = two_stage pf fd tw pc /\
    PreFerment.hydration pf = preFermentHydration c * 100 /\
    PreFermentIngredients.water (PreFerment.ingredients pf) =
      round (mul (preFermentFlour c) (Fin (preFermentHydration c))) 0 /\
    (preFermentType c = "poolish"%string -> preFermentHydration c = 1) /\
    (preFermentType c = "biga"%string ->
       preFermentHydration c = bigaHydration c).
Proof.
  intros E. rewrite (calculate_two_stage c E).
  unfold calculateWithPreFerment.
  eexists _, _, _, _. split; [reflexivity |].
  cbn -[round]. unfold preFermentHydration.
  repeat split; intros ->; reflexivity.
Qed.

Lemma preferment_hydration_example :
  exists pf fd tw pc,
    calculate (constructor (with_preFerment example_options "biga")) =
      two_stage pf fd tw pc /\
    PreFerment.hydration pf =
      preFermentHydration (constructor (with_preFerment example_options "biga")) * 100 /\
    PreFermentIngredients.water (PreFerment.ingredients pf) =
      round (mul (preFermentFlour (constructor (with_preFerment example_options "biga")))
                 (Fin (preFermentHydration
                         (constructor (with_preFerment example_options "biga"))))) 0 /\
    ("biga"%string = "poolish"%string ->
       preFermentHydration (constructor (with_preFerment example_options "biga")) = 1) /\
    ("biga"%string = "biga"%string ->
       preFermentHydration (constructor (with_preFerment example_options "biga")) =
         (55 # 100)).
Proof.
  apply (preferment_hydration
           (constructor (with_preFerment example_options "biga"))).
  reflexivity.
Defined.

(** *** C6: the rounded weights add up to the dough weight *)

Lemma round_0_error (x : Q) :
  exists r : Q, round (Fin x) 0 = Fin r /\
                - (1 # 2) <= r - x /\ r - x <= 1 # 2.
Proof.
  rewrite round_Fin_0. eexists; split; [reflexivity |].
  destruct (floor_half_bounds (x * 1)) as [Hlo Hhi].
  set (z := inject_Z (Qfloor (x * 1 + (1 # 2)))) in *.
  assert (Hz : z / 1 == z) by field.
  rewrite Hz. split; lra.
Qed.

Lemma round_1_error (x : Q) :
  exists r : Q, round (Fin x) 1 = Fin r /\
                - (1 # 20) <= r - x /\ r - x <= 1 # 20.
Proof.
  rewrite round_Fin_1. eexists; split; [reflexivity |].
  destruct (floor_half_bounds (x * (10 # 1))) as [Hlo Hhi].
  set (z := inject_Z (Qfloor (x * (10 # 1) + (1 # 2)))) in *.
  assert (Hz : z / (10 # 1) == z * (1 # 10)) by field.
  rewrite Hz. split; lra.
Qed.

(** C6.  For valid parameters (positive [numBalls], [ballWeight] and flour
    denominator) the six rounded weights of the single-stage recipe add up to
    [numBalls * ballWeight] within 2.1 g: half a gram for each of flour,
    water, oil and sugar, and half a tenth of a gram for salt and yeast. *)
Theorem ingredients_sum_to_dough_weight (c : DoughCalculator) :
  0 < numBalls c ->
  0 < ballWeight c ->
  0 < totalPercentage c ->
  usePreFerment c = false ->
  exists ing tw pc total,
    calculate c = single ing tw pc /\
    ingredient_sum ing = Fin total /\
    Qabs (total - numBalls c * ballWeight c) <= 21 # 10.
Proof.
  intros _ _ Hden Hsingle.
  rewrite (calculate_single c Hsingle).
  assert (Hnz : ~ totalPercentage c == 0) by lra.
  unfold waterWeight. rewrite (flourWeight_defined c Hnz).
  set (f := totalDoughWeight c / totalPercentage c).
  assert (Hf : f * totalPercentage c == totalDoughWeight c)
    by (unfold f; field; exact Hnz).
  unfold totalPercentage, totalDoughWeight in Hf.
  cbn [mul].
  destruct (round_0_error f) as (rf & -> & Hf1 & Hf2).
  destruct (round_0_error (f * effectiveHydration c)) as (rw & -> & Hw1 & Hw2).
  destruct (round_1_error (f * salt c)) as (rs & -> & Hs1 & Hs2).
  destruct (round_1_error (f * yeast c)) as (ry & -> & Hy1 & Hy2).
  destruct (round_0_error (f * oil c)) as (ro & -> & Ho1 & Ho2).
  destruct (round_0_error (f * sugar c)) as (rg & -> & Hg1 & Hg2).
  eexists _, _, _, _. split; [reflexivity |].
  split; [reflexivity |].
  apply Qabs_Qle_condition. split; lra.
Qed.

Lemma ingredients_sum_to_dough_weight_example :
  exists ing tw pc total,
    calculate (constructor example_options) = single ing tw pc /\
    ingredient_sum ing = Fin total /\
    Qabs (total - 4 * 250) <= 21 # 10.
Proof.
  apply (ingredients_sum_to_dough_weight (constructor example_options));
    reflexivity.
Defined.

(** *** C5: flour and water are conserved across the two stages *)

Lemma inject_Z_within_one (a b t : Z) (x y : Q) :
  inject_Z a - (1 # 2) <= y -> y < inject_Z a + (1 # 2) ->
  inject_Z b - (1 # 2) <= x - y -> x - y < inject_Z b + (1 # 2) ->
  inject_Z t - (1 # 2) <= x -> x < inject_Z t + (1 # 2) ->
  Qabs (inject_Z a / 1 + inject_Z b / 1 - inject_Z t / 1) <= 1.
Proof.
  intros Ha1 Ha2 Hb1 Hb2 Ht1 Ht2.
  assert (Hlt : inject_Z (a + b - t) < 3 # 2).
  { unfold Z.sub. rewrite !inject_Z_plus, inject_Z_opp. lra. }
  assert (Hgt : - (3 # 2) < inject_Z (a + b - t)).
  { unfold Z.sub. rewrite !inject_Z_plus, inject_Z_opp. lra. }
  assert (Hk : (-1 <= a + b - t <= 1)%Z).
  { unfold Qlt in Hlt, Hgt. cbn in Hlt, Hgt. lia. }
  assert (E : inject_Z a / 1 + inject_Z b / 1 - inject_Z t / 1
              == inject_Z (a + b - t)).
  { unfold Z.sub. rewrite !inject_Z_plus, inject_Z_opp. field. }
  rewrite E. apply Qabs_Qle_condition.
  destruct Hk as [Hk1 Hk2].
  split.
  - change (- (1)) with (inject_Z (-1)). now rewrite <- Zle_Qle.
  - change 1 with (inject_Z 1). now rewrite <- Zle_Qle.
Qed.

Lemma conserved_round (x y : Q) :
  conserved (round (Fin y) 0) (round (sub (Fin x) (Fin y)) 0) (round (Fin x) 0).
Proof.
  cbn [sub neg add]. rewrite !round_Fin_0. cbn [conserved].
  destruct (floor_half_bounds (y * 1)) as [Ha1 Ha2].
  destruct (floor_half_bounds ((x + - y) * 1)) as [Hb1 Hb2].
  destruct (floor_half_bounds (x * 1)) as [Ht1 Ht2].
  apply (inject_Z_within_one _ _ _ x y); lra.
Qed.

(** C5.  With [usePreFerment] set (and a flour denominator that is not zero,
    so that the recipe's weights are defined), the pre-ferment's and the final
    dough's flour add up to the recipe's flour, and their water to the
    recipe's water: each sum of rounded weights is within 1 g of the rounded
    total. *)
Theorem two_stage_conservation (c : DoughCalculator) :
  usePreFerment c = true ->
  ~ totalPercentage c == 0 ->
  exists pf fd tw pc,
    calculate c = two_stage pf fd tw pc /\
    conserved (PreFermentIngredients.flour (PreFerment.ingredients pf))
              (FinalDough.flour fd)
              (round (flourWeight c) 0) /\
    conserved (PreFermentIngredients.water (PreFerment.ingredients pf))
              (FinalDough.water fd)
              (round (waterWeight c) 0).
Proof.
  intros E Hnz. rewrite (calculate_two_stage c E).
  unfold calculateWithPreFerment, waterWeight.
  rewrite (flourWeight_defined c Hnz).
  eexists _, _, _, _. split; [reflexivity |].
  cbn -[round conserved sub].
  split; cbn [mul]; apply conserved_round.
Qed.

Lemma two_stage_conservation_example :
  exists pf fd tw pc,
    calculate (constructor (with_preFerment example_options "poolish")) =
      two_stage pf fd tw pc /\
    conserved (PreFermentIngredients.flour (PreFerment.ingredients pf))
              (FinalDough.flour fd)
              (round (flourWeight (constructor (with_preFerment example_options "poolish"))) 0) /\
    conserved (PreFermentIngredients.water (PreFerment.ingredients pf))
              (FinalDough.water fd)
              (round (waterWeight (constructor (with_preFerment example_options "poolish"))) 0).
Proof.
  apply (two_stage_conservation
           (constructor (with_preFerment example_options "poolish"))).
  - reflexivity.
  - intros H; discriminate H.
Defined.

(** *** C1: there is no validation of the parameters *)

Lemma round_signed_inf_0 (q : Q) : round (signed_inf q) 0 = signed_inf q.
Proof. unfold signed_inf. destruct (q ?= 0); reflexivity. Qed.

(** C1, refuted as stated.  With [numBalls = -4] the call does not fail with
    [InvalidParameters]: it returns a recipe whose flour weight is negative
    (-598 g).  With a hydration of -1 and no salt, yeast, oil or sugar, which
    makes the flour denominator zero, it returns a recipe whose flour weight
    is Infinity. *)
Lemma calculate_returns_on_invalid_parameters :
  (numBalls (constructor negative_balls_options) <= 0 /\
   exists ing tw pc,
     calculate_call (constructor negative_balls_options) =
       Normal (single ing tw pc) /\
     calculate_call (constructor negative_balls_options) <>
       Throw InvalidParameters /\
     num_eq (Ingredients.flour ing) (Fin (- (598))) /\
     is_negative (Ingredients.flour ing) = true) /\
  (totalPercentage (constructor zero_denominator_options) <= 0 /\
   exists ing tw pc,
     calculate_call (constructor zero_denominator_options) =
       Normal (single ing tw pc) /\
     calculate_call (constructor zero_denominator_options) <>
       Throw InvalidParameters /\
     Ingredients.flour ing = PInf).
Proof.
  split; (split; [vm_compute; discriminate |]).
  - eexists _, _, _. split; [reflexivity |].
    split; [discriminate |]. split; vm_compute; reflexivity.
  - eexists _, _, _. split; [reflexivity |].
    split; [discriminate |]. vm_compute; reflexivity.
Qed.

(** C1, as the code has it.  [calculate] validates nothing and never fails:
    every call returns the recipe computed by the plain formula.  When the
    flour denominator is zero the flour weight is Infinity, -Infinity or NaN,
    by the sign of [numBalls * ballWeight]; otherwise it is the quotient,
    whatever its sign; either way the single-stage recipe reports that flour
    weight rounded. *)
Theorem calculate_never_fails (c : DoughCalculator) :
  calculate_call c = Normal (calculate c) /\
  calculate_call c <> Throw InvalidParameters /\
  (totalPercentage c == 0 ->
     flourWeight c = signed_inf (totalDoughWeight c) /\
     is_finite (flourWeight c) = false /\
     (usePreFerment c = false ->
        exists ing tw pc,
          calculate c = single ing tw pc /\
          Ingredients.flour ing = signed_inf (totalDoughWeight c))) /\
  (~ totalPercentage c == 0 ->
     flourWeight c = Fin (totalDoughWeight c / totalPercentage c) /\
     (usePreFerment c = false ->
        exists ing tw pc,
          calculate c = single ing tw pc /\
          Ingredients.flour ing =
            round (Fin (totalDoughWeight c / totalPercentage c)) 0)).
Proof.
  split; [reflexivity |]. split; [discriminate |]. split.
  - intros Hz. rewrite (flourWeight_undefined c Hz).
    split; [reflexivity |]. split.
    + unfold signed_inf. destruct (totalDoughWeight c ?= 0); reflexivity.
    + intros E. rewrite (calculate_single c E).
      eexists _, _, _. split; [reflexivity |].
      cbn [Ingredients.flour].
      rewrite (flourWeight_undefined c Hz). apply round_signed_inf_0.
  - intros Hnz. rewrite (flourWeight_defined c Hnz).
    split; [reflexivity |].
    intros E. rewrite (calculate_single c E).
    eexists _, _, _. split; [reflexivity |].
    cbn [Ingredients.flour]. now rewrite (flourWeight_defined c Hnz).
Qed.

Lemma calculate_never_fails_example :
  (flourWeight (constructor zero_denominator_options) = PInf /\
   is_finite (flourWeight (constructor zero_denominator_options)) = false) /\
  (exists ing tw pc,
     calculate (constructor negative_balls_options) = single ing tw pc /\
     Ingredients.flour ing =
       round (Fin (totalDoughWeight (constructor negative_balls_options) /
                   totalPercentage (constructor negative_balls_options))) 0).
Proof.
  split.
  - destruct (calculate_never_fails (constructor zero_denominator_options))
      as (_ & _ & Hzero & _).
    destruct (Hzero eq_refl) as (Hflour & Hfinite & _).
    split; [exact Hflour | exact Hfinite].
  - destruct (calculate_never_fails (constructor negative_balls_options))
      as (_ & _ & _ & Hnonzero).
    assert (Hnz : ~ totalPercentage (constructor negative_balls_options) == 0)
      by (intros H; discriminate H).
    destruct (Hnonzero Hnz) as (_ & Hsingle).
    exact (Hsingle eq_refl).
Defined.

End EngineProofs.
(* ====================================================================== *)
(** ** Properties of the preset catalog *)

Module PresetsProofs.
Import Presets.

Local Open Scope string_scope.

Lemma getStyleIds_are_the_seven_styles :
  getStyleIds =
    [ "neapolitan"; "newYork"; "detroit"; "thinCrispy"; "poolishBiga";
      "emergency"; "custom" ].
Proof. reflexivity. Qed.

(** A catalog id yields that style's defaults. *)
Lemma getStyleDefaults_of_catalog_id (id : string) (preset : PizzaStylePreset) :
  In (id, preset) PIZZA_STYLES ->
  getStyleDefaults id = Normal (defaults preset).
Proof.
  intros H. unfold PIZZA_STYLES in H. cbn [In] in H.
  repeat (destruct H as [H | H];
          [injection H as <- <-; reflexivity |]).
  contradiction.
Qed.

(** The call never fails, whatever the string: the truthiness test guards
    the only property read that could throw. *)
Lemma getStyleDefaults_never_throws (id : string) :
  exists d : Defaults, getStyleDefaults id = Normal d.
Proof.
  unfold getStyleDefaults.
  destruct (get_property id) as [p | n |]; cbn; eauto.
Qed.

(** An id that names neither a style nor a member of [Object.prototype]
    yields the defaults of [custom]. *)
Lemma getStyleDefaults_fallback (id : string) :
  own_property id PIZZA_STYLES = None ->
  existsb (String.eqb id) Object_prototype_names = false ->
  getStyleDefaults id = Normal (defaults custom).
Proof.
  intros Hown Hproto. unfold getStyleDefaults, get_property.
  now rewrite Hown, Hproto.
Qed.

(** A name inherited from [Object.prototype] yields the empty object. *)
Lemma getStyleDefaults_inherited (id : string) :
  In id Object_prototype_names ->
  getStyleById id = Builtin id /\
  getStyleDefaults id = Normal empty_object.
Proof.
  intros H. unfold Object_prototype_names in H. cbn [In] in H.
  repeat (destruct H as [H | H]; [subst id; split; reflexivity |]).
  contradiction.
Qed.

(** C9, where the code departs from it.  ["constructor"] is not a style id,
    yet [PIZZA_STYLES["constructor"]] is the inherited [Object] function,
    which is truthy and has no [defaults]: the call returns the empty object
    instead of the defaults of [custom].  (It still does not fail.) *)
Theorem getStyleDefaults_of_inherited_name :
  own_property "constructor" PIZZA_STYLES = None /\
  getStyleById "constructor" = Builtin "constructor" /\
  getStyleDefaults "constructor" = Normal empty_object /\
  getStyleDefaults "constructor" <> Normal (defaults custom).
Proof.
  repeat split; try reflexivity.
  vm_compute. discriminate.
Qed.

End PresetsProofs.

(* ====================================================================== *)
(** ** Properties of the emergency timer *)

Module EmergencyTimerProofs.
Import EmergencyTimer.

Local Open Scope string_scope.
Local Open Scope Z_scope.

(** Completion by a tick clears the persisted record. *)
Lemma complete_clears_persisted (s : State) :
  persisted (snd (complete s)) = None.
Proof.
  destruct s as [[d r i run st ot oc os] [n ls a q l]].
  unfold complete, pause, saveState, call_onStateChange, call_onComplete,
         playNotification, clearState, persisted.
  destruct run, ls as [ls |], os, oc, a; cbn;
    rewrite ?lookup_delete_eq; reflexivity.
Qed.

(** Loading a snapshot that was running and has since run out: the timer
    shows zero and is not running, the completion is announced once, and
    the store is left exactly as it was found, however late the deferred
    announcement runs. *)
Lemma page_load_after_expiry (d : Z) (delay : N) (w : World)
    (ls : gmap string stored) (state : Snapshot) :
  localStorage w = Some ls ->
  ls !! "emergencyTimer" = Some (Json state) ->
  snap_isRunning state = true ->
  snap_remaining state <= now w - snap_savedAt state ->
  timeouts w = [] ->
  let '(t', w') := page_load d delay w in
  remaining t' = 0 /\
  isRunning t' = false /\
  log w' = (log w ++ [Complete] ++ (if audio w then [Beeps] else []))%list /\
  localStorage w' = Some ls.
Proof.
  intros Hls Hget Hrun Hexp Hq.
  unfold page_load, constructor, loadState.
  rewrite Hls, Hget, Hrun. cbn [remaining set_remaining].
  replace (Z.max 0 (snap_remaining state - (now w - snap_savedAt state)))
    with 0 by lia.
  cbn [Z.gtb Z.compare].
  destruct (snap_duration state =? 0);
    unfold run_timeouts, setTimeout; cbn; rewrite Hq; cbn;
    destruct (audio w); cbn; rewrite <- ?app_assoc; auto.
Qed.

(** C3, where the code departs from it.  On the specification's own example
    (ten minutes left at [T], page loaded at [T] + 20 min) the timer shows
    zero and the completion is announced once, but the snapshot is still in
    the store, still marked as running: the expiry branch of [loadState]
    never calls [clearState], which [complete] does.  So the next page load
    announces the completion again.  This is so whatever the delays are
    with which the deferred announcements run. *)
Theorem expired_snapshot_is_not_cleared (delay1 delay2 : N) :
  let '(t1, w1) := page_load DEFAULT_DURATION delay1 expired_world in
  remaining t1 = 0 /\
  isRunning t1 = false /\
  completions (log w1) = 1%nat /\
  beeps (log w1) = 1%nat /\
  persisted w1 = Some (Json expired_snapshot) /\
  persisted w1 <> None /\
  let '(t2, w2) := page_load DEFAULT_DURATION delay2 (at_time (T + 1800000) w1) in
  completions (log w2) = 2%nat /\
  beeps (log w2) = 2%nat /\
  persisted w2 = Some (Json expired_snapshot).
Proof.
  vm_compute. repeat split; discriminate.
Qed.

End EmergencyTimerProofs.

(* ====================================================================== *)
(** ** Properties of the platform model: text of numbers, form-urlencoding *)

Module WebProofs.
Import Web.

Local Open Scope string_scope.

(** *** Strings *)

Lemma append_cons (x : ascii) (a b : string) :
  String x a ++ b = String x (a ++ b).
Proof. reflexivity. Qed.

Lemma append_empty_l (b : string) : "" ++ b = b.
Proof. reflexivity. Qed.

Lemma contains_app (c : ascii) (a b : string) :
  contains c (a ++ b) = (contains c a || contains c b)%bool.
Proof.
  induction a as [| x a IH];
    rewrite ?append_cons, ?append_empty_l; cbn [contains]; [reflexivity |].
  rewrite IH. now rewrite orb_assoc.
Qed.

Lemma string_app_assoc (a b c : string) : (a ++ b) ++ c = a ++ (b ++ c).
Proof.
  induction a as [| x a IH];
    rewrite ?append_cons, ?append_empty_l; [reflexivity | now rewrite IH].
Qed.

Lemma string_app_empty (a : string) : a ++ "" = a.
Proof.
  induction a as [| x a IH];
    rewrite ?append_cons, ?append_empty_l; [reflexivity | now rewrite IH].
Qed.

Lemma cut_at_absent (sep : ascii) (a : string) :
  contains sep a = false -> cut_at sep a = (a, None).
Proof.
  induction a as [| x a IH]; cbn; [reflexivity |].
  intros H. apply orb_false_iff in H as [Hx Ha].
  rewrite Hx, (IH Ha). reflexivity.
Qed.

Lemma cut_at_first (sep : ascii) (a b : string) :
  contains sep a = false ->
  cut_at sep (a ++ String sep b) = (a, Some b).
Proof.
  induction a as [| x a IH];
    rewrite ?append_cons, ?append_empty_l; cbn.
  - intros _. now rewrite Ascii.eqb_refl.
  - intros H. apply orb_false_iff in H as [Hx Ha].
    rewrite Hx, (IH Ha). reflexivity.
Qed.

Lemma split_on_absent (sep : ascii) (a : string) :
  contains sep a = false -> split_on sep a = [a].
Proof.
  induction a as [| x a IH]; cbn; [reflexivity |].
  intros H. apply orb_false_iff in H as [Hx Ha].
  rewrite Hx, (IH Ha). reflexivity.
Qed.

Lemma split_on_first (sep : ascii) (a b : string) :
  contains sep a = false ->
  split_on sep (a ++ String sep b) = a :: split_on sep b.
Proof.
  induction a as [| x a IH];
    rewrite ?append_cons, ?append_empty_l; cbn.
  - intros _. now rewrite Ascii.eqb_refl.
  - intros H. apply orb_false_iff in H as [Hx Ha].
    rewrite Hx, (IH Ha). reflexivity.
Qed.

(** *** Form-urlencoding: decoding undoes encoding *)

Lemma plus_to_space_app (a b : string) :
  plus_to_space (a ++ b) = plus_to_space a ++ plus_to_space b.
Proof.
  induction a as [| x a IH];
    rewrite ?append_cons, ?append_empty_l; cbn; [reflexivity | now rewrite IH].
Qed.

Ltac each_byte c :=
  destruct c as [[] [] [] [] [] [] [] []].

Lemma decode_encoded_byte (c : ascii) (rest : string) :
  percent_decode (plus_to_space (encode_byte c) ++ rest)
  = String c (percent_decode rest).
Proof. each_byte c; reflexivity. Qed.

Lemma form_decode_encode (s : string) : form_decode (form_encode s) = s.
Proof.
  unfold form_decode.
  induction s as [| c s IH]; cbn [form_encode]; [reflexivity |].
  rewrite plus_to_space_app, decode_encoded_byte, IH. reflexivity.
Qed.

(** The encoding never produces one of the characters that structure a query
    or a URL. *)

Lemma encode_byte_has_no_delimiter (sep c : ascii) :
  is_delimiter sep = true -> contains sep (encode_byte c) = false.
Proof.
  unfold is_delimiter. intros H.
  repeat (apply orb_true_iff in H as [H | H]);
    apply Ascii.eqb_eq in H; subst sep; each_byte c; reflexivity.
Qed.

Lemma form_encode_has_no_delimiter (sep : ascii) (s : string) :
  is_delimiter sep = true -> contains sep (form_encode s) = false.
Proof.
  intros H. induction s as [| c s IH]; cbn [form_encode]; [reflexivity |].
  now rewrite contains_app, (encode_byte_has_no_delimiter sep c H), IH.
Qed.

Lemma parse_encoded_pair (n v : string) :
  parse_pair (form_encode n ++ "=" ++ form_encode v) = (n, v).
Proof.
  unfold parse_pair. rewrite append_cons, append_empty_l.
  rewrite cut_at_first by (now apply form_encode_has_no_delimiter).
  now rewrite !form_decode_encode.
Qed.

Lemma encoded_pair_not_empty (n rest : string) :
  String.eqb (form_encode n ++ "=" ++ rest) "" = false.
Proof. destruct (form_encode n); reflexivity. Qed.

Lemma serialize_has_no_hash (params : URLSearchParams) :
  contains "#" (serialize params) = false.
Proof.
  induction params as [| [n v] rest IH]; cbn [serialize]; [reflexivity |].
  rewrite !contains_app.
  rewrite !form_encode_has_no_delimiter by reflexivity.
  destruct rest; [reflexivity |].
  rewrite contains_app, IH. reflexivity.
Qed.

(** Parsing the text of [toString] gives the pairs back. *)
Lemma parse_query_serialize (params : URLSearchParams) :
  parse_query (serialize params) = params.
Proof.
  induction params as [| [n v] rest IH]; [reflexivity |].
  cbn [serialize]. unfold parse_query in *.
  assert (Hamp : forall tail, contains "&" tail = false ->
            contains "&" (form_encode n ++ "=" ++ form_encode v ++ tail) = false).
  { intros tail Ht. rewrite !contains_app.
    rewrite !form_encode_has_no_delimiter by reflexivity.
    now rewrite Ht. }
  destruct rest as [| next rest'].
  - rewrite split_on_absent by (now apply Hamp).
    cbn [List.filter]. rewrite encoded_pair_not_empty. cbn [negb List.map].
    rewrite string_app_empty. now rewrite parse_encoded_pair.
  - set (tail := serialize (next :: rest')) in *.
    replace (form_encode n ++ "=" ++ form_encode v ++ "&" ++ tail)
      with ((form_encode n ++ "=" ++ form_encode v) ++ String "&" tail)
      by (now rewrite !string_app_assoc).
    rewrite split_on_first.
    + cbn [List.filter]. rewrite encoded_pair_not_empty. cbn [negb List.map].
      rewrite parse_encoded_pair. now rewrite IH.
    + specialize (Hamp "" eq_refl). now rewrite string_app_empty in Hamp.
Qed.

(** *** URLs built from an origin and a query *)

Lemma scheme_ends_app (a b : string) :
  scheme_ends a = true -> scheme_ends (a ++ b) = true.
Proof.
  induction a as [| x a IH]; [discriminate |].
  rewrite append_cons. cbn [scheme_ends].
  destruct (Ascii.eqb x ":"); [reflexivity |].
  destruct (is_scheme_char x); [exact IH | discriminate].
Qed.

Lemma has_scheme_app (a b : string) :
  has_scheme a = true -> has_scheme (a ++ b) = true.
Proof.
  destruct a as [| x a]; [discriminate |].
  rewrite append_cons. cbn [has_scheme].
  intros H. apply andb_true_iff in H as [Hx Ha].
  now rewrite Hx, scheme_ends_app.
Qed.

Lemma query_of_origin_and_query (origin query : string) :
  contains "?" origin = false ->
  contains "#" origin = false ->
  contains "#" query = false ->
  query_of (origin ++ "/?" ++ query) = query.
Proof.
  intros Hq Hh Hhq. unfold query_of.
  rewrite cut_at_absent
    by (rewrite !contains_app, Hh, Hhq; reflexivity).
  replace (origin ++ "/?" ++ query) with ((origin ++ "/") ++ String "?" query)
    by (now rewrite string_app_assoc).
  rewrite cut_at_first by (rewrite contains_app, Hq; reflexivity).
  reflexivity.
Qed.

(** *** Whole numbers: [parseInt] reads back what [toString] prints *)

Lemma leading_digits_of_uint (d : Decimal.uint) :
  leading_digits (DecimalString.NilEmpty.string_of_uint d) = d.
Proof. induction d; cbn; now rewrite ?IHd. Qed.

Lemma uint_text_starts_with_digit (d : Decimal.uint) :
  d <> Decimal.Nil ->
  exists c rest,
    DecimalString.NilEmpty.string_of_uint d = String c rest /\
    is_digit c = true.
Proof. destruct d; [congruence | ..]; intros _; cbn; eauto. Qed.

Lemma parseInt_of_digits (c : ascii) (rest : string) :
  is_digit c = true ->
  parseInt (String c rest) = digits_value (String c rest) 1.
Proof.
  intros H. unfold parseInt.
  each_byte c; try discriminate H; reflexivity.
Qed.

Lemma parseInt_of_minus (s : string) :
  parseInt (String "-" s) = digits_value s (-1).
Proof. reflexivity. Qed.

Lemma digits_value_of_uint (d : Decimal.uint) (sign : Z) :
  d <> Decimal.Nil ->
  digits_value (DecimalString.NilEmpty.string_of_uint d) sign
  = Fin (inject_Z (sign * Z.of_uint d)).
Proof.
  intros Hd. unfold digits_value. rewrite leading_digits_of_uint.
  destruct d; [congruence | ..]; reflexivity.
Qed.

Lemma text_of_nonnil_uint (d : Decimal.uint) :
  d <> Decimal.Nil ->
  DecimalString.NilZero.string_of_uint d
  = DecimalString.NilEmpty.string_of_uint d.
Proof. destruct d; [congruence | ..]; reflexivity. Qed.

Lemma Number_toString_plain (n : Z) :
  plain_digits n ->
  Number_toString n = DecimalString.NilZero.string_of_int (Z.to_int n).
Proof.
  unfold plain_digits, Number_toString. intros H.
  apply Z.ltb_lt in H. now rewrite H.
Qed.

(** Below [1e21] in size, [parseInt] reads back the number that [toString]
    printed. *)
Lemma parseInt_toString (n : Z) :
  plain_digits n ->
  parseInt (Number_toString n) = Fin (inject_Z n).
Proof.
  intros Hplain. rewrite (Number_toString_plain n Hplain).
  destruct n as [| p | p]; [reflexivity | |];
    cbn [Z.to_int DecimalString.NilZero.string_of_int];
    pose proof (DecimalPos.Unsigned.to_uint_nonnil p) as Hnil;
    pose proof (DecimalPos.Unsigned.of_to p) as Hback;
    rewrite (text_of_nonnil_uint _ Hnil).
  - destruct (uint_text_starts_with_digit _ Hnil) as (c & rest & E & Hc).
    rewrite E, (parseInt_of_digits c rest Hc), <- E.
    rewrite (digits_value_of_uint _ 1 Hnil).
    unfold Z.of_uint. rewrite Hback. reflexivity.
  - rewrite parseInt_of_minus, (digits_value_of_uint _ (-1) Hnil).
    unfold Z.of_uint. rewrite Hback. reflexivity.
Qed.

(** From [1e21] on it does not: the text is in exponent notation, and
    [parseInt] stops at the point or at the [e]. *)
Lemma parseInt_toString_of_1e21 :
  Number_toString (Z.pow 10 21) = "1e+21" /\
  parseInt (Number_toString (Z.pow 10 21)) = Fin 1 /\
  Number_toString (Z.opp (Z.mul 125 (Z.pow 10 20))) = "-1.25e+22" /\
  parseInt (Number_toString (Z.opp (Z.mul 125 (Z.pow 10 20)))) = Fin (- (1)).
Proof. repeat split; vm_compute; reflexivity. Qed.

Lemma exponent_text_not_empty (p : positive) :
  String.eqb (exponent_text p) "" = false.
Proof.
  unfold exponent_text.
  pose proof (DecimalPos.Unsigned.to_uint_nonnil p) as Hnil.
  destruct (Pos.to_uint p); [congruence | ..]; reflexivity.
Qed.

Lemma toString_not_empty (n : Z) :
  String.eqb (Number_toString n) "" = false.
Proof.
  unfold Number_toString.
  destruct (Z.abs n <? 10 ^ 21)%Z.
  - destruct n as [| p | p]; [reflexivity | | reflexivity].
    cbn [Z.to_int DecimalString.NilZero.string_of_int].
    unfold DecimalString.NilZero.string_of_uint.
    pose proof (DecimalPos.Unsigned.to_uint_nonnil p) as Hnil.
    destruct (Pos.to_uint p); [congruence | ..]; reflexivity.
  - destruct n as [| p | p]; [reflexivity | | reflexivity].
    apply exponent_text_not_empty.
Qed.

End WebProofs.

(* ====================================================================== *)
(** ** Properties of the share links *)

Module ShareProofs.
Import Web ShareRecipe ShareSpec WebProofs.

Local Open Scope string_scope.

(** *** The link carries the parameters that [encodeRecipe] set *)

Lemma decodeRecipe_encodeRecipe (window_origin : option string) (p : Recipe) :
  well_formed_origin window_origin ->
  decodeRecipe (VString (encodeRecipe window_origin p))
  = Some (decode_params (encode_params p)).
Proof.
  intros Ho. unfold decodeRecipe, encodeRecipe, URL_searchParams.
  assert (H : has_scheme (baseUrl window_origin) = true /\
              contains "?" (baseUrl window_origin) = false /\
              contains "#" (baseUrl window_origin) = false).
  { destruct window_origin as [origin |]; [exact Ho | now vm_compute]. }
  destruct H as (Hs & Hq & Hh).
  rewrite (has_scheme_app _ _ Hs).
  rewrite (query_of_origin_and_query _ _ Hq Hh (serialize_has_no_hash _)).
  now rewrite parse_query_serialize.
Qed.

(** What [params.get] finds under each key of the link. *)

Ltac by_cases_of_encode p :=
  unfold encode_params, set_if;
  destruct (truthy (style p)), (negb (Qle_bool (oil p) 0)),
           (negb (Qle_bool (sugar p) 0)), (usePreFerment p),
           (humidityAdjust p), (truthy (flourType p));
  reflexivity.

Lemma get_s (p : Recipe) :
  get "s" (encode_params p)
  = if truthy (style p) then Some (or_else (style p) "") else None.
Proof. by_cases_of_encode p. Qed.

Lemma get_n (p : Recipe) :
  get "n" (encode_params p) = Some (Number_toString (numBalls p)).
Proof. by_cases_of_encode p. Qed.

Lemma get_w (p : Recipe) :
  get "w" (encode_params p) = Some (Number_toString (ballWeight p)).
Proof. by_cases_of_encode p. Qed.

Lemma get_h (p : Recipe) :
  get "h" (encode_params p) = Some (scaled (hydration p) 100).
Proof. by_cases_of_encode p. Qed.

Lemma get_sa (p : Recipe) :
  get "sa" (encode_params p) = Some (scaled (salt p) 1000).
Proof. by_cases_of_encode p. Qed.

Lemma get_y (p : Recipe) :
  get "y" (encode_params p) = Some (scaled (yeast p) 1000).
Proof. by_cases_of_encode p. Qed.

Lemma get_o (p : Recipe) :
  get "o" (encode_params p)
  = if Qle_bool (oil p) 0 then None else Some (scaled (oil p) 100).
Proof.
  destruct (Qle_bool (oil p) 0) eqn:E;
    unfold encode_params, set_if; rewrite E; cbn [negb];
    destruct (truthy (style p)), (negb (Qle_bool (sugar p) 0)),
             (usePreFerment p), (humidityAdjust p), (truthy (flourType p));
    reflexivity.
Qed.

Lemma get_su (p : Recipe) :
  get "su" (encode_params p)
  = if Qle_bool (sugar p) 0 then None else Some (scaled (sugar p) 100).
Proof.
  destruct (Qle_bool (sugar p) 0) eqn:E;
    unfold encode_params, set_if; rewrite E; cbn [negb];
    destruct (truthy (style p)), (negb (Qle_bool (oil p) 0)),
             (usePreFerment p), (humidityAdjust p), (truthy (flourType p));
    reflexivity.
Qed.

Lemma get_pf (p : Recipe) :
  get "pf" (encode_params p) = if usePreFerment p then Some "1" else None.
Proof. by_cases_of_encode p. Qed.

Lemma get_pft (p : Recipe) :
  get "pft" (encode_params p)
  = if usePreFerment p
    then Some (or_else (preFermentType p) "poolish") else None.
Proof. by_cases_of_encode p. Qed.

Lemma get_pfp (p : Recipe) :
  get "pfp" (encode_params p)
  = if usePreFerment p
    then Some (scaled (preFermentFlourPercent p) 100) else None.
Proof. by_cases_of_encode p. Qed.

Lemma get_ha (p : Recipe) :
  get "ha" (encode_params p) = if humidityAdjust p then Some "1" else None.
Proof. by_cases_of_encode p. Qed.

Lemma get_ft (p : Recipe) :
  get "ft" (encode_params p)
  = if truthy (flourType p) then Some (or_else (flourType p) "") else None.
Proof. by_cases_of_encode p. Qed.

(** What [decodeRecipe] puts under each property, from any [params]. *)

Lemma lookup_assign_same (key : string) (text : option string)
    (f : string -> value) (r : gmap string value) :
  assign_if_present key text f r !! key
  = if truthy text then Some (f (or_else text "")) else r !! key.
Proof.
  unfold assign_if_present. destruct (truthy text); [| reflexivity].
  apply lookup_insert_eq.
Qed.

Lemma lookup_assign_other (key k : string) (text : option string)
    (f : string -> value) (r : gmap string value) :
  key <> k -> assign_if_present key text f r !! k = r !! k.
Proof.
  intros Hne. unfold assign_if_present. destruct (truthy text); [| reflexivity].
  now apply lookup_insert_ne.
Qed.

Ltac decode_lookup :=
  unfold decode_params;
  destruct (is_one (get "pf" _)), (is_one (get "ha" _));
  repeat first
    [ rewrite lookup_assign_same
    | rewrite lookup_assign_other by discriminate
    | rewrite lookup_insert_eq
    | rewrite lookup_insert_ne by discriminate
    | rewrite lookup_empty ];
  reflexivity.

Lemma decoded_style (ps : URLSearchParams) :
  decode_params ps !! "style" = text_field (get "s" ps) VString.
Proof. unfold text_field. decode_lookup. Qed.

Lemma decoded_numBalls (ps : URLSearchParams) :
  decode_params ps !! "numBalls"
  = text_field (get "n" ps) (fun t => VNumber (parseInt t)).
Proof. unfold text_field. decode_lookup. Qed.

Lemma decoded_ballWeight (ps : URLSearchParams) :
  decode_params ps !! "ballWeight"
  = text_field (get "w" ps) (fun t => VNumber (parseInt t)).
Proof. unfold text_field. decode_lookup. Qed.

Lemma decoded_hydration (ps : URLSearchParams) :
  decode_params ps !! "hydration" = text_field (get "h" ps) (parsed 100).
Proof. unfold text_field. decode_lookup. Qed.

Lemma decoded_salt (ps : URLSearchParams) :
  decode_params ps !! "salt" = text_field (get "sa" ps) (parsed 1000).
Proof. unfold text_field. decode_lookup. Qed.

Lemma decoded_yeast (ps : URLSearchParams) :
  decode_params ps !! "yeast" = text_field (get "y" ps) (parsed 1000).
Proof. unfold text_field. decode_lookup. Qed.

Lemma decoded_oil (ps : URLSearchParams) :
  decode_params ps !! "oil" = text_field (get "o" ps) (parsed 100).
Proof. unfold text_field. decode_lookup. Qed.

Lemma decoded_sugar (ps : URLSearchParams) :
  decode_params ps !! "sugar" = text_field (get "su" ps) (parsed 100).
Proof. unfold text_field. decode_lookup. Qed.

Lemma decoded_usePreFerment (ps : URLSearchParams) :
  decode_params ps !! "usePreFerment"
  = if is_one (get "pf" ps) then Some (VBoolean true) else None.
Proof. decode_lookup. Qed.

Lemma decoded_preFermentType (ps : URLSearchParams) :
  decode_params ps !! "preFermentType"
  = if is_one (get "pf" ps)
    then Some (VString (or_else (get "pft" ps) "poolish")) else None.
Proof. decode_lookup. Qed.

Lemma decoded_preFermentFlourPercent (ps : URLSearchParams) :
  decode_params ps !! "preFermentFlourPercent"
  = if is_one (get "pf" ps)
    then text_field (get "pfp" ps) (parsed 100) else None.
Proof. unfold text_field. decode_lookup. Qed.

Lemma decoded_humidityAdjust (ps : URLSearchParams) :
  decode_params ps !! "humidityAdjust"
  = if is_one (get "ha" ps) then Some (VBoolean true) else None.
Proof. decode_lookup. Qed.

Lemma decoded_flourType (ps : URLSearchParams) :
  decode_params ps !! "flourType" = text_field (get "ft" ps) VString.
Proof. unfold text_field. decode_lookup. Qed.

(** No [params] make [decodeRecipe] set a [bigaHydration]. *)
Lemma decoded_bigaHydration (ps : URLSearchParams) :
  decode_params ps !! "bigaHydration" = None.
Proof. decode_lookup. Qed.

(** *** Numbers on the grid come back as they were *)

Lemma round_half_up_inject_Z (k : Z) : round_half_up (inject_Z k) = k.
Proof.
  unfold round_half_up.
  pose proof (Qfloor_le (inject_Z k + (1 # 2))) as Hlo.
  pose proof (Qlt_floor (inject_Z k + (1 # 2))) as Hhi.
  set (f := Qfloor (inject_Z k + (1 # 2))) in *.
  rewrite inject_Z_plus in Hhi. change (inject_Z 1) with 1 in Hhi.
  assert (H1 : inject_Z f < inject_Z (k + 1))
    by (rewrite inject_Z_plus; change (inject_Z 1) with 1; lra).
  assert (H2 : inject_Z k < inject_Z (f + 1))
    by (rewrite inject_Z_plus; change (inject_Z 1) with 1; lra).
  rewrite <- Zlt_Qlt in H1, H2. lia.
Qed.

Lemma truthy_toString (n : Z) : truthy (Some (Number_toString n)) = true.
Proof. cbn. now rewrite toString_not_empty. Qed.

Lemma or_else_toString (n : Z) :
  or_else (Some (Number_toString n)) "" = Number_toString n.
Proof. cbn. now rewrite toString_not_empty. Qed.

Lemma whole_number_read_back (n : Z) :
  plain_digits n ->
  text_field (Some (Number_toString n)) (fun t => VNumber (parseInt t))
  = Some (VNumber (Fin (inject_Z n))).
Proof.
  intros Hn. unfold text_field.
  now rewrite truthy_toString, or_else_toString, (parseInt_toString n Hn).
Qed.

Lemma scaled_number_read_back (x scale : Q) (k : Z) :
  Qeq_bool scale 0 = false ->
  plain_digits (round_half_up (x * scale)) ->
  x * scale == inject_Z k ->
  text_field (Some (scaled x scale)) (parsed scale)
  = Some (VNumber (Fin (inject_Z k / scale))).
Proof.
  intros Hs Hplain Hk. unfold text_field, scaled, parsed.
  rewrite truthy_toString, or_else_toString, (parseInt_toString _ Hplain).
  rewrite (Qfloor_comp _ _ (Qplus_comp _ _ Hk _ _ (Qeq_refl (1 # 2)))
           : round_half_up (x * scale) = round_half_up (inject_Z k)).
  rewrite round_half_up_inject_Z. cbn [div]. now rewrite Hs.
Qed.

Lemma holds_scaled_number (r : gmap string value) (key : string)
    (x scale : Q) :
  Qeq_bool scale 0 = false ->
  plain_digits (round_half_up (x * scale)) ->
  on_grid scale x ->
  r !! key = text_field (Some (scaled x scale)) (parsed scale) ->
  holds_number r key x.
Proof.
  intros Hs Hplain [k Hk] Hr.
  rewrite (scaled_number_read_back x scale k Hs Hplain Hk) in Hr.
  exists (inject_Z k / scale). split; [exact Hr |].
  assert (Hnz : ~ scale == 0).
  { intros E. apply Qeq_bool_iff in E. congruence. }
  rewrite <- Hk. field. exact Hnz.
Qed.

Lemma or_else_idempotent (text : option string) (fallback : string) :
  or_else (Some (or_else text fallback)) fallback = or_else text fallback.
Proof.
  destruct text as [t |]; cbn.
  - destruct (String.eqb t "") eqn:E; cbn.
    + destruct (String.eqb fallback ""); reflexivity.
    + now rewrite E.
  - destruct (String.eqb fallback ""); reflexivity.
Qed.

Lemma text_read_back (text : option string) :
  text_field (if truthy text then Some (or_else text "") else None) VString
  = if truthy text then option_map VString text else None.
Proof.
  unfold text_field. destruct text as [t |]; cbn; [| reflexivity].
  destruct (String.eqb t "") eqn:E; cbn; [reflexivity |].
  now rewrite E.
Qed.

(** *** C2: what a link brings back *)

Lemma biga_recipe_within_precision : within_precision biga_recipe.
Proof.
  repeat split;
    [exists 65%Z | exists 25%Z | exists 2%Z | exists 0%Z | exists 0%Z | exists 25%Z];
    reflexivity.
Qed.

Lemma biga_recipe_in_plain_digits : in_plain_digits biga_recipe.
Proof. repeat split. Qed.

(** C2, refuted as stated.  The biga recipe is within the supported
    precision and its biga has a hydration of 0.5, not the calculator's
    default of 0.55; yet the object decoded from its link has no
    [bigaHydration]: the link does not carry it, so not every field is
    reproduced. *)
Lemma share_link_drops_bigaHydration :
  within_precision biga_recipe /\
  usePreFerment biga_recipe = true /\
  preFermentType biga_recipe = Some "biga" /\
  bigaHydration biga_recipe == 1 # 2 /\
  ~ bigaHydration biga_recipe
    == Engine.bigaHydration (Engine.constructor Engine.no_options) /\
  get "pft" (encode_params biga_recipe) = Some "biga" /\
  exists r,
    decodeRecipe (VString (encodeRecipe None biga_recipe)) = Some r /\
    r !! "preFermentType" = Some (VString "biga") /\
    r !! "bigaHydration" = None /\
    ~ holds_number r "bigaHydration" (bigaHydration biga_recipe).
Proof.
  split; [exact biga_recipe_within_precision |].
  split; [reflexivity |]. split; [reflexivity |]. split; [reflexivity |].
  split; [intros H; discriminate H |]. split; [reflexivity |].
  eexists. split; [now apply decodeRecipe_encodeRecipe |].
  assert (Hb : decode_params (encode_params biga_recipe) !! "bigaHydration" = None)
    by apply decoded_bigaHydration.
  split; [| split; [exact Hb |]].
  - rewrite decoded_preFermentType, get_pf, get_pft. reflexivity.
  - intros (q & Hq & _). rewrite Hb in Hq. discriminate.
Qed.

(** Where the page has no URL origin ([window.location.origin] is
    ["null"]), the link is no URL: [decodeRecipe] falls back to reading the
    whole link as a query, and the first parameter, here the style, is
    lost under the name ["null/?s"]. *)
Lemma share_link_of_opaque_origin :
  ~ well_formed_origin (Some "null") /\
  URL_searchParams (encodeRecipe (Some "null") biga_recipe) = Throw InvalidURL /\
  exists r,
    decodeRecipe (VString (encodeRecipe (Some "null") biga_recipe)) = Some r /\
    style biga_recipe = Some "poolishBiga" /\
    r !! "style" = None /\
    r !! "numBalls" = Some (VNumber (Fin 4)).
Proof.
  split; [intros (H & _); discriminate H |].
  split; [vm_compute; reflexivity |].
  eexists. split; [reflexivity |].
  split; [reflexivity |]. split; vm_compute; reflexivity.
Qed.

(** C2, as the code has it.  On a page whose origin is a URL origin (or
    without a window), for a recipe within the supported precision (with
    whole numbers of balls and grams) whose numbers the link writes in plain
    digits (below 1e21 in size), decoding the encoded link gives an object
    that holds [numBalls], [ballWeight], [hydration], [salt] and [yeast] of
    the recipe; [oil] and [sugar] when they are positive, and no such
    property otherwise; [usePreFerment = true], [preFermentType]
    (["poolish"] when unset) and [preFermentFlourPercent] when the
    pre-ferment is used, and none of the three otherwise;
    [humidityAdjust = true] when set; [style] and [flourType] when given;
    and never [bigaHydration], which the link does not carry. *)
Theorem share_link_round_trip (window_origin : option string) (p : Recipe) :
  well_formed_origin window_origin ->
  within_precision p ->
  in_plain_digits p ->
  exists r,
    decodeRecipe (VString (encodeRecipe window_origin p)) = Some r /\
    carried_over p r.
Proof.
  intros Ho (Hh & Hsa & Hy & Hoil & Hsu & Hpfp)
         (Pn & Pw & Ph & Psa & Py & Poil & Psu & Ppfp).
  eexists. split; [now apply decodeRecipe_encodeRecipe |].
  set (ps := encode_params p).
  unfold carried_over.
  repeat match goal with |- _ /\ _ => split end.
  - exists (inject_Z (numBalls p)). split; [| reflexivity].
    unfold ps. rewrite decoded_numBalls, get_n.
    now apply whole_number_read_back.
  - exists (inject_Z (ballWeight p)). split; [| reflexivity].
    unfold ps. rewrite decoded_ballWeight, get_w.
    now apply whole_number_read_back.
  - apply (holds_scaled_number _ _ _ 100 eq_refl Ph Hh).
    unfold ps. now rewrite decoded_hydration, get_h.
  - apply (holds_scaled_number _ _ _ 1000 eq_refl Psa Hsa).
    unfold ps. now rewrite decoded_salt, get_sa.
  - apply (holds_scaled_number _ _ _ 1000 eq_refl Py Hy).
    unfold ps. now rewrite decoded_yeast, get_y.
  - unfold ps. destruct (Qle_bool (oil p) 0) eqn:E.
    + now rewrite decoded_oil, get_o, E.
    + apply (holds_scaled_number _ _ _ 100 eq_refl Poil Hoil).
      now rewrite decoded_oil, get_o, E.
  - unfold ps. destruct (Qle_bool (sugar p) 0) eqn:E.
    + now rewrite decoded_sugar, get_su, E.
    + apply (holds_scaled_number _ _ _ 100 eq_refl Psu Hsu).
      now rewrite decoded_sugar, get_su, E.
  - unfold ps. destruct (usePreFerment p) eqn:E.
    + repeat split.
      * now rewrite decoded_usePreFerment, get_pf, E.
      * rewrite decoded_preFermentType, get_pf, get_pft, E.
        change (is_one (Some "1")) with true. cbn iota.
        now rewrite or_else_idempotent.
      * apply (holds_scaled_number _ _ _ 100 eq_refl Ppfp Hpfp).
        now rewrite decoded_preFermentFlourPercent, get_pf, get_pfp, E.
    + repeat split.
      * now rewrite decoded_usePreFerment, get_pf, E.
      * now rewrite decoded_preFermentType, get_pf, E.
      * now rewrite decoded_preFermentFlourPercent, get_pf, E.
  - unfold ps. rewrite decoded_humidityAdjust, get_ha.
    now destruct (humidityAdjust p).
  - unfold ps. rewrite decoded_style, get_s. apply text_read_back.
  - unfold ps. rewrite decoded_flourType, get_ft. apply text_read_back.
  - apply decoded_bigaHydration.
Qed.

Lemma share_link_round_trip_example :
  exists r,
    decodeRecipe (VString (encodeRecipe None biga_recipe)) = Some r /\
    carried_over biga_recipe r.
Proof.
  apply (share_link_round_trip None biga_recipe).
  - exact I.
  - repeat split;
      [exists 65%Z | exists 25%Z | exists 2%Z | exists 0%Z | exists 0%Z | exists 25%Z];
      reflexivity.
  - repeat split.
Defined.

(** *** C10: what [decodeRecipe] returns for which input *)

(** C10.  For a string, whatever it holds, [decodeRecipe] returns a recipe
    object, which may be empty, and not null; it returns null exactly when
    its input is neither a string nor a URLSearchParams. *)
Theorem decodeRecipe_null_only_for_other_inputs :
  (forall text : string,
     exists recipe, decodeRecipe (VString text) = Some recipe) /\
  (forall input : value,
     decodeRecipe input = None <-> is_string_or_params input = false) /\
  URL_searchParams "<<pizza>>" = Throw InvalidURL /\
  decodeRecipe (VString "<<pizza>>") = Some ∅.
Proof.
  split; [| split; [| split]].
  - intros text. cbn. eauto.
  - intros input. destruct input; cbn; split; congruence.
  - reflexivity.
  - vm_compute. reflexivity.
Qed.

End ShareProofs.

(* ====================================================================== *)
(** ** Further properties of the engine *)

Module EngineMoreProofs.
Import Engine EngineSpec EngineMore EngineProofs.

Lemma round_0_nonnegative (x : Q) :
  0 <= x -> nonnegative_weight (round (Fin x) 0).
Proof.
  intros Hx. rewrite round_Fin_0. eexists; split; [reflexivity |].
  assert (Hz : (0 <= Qfloor (x * 1 + (1 # 2)))%Z).
  { change 0%Z with (Qfloor 0). apply Qfloor_resp_le. lra. }
  rewrite Zle_Qle in Hz. change (inject_Z 0) with 0 in Hz.
  set (z := inject_Z (Qfloor (x * 1 + (1 # 2)))) in *.
  assert (E : z / 1 == z) by field. rewrite E. exact Hz.
Qed.

Lemma round_1_nonnegative (x : Q) :
  0 <= x -> nonnegative_weight (round (Fin x) 1).
Proof.
  intros Hx. rewrite round_Fin_1. eexists; split; [reflexivity |].
  assert (Hz : (0 <= Qfloor (x * (10 # 1) + (1 # 2)))%Z).
  { change 0%Z with (Qfloor 0). apply Qfloor_resp_le. lra. }
  rewrite Zle_Qle in Hz. change (inject_Z 0) with 0 in Hz.
  set (z := inject_Z (Qfloor (x * (10 # 1) + (1 # 2)))) in *.
  assert (E : z / (10 # 1) == z * (1 # 10)) by field. rewrite E.
  lra.
Qed.

Lemma quotient_nonnegative (t d : Q) : 0 <= t -> 0 < d -> 0 <= t / d.
Proof.
  intros Ht Hd. apply Qle_shift_div_l; [exact Hd | lra].
Qed.

(** With positive [numBalls] and [ballWeight] and no negative fraction, no
    weight of the single-stage recipe is negative, infinite or NaN. *)
Theorem single_stage_weights_are_nonnegative (c : DoughCalculator) :
  0 < numBalls c -> 0 < ballWeight c ->
  0 <= effectiveHydration c ->
  0 <= salt c -> 0 <= yeast c -> 0 <= oil c -> 0 <= sugar c ->
  usePreFerment c = false ->
  exists ing tw pc,
    calculate c = single ing tw pc /\
    nonnegative_weight (Ingredients.flour ing) /\
    nonnegative_weight (Ingredients.water ing) /\
    nonnegative_weight (Ingredients.salt ing) /\
    nonnegative_weight (Ingredients.yeast ing) /\
    nonnegative_weight (Ingredients.oil ing) /\
    nonnegative_weight (Ingredients.sugar ing).
Proof.
  intros Hn Hw Hh Hs Hy Ho Hg Hsingle.
  rewrite (calculate_single c Hsingle).
  assert (Hden : 0 < totalPercentage c) by (unfold totalPercentage; lra).
  assert (Hnz : ~ totalPercentage c == 0) by lra.
  assert (Ht : 0 <= totalDoughWeight c).
  { unfold totalDoughWeight. apply Qmult_le_0_compat; lra. }
  unfold waterWeight. rewrite (flourWeight_defined c Hnz).
  pose proof (quotient_nonnegative _ _ Ht Hden) as Hf.
  set (f := totalDoughWeight c / totalPercentage c) in *.
  eexists _, _, _. split; [reflexivity |].
  cbn [mul Ingredients.flour Ingredients.water Ingredients.salt
       Ingredients.yeast Ingredients.oil Ingredients.sugar].
  repeat split;
    first [apply round_0_nonnegative | apply round_1_nonnegative];
    try exact Hf; now apply Qmult_le_0_compat.
Qed.

Lemma single_stage_weights_are_nonnegative_example :
  exists ing tw pc,
    calculate (constructor example_options) = single ing tw pc /\
    nonnegative_weight (Ingredients.flour ing) /\
    nonnegative_weight (Ingredients.water ing) /\
    nonnegative_weight (Ingredients.salt ing) /\
    nonnegative_weight (Ingredients.yeast ing) /\
    nonnegative_weight (Ingredients.oil ing) /\
    nonnegative_weight (Ingredients.sugar ing).
Proof.
  apply (single_stage_weights_are_nonnegative (constructor example_options));
    first [reflexivity | discriminate].
Defined.

(** For positive [numBalls] and [ballWeight], a positive sum
    [1 + salt + yeast + oil + sugar], and a flour denominator that is
    positive with the switch on: in humid conditions the recipe takes more
    flour and less water.  With the switch on, the flour weight is higher
    and the water weight lower than with it off (both before rounding), and
    the effective hydration is lower by 0.025. *)
Theorem humidity_adjustment_trades_water_for_flour (c : DoughCalculator) :
  0 < numBalls c -> 0 < ballWeight c ->
  0 < 1 + salt c + yeast c + oil c + sugar c ->
  0 < totalPercentage (with_humidityAdjust true c) ->
  exists f0 f1 w0 w1 : Q,
    flourWeight (with_humidityAdjust false c) = Fin f0 /\
    flourWeight (with_humidityAdjust true c) = Fin f1 /\
    waterWeight (with_humidityAdjust false c) = Fin w0 /\
    waterWeight (with_humidityAdjust true c) = Fin w1 /\
    f0 < f1 /\ w1 < w0 /\
    effectiveHydration (with_humidityAdjust true c)
      == effectiveHydration (with_humidityAdjust false c) - (25 # 1000).
Proof.
  intros Hn Hw Hrest Hden1.
  set (c0 := with_humidityAdjust false c) in *.
  set (c1 := with_humidityAdjust true c) in *.
  assert (Hh : effectiveHydration c1 == effectiveHydration c0 - (25 # 1000))
    by reflexivity.
  assert (Hd : totalPercentage c1 == totalPercentage c0 - (25 # 1000)).
  { unfold totalPercentage. rewrite Hh. cbn [salt yeast oil sugar c0 c1
      with_humidityAdjust]. ring. }
  assert (Hden0 : 0 < totalPercentage c0) by lra.
  assert (Ht : 0 < totalDoughWeight c)
    by (unfold totalDoughWeight; apply Qmult_lt_0_compat; assumption).
  assert (Ht0 : totalDoughWeight c0 = totalDoughWeight c) by reflexivity.
  assert (Ht1 : totalDoughWeight c1 = totalDoughWeight c) by reflexivity.
  assert (Hnz0 : ~ totalPercentage c0 == 0) by lra.
  assert (Hnz1 : ~ totalPercentage c1 == 0) by lra.
  unfold waterWeight.
  rewrite (flourWeight_defined c0 Hnz0), (flourWeight_defined c1 Hnz1).
  rewrite Ht0, Ht1. cbn [mul].
  set (T := totalDoughWeight c) in *.
  set (D0 := totalPercentage c0) in *. set (D1 := totalPercentage c1) in *.
  assert (Hf0 : T / D0 * D0 == T) by (field; exact Hnz0).
  assert (Hf1 : T / D1 * D1 == T) by (field; exact Hnz1).
  assert (Hp0 : 0 < T / D0) by (apply Qlt_shift_div_l; lra).
  assert (Hp1 : 0 < T / D1) by (apply Qlt_shift_div_l; lra).
  set (f0 := T / D0) in *. set (f1 := T / D1) in *.
  assert (Hflour : f0 < f1).
  { assert (H : f0 * D1 < f1 * D1).
    { rewrite Hf1, Hd. lra. }
    apply (Qmult_lt_r _ _ D1 Hden1). exact H. }
  eexists f0, f1, _, _. repeat split; try reflexivity; try exact Hflour.
  set (P := 1 + salt c + yeast c + oil c + sugar c) in *.
  assert (HP : 0 < (f1 - f0) * P) by (apply Qmult_lt_0_compat; lra).
  assert (E0 : D0 == P + effectiveHydration c0).
  { unfold D0, totalPercentage, P.
    cbn [salt yeast oil sugar c0 with_humidityAdjust]. ring. }
  assert (E1 : D1 == P + effectiveHydration c1).
  { unfold D1, totalPercentage, P.
    cbn [salt yeast oil sugar c1 with_humidityAdjust]. ring. }
  rewrite E0 in Hf0. rewrite E1 in Hf1. lra.
Qed.

Lemma humidity_adjustment_trades_water_for_flour_example :
  exists f0 f1 w0 w1 : Q,
    flourWeight (with_humidityAdjust false (constructor example_options)) = Fin f0 /\
    flourWeight (with_humidityAdjust true (constructor example_options)) = Fin f1 /\
    waterWeight (with_humidityAdjust false (constructor example_options)) = Fin w0 /\
    waterWeight (with_humidityAdjust true (constructor example_options)) = Fin w1 /\
    f0 < f1 /\ w1 < w0 /\
    effectiveHydration (with_humidityAdjust true (constructor example_options))
      == effectiveHydration (with_humidityAdjust false (constructor example_options))
         - (25 # 1000).
Proof.
  apply (humidity_adjustment_trades_water_for_flour (constructor example_options));
    reflexivity.
Defined.

(** For positive [numBalls] and [ballWeight], a positive flour denominator
    and the pre-ferment in use: the final dough's water is what the recipe's
    water leaves after the pre-ferment took its share.  It is not negative
    when the pre-ferment's water (its share of the flour times its
    hydration) is within the recipe's effective hydration, and it is
    reported negative, not clamped, when the pre-ferment needs over half a
    gram more water than the recipe has. *)
Theorem final_dough_water_sign (c : DoughCalculator) :
  0 < numBalls c -> 0 < ballWeight c ->
  0 < totalPercentage c ->
  usePreFerment c = true ->
  exists pf fd tw pc r,
    calculate c = two_stage pf fd tw pc /\
    FinalDough.water fd = Fin r /\
    (preFermentFlourPercent c * preFermentHydration c <= effectiveHydration c ->
       0 <= r) /\
    (totalPercentage c * (1 # 2)
       < totalDoughWeight c *
         (preFermentFlourPercent c * preFermentHydration c - effectiveHydration c) ->
       r < 0).
Proof.
  intros Hn Hw Hden E.
  rewrite (calculate_two_stage c E). unfold calculateWithPreFerment, waterWeight.
  assert (Hnz : ~ totalPercentage c == 0) by lra.
  rewrite (flourWeight_defined c Hnz).
  assert (Ht : 0 < totalDoughWeight c)
    by (unfold totalDoughWeight; apply Qmult_lt_0_compat; assumption).
  set (T := totalDoughWeight c) in *. set (D := totalPercentage c) in *.
  assert (Hf : T / D * D == T) by (field; exact Hnz).
  assert (Hp : 0 < T / D) by (apply Qlt_shift_div_l; lra).
  set (f := T / D) in *.
  set (p := preFermentFlourPercent c). set (q := preFermentHydration c).
  set (h := effectiveHydration c).
  cbn [mul sub neg add FinalDough.water]. rewrite round_Fin_0.
  eexists _, _, _, _, _. split; [reflexivity |]. split; [reflexivity |].
  destruct (floor_half_bounds ((f * h + - (f * p * q)) * 1)) as [Hlo Hhi].
  set (z := inject_Z (Qfloor ((f * h + - (f * p * q)) * 1 + (1 # 2)))) in *.
  assert (Ez : z / 1 == z) by field.
  split.
  - intros Hle.
    assert (Hx : 0 <= f * (h - p * q)) by (apply Qmult_le_0_compat; lra).
    assert (Hz0 : (0 <= Qfloor ((f * h + - (f * p * q)) * 1 + (1 # 2)))%Z).
    { change 0%Z with (Qfloor 0). apply Qfloor_resp_le. lra. }
    rewrite Zle_Qle in Hz0. change (inject_Z 0) with 0 in Hz0.
    change (0 <= z / 1). rewrite Ez. exact Hz0.
  - intros Hlt. rewrite <- Hf in Hlt.
    assert (Hx : (1 # 2) < f * (p * q - h)).
    { apply (Qmult_lt_l _ _ D Hden). lra. }
    change (z / 1 < 0). rewrite Ez. lra.
Qed.

Lemma final_dough_water_sign_example :
  exists pf fd tw pc r,
    calculate dry_dough_with_poolish = two_stage pf fd tw pc /\
    FinalDough.water fd = Fin r /\
    (preFermentFlourPercent dry_dough_with_poolish
       * preFermentHydration dry_dough_with_poolish
       <= effectiveHydration dry_dough_with_poolish -> 0 <= r) /\
    (totalPercentage dry_dough_with_poolish * (1 # 2)
       < totalDoughWeight dry_dough_with_poolish *
         (preFermentFlourPercent dry_dough_with_poolish
            * preFermentHydration dry_dough_with_poolish
          - effectiveHydration dry_dough_with_poolish) ->
       r < 0).
Proof.
  apply (final_dough_water_sign dry_dough_with_poolish); reflexivity.
Defined.

(** With whole numbers of balls and of grams per ball, the [totalWeight] the
    recipe reports is their product, exactly. *)
Theorem totalWeight_is_exact_for_whole_numbers (c : DoughCalculator) (n w : Z) :
  numBalls c == inject_Z n ->
  ballWeight c == inject_Z w ->
  exists t : Q,
    totalWeight (calculate c) = Fin t /\ t == inject_Z (n * w).
Proof.
  intros Hn Hw.
  assert (Htw : totalWeight (calculate c) = round (Fin (totalDoughWeight c)) 0).
  { destruct (usePreFerment c) eqn:E.
    - now rewrite (calculate_two_stage c E).
    - now rewrite (calculate_single c E). }
  rewrite Htw, round_Fin_0. eexists; split; [reflexivity |].
  assert (Ht : totalDoughWeight c * 1 + (1 # 2) == inject_Z (n * w) + (1 # 2)).
  { unfold totalDoughWeight. rewrite Hn, Hw, inject_Z_mult. ring. }
  rewrite (Qfloor_comp _ _ Ht).
  change (Qfloor (inject_Z (n * w) + (1 # 2)))
    with (round_half_up (inject_Z (n * w))).
  rewrite ShareProofs.round_half_up_inject_Z. field.
Qed.

Lemma totalWeight_is_exact_for_whole_numbers_example :
  exists t : Q,
    totalWeight (calculate (constructor example_options)) = Fin t /\
    t == inject_Z (4 * 250).
Proof.
  apply (totalWeight_is_exact_for_whole_numbers (constructor example_options) 4 250);
    reflexivity.
Defined.

End EngineMoreProofs.

(* ====================================================================== *)
(** ** Properties of the calculator's URL parameters *)

Module EngineURLProofs.
Import Web Engine EngineURL WebProofs.

Local Open Scope string_scope.

(** *** Numbers as text *)

Lemma number_text_of_whole (fraction_text : Q -> string) (x : Q) (n : Z) :
  x == inject_Z n -> number_text fraction_text x = Number_toString n.
Proof.
  intros Hx. unfold number_text.
  rewrite (Qred_complete _ _ Hx).
  assert (E : Qred (inject_Z n) = inject_Z n).
  { apply Qcanon.Qred_identity. cbn. apply Z.gcd_1_r. }
  now rewrite E.
Qed.

Lemma unsigned_value_of_uint (d : Decimal.uint) (sign : Z) :
  unsigned_value (DecimalString.NilEmpty.string_of_uint d) sign
  = digits_value (DecimalString.NilEmpty.string_of_uint d) sign.
Proof.
  destruct d as [| d | d | d | d | d | d | d | d | d | d]; try reflexivity.
  destruct d; reflexivity.
Qed.

Lemma parseInt_any_radix_toString (n : Z) :
  plain_digits n ->
  parseInt_any_radix (Number_toString n) = Fin (inject_Z n).
Proof.
  intros Hplain.
  rewrite <- (parseInt_toString n Hplain).
  rewrite (Number_toString_plain n Hplain).
  destruct n as [| p | p]; [reflexivity | |];
    cbn [Z.to_int DecimalString.NilZero.string_of_int];
    pose proof (DecimalPos.Unsigned.to_uint_nonnil p) as Hnil;
    rewrite (text_of_nonnil_uint _ Hnil).
  - destruct (uint_text_starts_with_digit _ Hnil) as (c & rest & E & Hc).
    unfold parseInt_any_radix, parseInt.
    assert (Hs : skip_white_space (String c rest) = String c rest
                 /\ c <> "-"%char /\ c <> "+"%char).
    { each_byte c; try discriminate Hc; repeat split; discriminate. }
    destruct Hs as (Hs & Hm & Hp).
    rewrite E, Hs.
    assert (Hu : unsigned_value (String c rest) 1 = digits_value (String c rest) 1)
      by (rewrite <- E; apply unsigned_value_of_uint).
    each_byte c; try discriminate Hc; try congruence; exact Hu.
  - unfold parseInt_any_radix, parseInt.
    change (skip_white_space (String "-" ?s)) with (String "-" s).
    cbn [skip_white_space is_white_space].
    apply unsigned_value_of_uint.
Qed.

(** *** What [params.get] finds after [toURLParams] *)

Section Gets.

Variable fraction_text : Q -> string.
Variable c : DoughCalculator.

Let params := toURLParams fraction_text c.

Ltac by_cases_of_toURLParams :=
  unfold params, toURLParams, set_if;
  destruct (negb (Qle_bool (oil c) 0)), (negb (Qle_bool (sugar c) 0)),
           (usePreFerment c), (humidityAdjust c);
  reflexivity.

Lemma url_get_n : get "n" params = Some (number_text fraction_text (numBalls c)).
Proof. by_cases_of_toURLParams. Qed.

Lemma url_get_w : get "w" params = Some (number_text fraction_text (ballWeight c)).
Proof. by_cases_of_toURLParams. Qed.

Lemma url_get_h :
  get "h" params = Some (Number_toString (round_half_up (hydration c * 100))).
Proof. by_cases_of_toURLParams. Qed.

Lemma url_get_sa :
  get "sa" params = Some (Number_toString (round_half_up (salt c * 1000))).
Proof. by_cases_of_toURLParams. Qed.

Lemma url_get_y :
  get "y" params = Some (Number_toString (round_half_up (yeast c * 1000))).
Proof. by_cases_of_toURLParams. Qed.

Lemma url_get_o :
  get "o" params
  = if Qle_bool (oil c) 0 then None
    else Some (Number_toString (round_half_up (oil c * 100))).
Proof.
  unfold params, toURLParams, set_if.
  destruct (Qle_bool (oil c) 0), (negb (Qle_bool (sugar c) 0)),
           (usePreFerment c), (humidityAdjust c);
  reflexivity.
Qed.

Lemma url_get_su :
  get "su" params
  = if Qle_bool (sugar c) 0 then None
    else Some (Number_toString (round_half_up (sugar c * 100))).
Proof.
  unfold params, toURLParams, set_if.
  destruct (Qle_bool (sugar c) 0), (negb (Qle_bool (oil c) 0)),
           (usePreFerment c), (humidityAdjust c);
  reflexivity.
Qed.

Lemma url_get_pf : get "pf" params = if usePreFerment c then Some "1" else None.
Proof. by_cases_of_toURLParams. Qed.

Lemma url_get_pft :
  get "pft" params = if usePreFerment c then Some (preFermentType c) else None.
Proof. by_cases_of_toURLParams. Qed.

Lemma url_get_pfp :
  get "pfp" params
  = if usePreFerment c
    then Some (Number_toString (round_half_up (preFermentFlourPercent c * 100)))
    else None.
Proof. by_cases_of_toURLParams. Qed.

Lemma url_get_ha : get "ha" params = if humidityAdjust c then Some "1" else None.
Proof. by_cases_of_toURLParams. Qed.

End Gets.

(** *** Reading numbers back *)

Lemma scaled_option_of_grid (params : URLSearchParams) (name : string)
    (x scale : Q) (k : Z) :
  Qeq_bool scale 0 = false ->
  plain_digits (round_half_up (x * scale)) ->
  x * scale == inject_Z k ->
  get name params = Some (Number_toString (round_half_up (x * scale))) ->
  scaled_option params name scale = Some (Fin (inject_Z k / scale)).
Proof.
  intros Hs Hplain Hk Hget. unfold scaled_option, has. rewrite Hget.
  cbn [parseInt_of]. rewrite (parseInt_any_radix_toString _ Hplain).
  rewrite (Qfloor_comp _ _ (Qplus_comp _ _ Hk _ _ (Qeq_refl (1 # 2)))
           : round_half_up (x * scale) = round_half_up (inject_Z k)).
  rewrite ShareProofs.round_half_up_inject_Z. cbn [div]. now rewrite Hs.
Qed.

Lemma scaled_option_of_missing (params : URLSearchParams) (name : string)
    (scale : Q) :
  get name params = None -> scaled_option params name scale = None.
Proof. intros Hget. unfold scaled_option, has. now rewrite Hget. Qed.

Lemma or_undefined_of_nonzero (n : Z) :
  n <> 0%Z -> or_undefined (Fin (inject_Z n)) = Some (Fin (inject_Z n)).
Proof.
  intros Hn. cbn [or_undefined].
  destruct (Qeq_bool (inject_Z n) 0) eqn:E; [| reflexivity].
  apply Qeq_bool_iff in E. unfold Qeq in E. cbn in E. lia.
Qed.

Lemma back_from_grid (x scale : Q) (k : Z) :
  Qeq_bool scale 0 = false -> x * scale == inject_Z k ->
  inject_Z k / scale == x.
Proof.
  intros Hs Hk.
  assert (Hnz : ~ scale == 0).
  { intros E. apply Qeq_bool_iff in E. congruence. }
  rewrite <- Hk. field. exact Hnz.
Qed.

(** A calculator written to URL parameters and read back.  For whole,
    non-zero numbers of balls and grams, fractions on the grid of the link
    (hundredths; thousandths for salt and yeast), and numbers that the link
    writes in plain digits (below 1e21 in size), the calculator read back
    has finite fields: the same numbers of balls and grams, hydration, salt,
    yeast and switches; oil and sugar when positive and 0 otherwise; the
    pre-ferment's type (["poolish"] for an empty one) and share of flour
    when the pre-ferment is used, and the defaults (["poolish"], 0.25)
    otherwise; and always the default biga hydration 0.55, whatever it
    was. *)
Theorem calculator_url_round_trip (fraction_text : Q -> string)
    (c : DoughCalculator) (n w : Z) :
  numBalls c == inject_Z n -> n <> 0%Z -> plain_digits n ->
  ballWeight c == inject_Z w -> w <> 0%Z -> plain_digits w ->
  ShareSpec.on_grid 100 (hydration c) ->
  ShareSpec.on_grid 1000 (salt c) ->
  ShareSpec.on_grid 1000 (yeast c) ->
  ShareSpec.on_grid 100 (oil c) ->
  ShareSpec.on_grid 100 (sugar c) ->
  ShareSpec.on_grid 100 (preFermentFlourPercent c) ->
  percentages_in_plain_digits c ->
  exists c',
    as_calculator (fromURLParams (toURLParams fraction_text c)) = Some c' /\
    restored_from c c'.
Proof.
  intros Hn Hn0 Pn Hw Hw0 Pw [kh Hh] [ks Hs] [ky Hy] [ko Ho] [kg Hg] [kp Hp]
         (Ph & Ps & Py & Po & Pg & Pp).
  unfold fromURLParams, construct, options_from_params.
  cbn [url_numBalls url_ballWeight url_hydration url_salt url_yeast url_oil
       url_sugar url_preFermentFlourPercent url_usePreFerment
       url_preFermentType url_humidityAdjust].
  rewrite url_get_n, url_get_w, url_get_pf, url_get_pft, url_get_ha.
  rewrite (number_text_of_whole _ _ _ Hn), (number_text_of_whole _ _ _ Hw).
  cbn [parseInt_of].
  rewrite (parseInt_any_radix_toString n Pn), (parseInt_any_radix_toString w Pw).
  rewrite (or_undefined_of_nonzero n Hn0), (or_undefined_of_nonzero w Hw0).
  rewrite (scaled_option_of_grid _ "h" _ 100 kh eq_refl Ph Hh (url_get_h _ _)).
  rewrite (scaled_option_of_grid _ "sa" _ 1000 ks eq_refl Ps Hs (url_get_sa _ _)).
  rewrite (scaled_option_of_grid _ "y" _ 1000 ky eq_refl Py Hy (url_get_y _ _)).
  pose proof (url_get_o fraction_text c) as Hgo.
  pose proof (url_get_su fraction_text c) as Hgs.
  pose proof (url_get_pfp fraction_text c) as Hgp.
  unfold restored_from.
  destruct (Qle_bool (oil c) 0) eqn:Eo;
    [rewrite (scaled_option_of_missing _ "o" 100 Hgo)
    | rewrite (scaled_option_of_grid _ "o" _ 100 ko eq_refl Po Ho Hgo)];
  (destruct (Qle_bool (sugar c) 0) eqn:Eg;
    [rewrite (scaled_option_of_missing _ "su" 100 Hgs)
    | rewrite (scaled_option_of_grid _ "su" _ 100 kg eq_refl Pg Hg Hgs)]);
  (destruct (usePreFerment c) eqn:Ep;
    [rewrite (scaled_option_of_grid _ "pfp" _ 100 kp eq_refl Pp Hp Hgp)
    | rewrite (scaled_option_of_missing _ "pfp" 100 Hgp)]);
  cbn [as_calculator finite nullish is_one text_or_undefined
       f_numBalls f_ballWeight f_hydration f_salt f_yeast f_oil f_sugar
       f_humidityAdjust f_usePreFerment f_preFermentType
       f_preFermentFlourPercent f_bigaHydration];
  eexists; (split; [reflexivity |]);
  cbn [numBalls ballWeight hydration salt yeast oil sugar
       humidityAdjust usePreFerment preFermentType preFermentFlourPercent
       bigaHydration];
  repeat match goal with |- _ /\ _ => split end;
  try (symmetry; assumption);
  try (apply back_from_grid; [reflexivity | assumption]);
  try reflexivity;
  try (destruct (humidityAdjust c); reflexivity);
  try (destruct (String.eqb (preFermentType c) ""); reflexivity).
Qed.

Lemma calculator_url_round_trip_example :
  exists c',
    as_calculator (fromURLParams (toURLParams (fun _ => "") biga_calculator))
    = Some c' /\
    restored_from biga_calculator c'.
Proof.
  apply (calculator_url_round_trip (fun _ => "") biga_calculator 4 260);
    try reflexivity; try discriminate;
    [exists 65%Z | exists 25%Z | exists 2%Z | exists 0%Z | exists 0%Z
     | exists 30%Z | repeat split];
    reflexivity.
Defined.

Lemma nullish_or_undefined (x : num) (default : Q) :
  (discarded x -> nullish (or_undefined x) (Fin default) = Fin default) /\
  (forall q, x = Fin q -> ~ q == 0 ->
             nullish (or_undefined x) (Fin default) = Fin q).
Proof.
  destruct x as [q | | |]; cbn [or_undefined discarded nullish]; split;
    try reflexivity; try discriminate; try contradiction.
  - intros Hq. apply Qeq_bool_iff in Hq. now rewrite Hq.
  - intros q' [= <-] Hq.
    destruct (Qeq_bool q 0) eqn:E; [| reflexivity].
    apply Qeq_bool_iff in E. contradiction.
Qed.

(** Reading a calculator from URL parameters discards a number of balls or
    a ball weight that is missing, zero or no number at all, and takes the
    default (4 balls, 250 g) instead; any other number is taken as it is,
    a negative one too.  This is so whatever the other parameters hold: a
    percentage that is present and holds no number is NaN in the calculator
    and stops nothing. *)
Theorem fromURLParams_counts (params : URLSearchParams) :
  (discarded (parseInt_of (get "n" params)) ->
     f_numBalls (fromURLParams params) = Fin 4) /\
  (discarded (parseInt_of (get "w" params)) ->
     f_ballWeight (fromURLParams params) = Fin 250) /\
  (forall q, parseInt_of (get "n" params) = Fin q -> ~ q == 0 ->
     f_numBalls (fromURLParams params) = Fin q) /\
  (forall q, parseInt_of (get "w" params) = Fin q -> ~ q == 0 ->
     f_ballWeight (fromURLParams params) = Fin q) /\
  (has "h" params = true -> parseInt_of (get "h" params) = NaN ->
     f_hydration (fromURLParams params) = NaN).
Proof.
  unfold fromURLParams, construct, options_from_params.
  cbn [url_numBalls url_ballWeight url_hydration
       f_numBalls f_ballWeight f_hydration].
  destruct (nullish_or_undefined (parseInt_of (get "n" params)) 4) as [Hn0 Hn1].
  destruct (nullish_or_undefined (parseInt_of (get "w" params)) 250) as [Hw0 Hw1].
  repeat split; try assumption.
  intros Hhas Hnan. unfold scaled_option. now rewrite Hhas, Hnan.
Qed.

Lemma fromURLParams_counts_example :
  f_numBalls (fromURLParams [("n", "0"); ("w", "-300"); ("h", "abc")]) = Fin 4 /\
  f_ballWeight (fromURLParams [("n", "0"); ("w", "-300"); ("h", "abc")])
  = Fin (inject_Z (-300)) /\
  f_hydration (fromURLParams [("n", "0"); ("w", "-300"); ("h", "abc")]) = NaN.
Proof.
  destruct (fromURLParams_counts [("n", "0"); ("w", "-300"); ("h", "abc")])
    as (Hn & _ & _ & Hw & Hh).
  split; [exact (Hn eq_refl) |]. split.
  - apply Hw; [reflexivity | intros H; discriminate H].
  - apply Hh; reflexivity.
Defined.

End EngineURLProofs.

(* ====================================================================== *)
(** ** Further properties of the emergency timer *)

Module EmergencyTimerMoreProofs.
Import EmergencyTimer EmergencyTimerMore.

Local Open Scope string_scope.
Local Open Scope Z_scope.

(** The hours, minutes and seconds shown add up to the remaining time, to
    the second: minutes and seconds stay below sixty, and less than a second
    is dropped. *)
Theorem getTimeComponents_splits_remaining (t : Timer) :
  0 <= remaining t ->
  let '(h, m, s) := getTimeComponents t in
  0 <= h /\ 0 <= m < 60 /\ 0 <= s < 60 /\
  h * 3600000 + m * 60000 + s * 1000 <= remaining t
    < h * 3600000 + m * 60000 + s * 1000 + 1000.
Proof.
  intros Hr. unfold getTimeComponents.
  rewrite !Z.rem_mod_nonneg by lia.
  set (r := remaining t) in *.
  Z.div_mod_to_equations. lia.
Qed.

Lemma getTimeComponents_splits_remaining_example :
  let '(h, m, s) := getTimeComponents (fst fresh) in
  0 <= h /\ 0 <= m < 60 /\ 0 <= s < 60 /\
  h * 3600000 + m * 60000 + s * 1000 <= remaining (fst fresh)
    < h * 3600000 + m * 60000 + s * 1000 + 1000.
Proof.
  apply (getTimeComponents_splits_remaining (fst fresh)). discriminate.
Defined.

(** *** Progress *)

(** While the remaining time is between zero and a positive duration, the
    progress is a whole percentage between 0 and 100. *)
Theorem getProgress_is_a_percentage (t : Timer) :
  0 < duration t ->
  0 <= remaining t <= duration t ->
  exists p : Z, getProgress t = Fin (inject_Z p) /\ 0 <= p <= 100.
Proof.
  intros Hd [Hr0 Hr1]. unfold getProgress.
  set (d := duration t) in *. set (r := remaining t) in *.
  assert (Hdq : (0 < inject_Z d)%Q).
  { change 0%Q with (inject_Z 0). now rewrite <- Zlt_Qlt. }
  assert (Hnz : Qeq_bool (inject_Z d) 0 = false).
  { destruct (Qeq_bool (inject_Z d) 0) eqn:E; [| reflexivity].
    apply Qeq_bool_iff in E. lra. }
  cbn [div]. rewrite Hnz. cbn [mul Math_round].
  eexists. split; [reflexivity |].
  set (x := (inject_Z (d - r) / inject_Z d)%Q).
  assert (Hx0 : (0 <= x)%Q).
  { apply Qle_shift_div_l; [exact Hdq |].
    change (0 * inject_Z d)%Q with (inject_Z 0).
    rewrite <- Zle_Qle. lia. }
  assert (Hx1 : (x <= 1)%Q).
  { apply Qle_shift_div_r; [exact Hdq |].
    rewrite Qmult_1_l, <- Zle_Qle. lia. }
  unfold round_half_up. split.
  - exact (Qfloor_resp_le (1 # 2) (x * 100 + (1 # 2)) ltac:(lra)).
  - exact (Qfloor_resp_le (x * 100 + (1 # 2)) (201 # 2) ltac:(lra)).
Qed.

Lemma getProgress_is_a_percentage_example :
  exists p : Z, getProgress (fst fresh) = Fin (inject_Z p) /\ 0 <= p <= 100.
Proof.
  apply (getProgress_is_a_percentage (fst fresh)).
  - reflexivity.
  - split; discriminate.
Defined.

(** *** Events counted over a growing log *)

Lemma completions_app (a b : list Event) :
  completions (a ++ b)%list = (completions a + completions b)%nat.
Proof. unfold completions. now rewrite List.filter_app, List.length_app. Qed.

Lemma beeps_app (a b : list Event) :
  beeps (a ++ b)%list = (beeps a + beeps b)%nat.
Proof. unfold beeps. now rewrite List.filter_app, List.length_app. Qed.

Ltac open_state t w :=
  destruct t as [t_duration t_remaining t_interval t_running t_started
                 t_onTick t_onComplete t_onStateChange];
  destruct w as [w_now w_storage w_audio w_timeouts w_log].

(** *** Completion by a tick *)

(** The tick that finds the end time reached completes the timer: it
    stands at zero and no longer runs, its interval is cleared, nothing
    stays in the store, the completion is announced once (one call of
    [onComplete] if set, one play of the beeps if there is audio), and a
    further tick changes nothing. *)
Theorem tick_at_the_end_completes_once (t : Timer) (w : World) (endTime : Z) :
  intervalId t = Some endTime ->
  isRunning t = true ->
  endTime <= now w ->
  let '(t', w') := tick (t, w) in
  remaining t' = 0 /\
  isRunning t' = false /\
  intervalId t' = None /\
  persisted w' = None /\
  completions (log w') = (completions (log w) + flag (onComplete t))%nat /\
  beeps (log w') = (beeps (log w) + flag (audio w))%nat /\
  tick (t', w') = (t', w').
Proof.
  open_state t w. cbn [intervalId isRunning now]. intros -> -> Hend.
  unfold tick. cbn [intervalId now set_remaining remaining duration isRunning
                    startedAt onTick onComplete onStateChange].
  replace (Z.max 0 (endTime - w_now)) with 0 by lia.
  destruct t_onTick, t_onStateChange, t_onComplete, w_audio,
           w_storage as [ls |];
    cbn -[completions beeps];
    rewrite ?lookup_delete_eq, ?completions_app, ?beeps_app; cbn;
    repeat split; lia.
Qed.

Lemma tick_at_the_end_completes_once_example :
  let '(t', w') := tick (advance (T + 7200000) (start fresh)) in
  remaining t' = 0 /\
  isRunning t' = false /\
  intervalId t' = None /\
  persisted w' = None /\
  completions (log w') = 1%nat /\
  beeps (log w') = 1%nat /\
  tick (t', w') = (t', w').
Proof.
  apply (tick_at_the_end_completes_once
           (fst (advance (T + 7200000) (start fresh)))
           (snd (advance (T + 7200000) (start fresh)))
           (T + 7200000)).
  - reflexivity.
  - reflexivity.
  - discriminate.
Defined.

(** *** Time added while the timer runs *)

Lemma tick_remaining (t : Timer) (w : World) (endTime : Z) :
  intervalId t = Some endTime ->
  remaining (fst (tick (t, w))) = Z.max 0 (endTime - now w).
Proof.
  open_state t w. cbn [intervalId now]. intros ->.
  unfold tick. cbn [intervalId now set_remaining remaining duration isRunning
                    startedAt onTick onComplete onStateChange].
  destruct (Z.max 0 (endTime - w_now) <=? 0) eqn:E;
    [pose proof (proj1 (Z.leb_le _ _) E) as Hle |];
    destruct t_onTick, t_onStateChange, t_onComplete, w_audio, t_running,
             w_storage as [ls |];
    cbn; rewrite ?E; cbn; lia.
Qed.

(** Time added to a running timer does not last: the next tick sets the
    remaining time from the end time fixed when the timer was started, so
    it is the same as if no time had been added. *)
Theorem addTime_while_running_is_lost (s : State) (endTime ms later : Z) :
  intervalId (fst s) = Some endTime ->
  remaining (fst (tick (advance later (addTime ms s))))
  = remaining (fst (tick (advance later s))) /\
  remaining (fst (tick (advance later (addTime ms s))))
  = Z.max 0 (endTime - later).
Proof.
  intros Hi.
  assert (Ha : intervalId (fst (advance later (addTime ms s))) = Some endTime).
  { destruct s as [t w]. open_state t w. cbn in Hi. subst.
    destruct t_onTick, w_storage; reflexivity. }
  assert (Hb : intervalId (fst (advance later s)) = Some endTime)
    by (destruct s; exact Hi).
  destruct (advance later (addTime ms s)) as [t1 w1] eqn:E1.
  destruct (advance later s) as [t2 w2] eqn:E2.
  rewrite (tick_remaining t1 w1 endTime Ha), (tick_remaining t2 w2 endTime Hb).
  assert (Hn1 : now w1 = later).
  { destruct s as [t w]. open_state t w. unfold advance in E1.
    injection E1 as <- <-. reflexivity. }
  assert (Hn2 : now w2 = later).
  { destruct s as [t w]. unfold advance in E2. injection E2 as <- <-.
    reflexivity. }
  rewrite Hn1, Hn2. split; reflexivity.
Qed.

Lemma addTime_while_running_is_lost_example :
  remaining (fst (tick (advance (T + 1000) (addTime 600000 (start fresh)))))
  = remaining (fst (tick (advance (T + 1000) (start fresh)))) /\
  remaining (fst (tick (advance (T + 1000) (addTime 600000 (start fresh)))))
  = Z.max 0 (T + 7200000 - (T + 1000)).
Proof.
  apply (addTime_while_running_is_lost (start fresh) (T + 7200000) 600000
                                       (T + 1000)).
  reflexivity.
Defined.

(** [addTime] never lifts the remaining time above the duration, adds the
    full amount below it, and saves the new remaining time; it sets no lower
    bound, so a negative amount can take the remaining time below zero. *)
Theorem addTime_is_capped_and_saved (t : Timer) (w : World) (ms : Z) :
  let '(t', w') := addTime ms (t, w) in
  remaining t' <= duration t /\
  remaining t' <= remaining t + ms /\
  (remaining t + ms <= duration t -> remaining t' = remaining t + ms) /\
  duration t' = duration t /\
  isRunning t' = isRunning t /\
  (localStorage w <> None ->
   persisted w' = Some (Json {| snap_remaining := remaining t';
                                snap_isRunning := isRunning t;
                                snap_savedAt := now w;
                                snap_duration := duration t |})).
Proof.
  open_state t w. unfold addTime, saveState, call_onTick.
  cbn [remaining duration set_remaining isRunning intervalId startedAt
       onTick onComplete onStateChange localStorage now].
  destruct w_storage as [ls |], t_onTick; cbn;
    rewrite ?lookup_insert_eq; repeat split; try lia; try congruence.
Qed.

(** *** Loading the saved state *)

(** A snapshot of a running timer that has time left when the page comes
    back, in a browser with no timeout pending: the timer resumes with the
    remaining time reduced by the time that passed between the snapshot and
    the constructor.  The deferred start reads the clock when it runs,
    [delay] milliseconds later, and does not reduce the remaining time
    again: the end time is the one the timer had before (the time of the
    snapshot plus what remained then), moved later by that delay.  The
    start is announced once and saved with the time at which it ran. *)
Theorem page_load_resumes_running_timer (d : Z) (delay : N) (w : World)
    (ls : gmap string stored) (state : Snapshot) :
  localStorage w = Some ls ->
  ls !! "emergencyTimer" = Some (Json state) ->
  snap_isRunning state = true ->
  now w - snap_savedAt state < snap_remaining state ->
  timeouts w = [] ->
  let '(t', w') := page_load d delay w in
  isRunning t' = true /\
  remaining t' = snap_remaining state - (now w - snap_savedAt state) /\
  startedAt t' = Some (now w + Z.of_N delay) /\
  intervalId t' =
    Some (snap_savedAt state + snap_remaining state + Z.of_N delay) /\
  duration t' = loaded_duration d state /\
  log w' = (log w ++ [StateChange "running"])%list /\
  persisted w' =
    Some (Json {| snap_remaining := remaining t';
                  snap_isRunning := true;
                  snap_savedAt := now w + Z.of_N delay;
                  snap_duration := loaded_duration d state |}).
Proof.
  intros Hls Hget Hrun Hleft Hq.
  unfold page_load, constructor, loadState, loaded_duration.
  rewrite Hls, Hget, Hrun. cbn [remaining set_remaining].
  replace (Z.max 0 (snap_remaining state - (now w - snap_savedAt state)))
    with (snap_remaining state - (now w - snap_savedAt state)) by lia.
  destruct (snap_remaining state - (now w - snap_savedAt state) >? 0) eqn:E;
    [| rewrite Z.gtb_ltb in E; apply Z.ltb_ge in E; lia].
  destruct w as [w_now w_storage w_audio w_timeouts w_log].
  cbn in Hls, Hq. subst w_storage w_timeouts.
  destruct (snap_duration state =? 0); cbn;
    rewrite ?lookup_insert_eq; repeat split; f_equal; lia.
Qed.

Lemma page_load_resumes_running_timer_example :
  let '(t', w') := page_load DEFAULT_DURATION 250 running_world in
  isRunning t' = true /\
  remaining t' = 5400000 - (T + 2700000 - T) /\
  startedAt t' = Some (T + 2700000 + 250) /\
  intervalId t' = Some (T + 5400000 + 250) /\
  duration t' = loaded_duration DEFAULT_DURATION running_snapshot /\
  log w' = ([] ++ [StateChange "running"])%list /\
  persisted w' =
    Some (Json {| snap_remaining := remaining t';
                  snap_isRunning := true;
                  snap_savedAt := T + 2700000 + 250;
                  snap_duration := loaded_duration DEFAULT_DURATION running_snapshot |}).
Proof.
  apply (page_load_resumes_running_timer DEFAULT_DURATION 250 running_world
           {[ "emergencyTimer" := Json running_snapshot ]} running_snapshot);
    reflexivity.
Defined.

(** Where there is a [localStorage] and no timeout is pending: pausing a
    running timer and loading the page again, at whatever later time and
    with whatever delay of the deferred jobs, brings back the remaining
    time it had, paused, with no interval, no further callback and the
    store unchanged.  The duration comes back as well, unless it was zero:
    [loadState] skips a saved duration of zero, and the timer then has the
    duration its constructor was given. *)
Theorem pause_then_page_load_restores (t : Timer) (w : World)
    (ls : gmap string stored) (d later : Z) (delay : N) :
  localStorage w = Some ls ->
  isRunning t = true ->
  timeouts w = [] ->
  let '(t1, w1) := pause (t, w) in
  let '(t2, w2) := page_load d delay (at_time later w1) in
  remaining t2 = remaining t /\
  duration t2 = (if duration t =? 0 then d else duration t) /\
  isRunning t2 = false /\
  intervalId t2 = None /\
  log w2 = log w1 /\
  persisted w2 = persisted w1.
Proof.
  open_state t w. cbn [localStorage isRunning duration timeouts].
  intros -> -> ->.
  unfold pause, saveState, call_onStateChange.
  cbn [negb isRunning set_running localStorage onStateChange remaining
       duration now set_storage].
  destruct (t_duration =? 0) eqn:E;
  destruct t_onStateChange;
    unfold page_load, constructor, loadState, at_time, emit;
    cbn [localStorage set_storage now audio timeouts log];
    rewrite lookup_insert_eq;
    cbn [snap_isRunning snap_remaining snap_duration set_remaining];
    rewrite E; cbn; rewrite ?lookup_insert_eq; repeat split.
Qed.

Lemma pause_then_page_load_restores_example :
  let '(t1, w1) := pause (advance (T + 60000) (start fresh)) in
  let '(t2, w2) := page_load 1 250 (at_time (T + 9000000) w1) in
  remaining t2 = remaining (fst (advance (T + 60000) (start fresh))) /\
  duration t2 =
    (if duration (fst (advance (T + 60000) (start fresh))) =? 0 then 1
     else duration (fst (advance (T + 60000) (start fresh)))) /\
  isRunning t2 = false /\
  intervalId t2 = None /\
  log w2 = log w1 /\
  persisted w2 = persisted w1.
Proof.
  apply (pause_then_page_load_restores
           (fst (advance (T + 60000) (start fresh)))
           (snd (advance (T + 60000) (start fresh)))
           (<["emergencyTimer" :=
                Json {| snap_remaining := DEFAULT_DURATION;
                        snap_isRunning := true;
                        snap_savedAt := T;
                        snap_duration := DEFAULT_DURATION |}]> ∅)
           1 (T + 9000000) 250);
    first [reflexivity | discriminate].
Defined.

(** [reset] from any state: the timer stands at its full duration, paused,
    with no start time, and that is what the store then holds. *)
Theorem reset_restores_the_duration (t : Timer) (w : World) :
  let '(t', w') := reset (t, w) in
  remaining t' = duration t /\
  duration t' = duration t /\
  isRunning t' = false /\
  startedAt t' = None /\
  (localStorage w <> None ->
   persisted w' = Some (Json {| snap_remaining := duration t;
                                snap_isRunning := false;
                                snap_savedAt := now w;
                                snap_duration := duration t |})).
Proof.
  open_state t w.
  unfold reset, pause, saveState, call_onStateChange, call_onTick.
  destruct t_running, w_storage as [ls |], t_onStateChange, t_onTick; cbn;
    repeat split; try congruence; intros _; apply lookup_insert_eq.
Qed.

(** A store that is missing, holds no snapshot, or holds text that is not
    JSON never stops the constructor: the new timer stands at its full
    duration, paused, with nothing queued and the store untouched. *)
Theorem constructor_survives_unusable_store (d : Z) (w : World) :
  (persisted w = None \/ exists text, persisted w = Some (Unparseable text)) ->
  let '(t', w') := constructor d w in
  remaining t' = d /\
  duration t' = d /\
  isRunning t' = false /\
  intervalId t' = None /\
  timeouts w' = timeouts w /\
  localStorage w' = localStorage w.
Proof.
  destruct w as [w_now w_storage w_audio w_timeouts w_log].
  unfold persisted, constructor, loadState. cbn [localStorage].
  destruct w_storage as [ls |]; [| intros _; repeat split].
  intros [H | [text H]]; rewrite H; [repeat split |].
  destruct (String.eqb text ""); repeat split.
Qed.

Lemma constructor_survives_unusable_store_example :
  let '(t', w') :=
    constructor DEFAULT_DURATION
      (set_storage (Some {[ "emergencyTimer" := Unparseable "{remaining:" ]})
                   fresh_world) in
  remaining t' = DEFAULT_DURATION /\
  duration t' = DEFAULT_DURATION /\
  isRunning t' = false /\
  intervalId t' = None /\
  timeouts w' = [] /\
  localStorage w' = Some {[ "emergencyTimer" := Unparseable "{remaining:" ]}.
Proof.
  apply (constructor_survives_unusable_store DEFAULT_DURATION
           (set_storage (Some {[ "emergencyTimer" := Unparseable "{remaining:" ]})
                        fresh_world)).
  right. exists "{remaining:". reflexivity.
Defined.

(** Starting a timer that runs and pausing one that does not change
    nothing: each of [start] and [pause], done twice, is as done once. *)
Theorem start_and_pause_are_idempotent (s : State) :
  start (start s) = start s /\ pause (pause s) = pause s.
Proof.
  destruct s as [t w]. open_state t w.
  unfold start, pause, saveState, call_onStateChange.
  destruct t_running, w_storage as [ls |], t_onStateChange; split; reflexivity.
Qed.

End EmergencyTimerMoreProofs.

(* ====================================================================== *)
(** ** Further properties of the preset catalog *)

Module PresetsMoreProofs.
Import Presets PresetsProofs.

Local Open Scope string_scope.

Lemma own_property_In (key : string) (object : list (string * PizzaStylePreset))
    (preset : PizzaStylePreset) :
  own_property key object = Some preset -> In (key, preset) object.
Proof.
  induction object as [| [k v] rest IH]; cbn; [discriminate |].
  destruct (String.eqb k key) eqn:E.
  - apply String.eqb_eq in E. intros [= ->]. left. now subst.
  - intros H. right. now apply IH.
Qed.

(** The style ids are exactly the strings for which [getStyleById] gives a
    style of the catalog, and that style carries the id it is found under;
    [getAllStyles] lists these styles in the order of the ids.  For any
    other string [getStyleById] gives [undefined] or, for a name that
    [Object.prototype] defines, the member found there. *)
Theorem getStyleById_agrees_with_getStyleIds :
  (forall key : string,
     In key getStyleIds <-> exists preset, getStyleById key = Style preset) /\
  (forall key preset, getStyleById key = Style preset -> id preset = key) /\
  List.map getStyleById getStyleIds = List.map Style getAllStyles.
Proof.
  split; [| split].
  - intros key. split.
    + unfold getStyleIds, PIZZA_STYLES. cbn [List.map fst In].
      intros H.
      repeat (destruct H as [H | H]; [subst key; eexists; reflexivity |]).
      contradiction.
    + intros [preset H]. unfold getStyleById, get_property in H.
      destruct (own_property key PIZZA_STYLES) as [p |] eqn:E.
      * apply own_property_In in E. unfold getStyleIds.
        apply (List.in_map fst) in E. exact E.
      * destruct (existsb (String.eqb key) Object_prototype_names);
          discriminate.
  - intros key preset H. unfold getStyleById, get_property in H.
    destruct (own_property key PIZZA_STYLES) as [p |] eqn:E.
    + injection H as <-. apply own_property_In in E.
      unfold PIZZA_STYLES in E. cbn [In] in E.
      repeat (destruct E as [E | E]; [injection E as <- <-; reflexivity |]).
      contradiction.
    + destruct (existsb (String.eqb key) Object_prototype_names);
        discriminate.
  - reflexivity.
Qed.

End PresetsMoreProofs.

(* ====================================================================== *)
(** ** Further properties of the share links *)

Module ShareMoreProofs.
Import Web ShareRecipe ShareSpec ShareRecipeMore WebProofs ShareProofs.

Local Open Scope string_scope.

(** *** Parameters the decoder does not know *)

Lemma get_skips_other_name (name key value : string) (a b : URLSearchParams) :
  name <> key ->
  get key (a ++ (name, value) :: b)%list = get key (a ++ b)%list.
Proof.
  intros Hne. induction a as [| [n v] a IH]; cbn.
  - destruct (String.eqb name key) eqn:E; [| reflexivity].
    apply String.eqb_eq in E. contradiction.
  - now rewrite IH.
Qed.

(** A parameter under a name that [decodeRecipe] does not read changes
    nothing, wherever it stands among the others. *)
Theorem decodeRecipe_ignores_unknown_parameters
    (name value : string) (before after : URLSearchParams) :
  ~ In name PARAM_MAP_keys ->
  decodeRecipe (VSearchParams (before ++ (name, value) :: after)%list)
  = decodeRecipe (VSearchParams (before ++ after)%list).
Proof.
  intros Hname. cbn [decodeRecipe]. f_equal. unfold decode_params.
  assert (Hskip : forall key, In key PARAM_MAP_keys ->
            get key (before ++ (name, value) :: after)%list
            = get key (before ++ after)%list).
  { intros key Hkey. apply get_skips_other_name.
    intros ->. contradiction. }
  rewrite !Hskip by (cbn; tauto). reflexivity.
Qed.

Lemma decodeRecipe_ignores_unknown_parameters_example :
  decodeRecipe (VSearchParams ([("n", "4")] ++ ("utm_source", "mail") :: [("w", "250")])%list)
  = decodeRecipe (VSearchParams ([("n", "4")] ++ [("w", "250")])%list).
Proof.
  apply (decodeRecipe_ignores_unknown_parameters "utm_source" "mail"
           [("n", "4")] [("w", "250")]).
  intros H. cbn in H.
  repeat (destruct H as [H | H]; [discriminate H |]). exact H.
Defined.

(** *** Parameters that are missing, empty, or no number *)

Lemma decoded_numeric (ps : URLSearchParams) (name property : string) (scale : Q) :
  In (name, property, scale) numeric_parameters ->
  decode_params ps !! property
  = text_field (get name ps)
               (fun t => VNumber (div (parseInt t) (Fin scale))) \/
  (scale = 1 /\
   decode_params ps !! property
   = text_field (get name ps) (fun t => VNumber (parseInt t))).
Proof.
  unfold numeric_parameters. cbn [In]. intros H.
  repeat (destruct H as [H | H]; [injection H as <- <- <- |]);
    try contradiction.
  - right. split; [reflexivity | apply decoded_numBalls].
  - right. split; [reflexivity | apply decoded_ballWeight].
  - left. apply decoded_hydration.
  - left. apply decoded_salt.
  - left. apply decoded_yeast.
  - left. apply decoded_oil.
  - left. apply decoded_sugar.
Qed.

(** For each number of the link: when the parameter is missing or empty the
    decoded object has no such property; when its text holds no number the
    property is there and is NaN. *)
Theorem decodeRecipe_of_missing_and_malformed_numbers
    (ps : URLSearchParams) (name property : string) (scale : Q) :
  In (name, property, scale) numeric_parameters ->
  exists r,
    decodeRecipe (VSearchParams ps) = Some r /\
    (get name ps = None \/ get name ps = Some "" -> r !! property = None) /\
    (forall text, get name ps = Some text -> text <> "" ->
                  parseInt text = NaN -> r !! property = Some (VNumber NaN)).
Proof.
  intros Hin. eexists. split; [reflexivity |].
  assert (Hfield : forall f, (forall t, parseInt t = NaN -> f t = VNumber NaN) ->
            decode_params ps !! property = text_field (get name ps) f ->
            (get name ps = None \/ get name ps = Some "" ->
               decode_params ps !! property = None) /\
            (forall text, get name ps = Some text -> text <> "" ->
               parseInt text = NaN ->
               decode_params ps !! property = Some (VNumber NaN))).
  { intros f Hf ->. split.
    - intros [-> | ->]; reflexivity.
    - intros text -> Hne Hnan. unfold text_field. cbn.
      destruct (String.eqb text "") eqn:E.
      + apply String.eqb_eq in E. contradiction.
      + cbn. now rewrite Hf. }
  destruct (decoded_numeric ps name property scale Hin) as [H | [_ H]].
  - refine (Hfield _ _ H). intros t Ht. now rewrite Ht.
  - refine (Hfield _ _ H). intros t Ht. now rewrite Ht.
Qed.

Lemma decodeRecipe_of_missing_and_malformed_numbers_example :
  exists r,
    decodeRecipe (VSearchParams [("h", "sixty"); ("sa", "")]) = Some r /\
    (get "h" [("h", "sixty"); ("sa", "")] = None \/
     get "h" [("h", "sixty"); ("sa", "")] = Some "" ->
       r !! "hydration" = None) /\
    (forall text, get "h" [("h", "sixty"); ("sa", "")] = Some text ->
                  text <> "" -> parseInt text = NaN ->
                  r !! "hydration" = Some (VNumber NaN)).
Proof.
  apply (decodeRecipe_of_missing_and_malformed_numbers
           [("h", "sixty"); ("sa", "")] "h" "hydration" 100).
  right. right. left. reflexivity.
Defined.

(** *** The pre-ferment's parameters *)

(** The pre-ferment's type and share of flour are read only when [pf] is
    exactly ["1"]: otherwise the decoded object has none of the three
    pre-ferment properties, whatever [pft] and [pfp] hold.  With [pf=1] and
    no type given, the type is ["poolish"]. *)
Theorem decodeRecipe_reads_preferment_only_with_pf (ps : URLSearchParams) :
  exists r,
    decodeRecipe (VSearchParams ps) = Some r /\
    (get "pf" ps <> Some "1" ->
       r !! "usePreFerment" = None /\
       r !! "preFermentType" = None /\
       r !! "preFermentFlourPercent" = None) /\
    (get "pf" ps = Some "1" ->
       r !! "usePreFerment" = Some (VBoolean true) /\
       (get "pft" ps = None \/ get "pft" ps = Some "" ->
          r !! "preFermentType" = Some (VString "poolish")) /\
       (forall type, get "pft" ps = Some type -> type <> "" ->
          r !! "preFermentType" = Some (VString type))).
Proof.
  eexists. split; [reflexivity |]. split.
  - intros Hpf.
    assert (E : ShareRecipe.is_one (get "pf" ps) = false).
    { destruct (get "pf" ps) as [t |]; [| reflexivity]. cbn.
      destruct (String.eqb t "1") eqn:E; [| reflexivity].
      apply String.eqb_eq in E. congruence. }
    now rewrite decoded_usePreFerment, decoded_preFermentType,
                decoded_preFermentFlourPercent, E.
  - intros Hpf.
    rewrite decoded_usePreFerment, decoded_preFermentType, Hpf.
    cbn [ShareRecipe.is_one String.eqb Ascii.eqb Bool.eqb].
    change (ShareRecipe.is_one (Some "1")) with true. cbn iota.
    repeat split.
    + intros [-> | ->]; reflexivity.
    + intros type -> Hne. cbn.
      destruct (String.eqb type "") eqn:E; [| reflexivity].
      apply String.eqb_eq in E. contradiction.
Qed.

(** *** Numbers off the grid of the link *)

Lemma scaled_text_read_back (x scale : Q) :
  Qeq_bool scale 0 = false ->
  plain_digits (round_half_up (x * scale)) ->
  text_field (Some (scaled x scale)) (parsed scale)
  = Some (VNumber (Fin (inject_Z (round_half_up (x * scale)) / scale))).
Proof.
  intros Hs Hplain. unfold text_field, scaled, parsed.
  rewrite truthy_toString, or_else_toString, (parseInt_toString _ Hplain).
  cbn [div]. now rewrite Hs.
Qed.

Lemma nearest_hundredth (x : Q) :
  Qabs (inject_Z (round_half_up (x * 100)) / 100 - x) <= 1 # 200.
Proof.
  unfold round_half_up.
  destruct (EngineProofs.floor_half_bounds (x * 100)) as [Hlo Hhi].
  apply Qabs_Qle_condition.
  set (z := inject_Z (Qfloor (x * 100 + (1 # 2)))) in *.
  assert (Hz : z / 100 == z * (1 # 100)) by field.
  rewrite Hz. split; lra.
Qed.

Lemma nearest_thousandth (x : Q) :
  Qabs (inject_Z (round_half_up (x * 1000)) / 1000 - x) <= 1 # 2000.
Proof.
  unfold round_half_up.
  destruct (EngineProofs.floor_half_bounds (x * 1000)) as [Hlo Hhi].
  apply Qabs_Qle_condition.
  set (z := inject_Z (Qfloor (x * 1000 + (1 # 2)))) in *.
  assert (Hz : z / 1000 == z * (1 # 1000)) by field.
  rewrite Hz. split; lra.
Qed.

(** On a page whose origin is a URL origin (or without a window), and for
    percentages that the link writes in plain digits (below 1e21 in size
    once scaled and rounded), the link gives the percentages back to the
    nearest step of its grid, whether or not they are on it: hydration
    within half a percentage point, salt and yeast within a twentieth of
    one; oil and sugar (when positive) and the pre-ferment's share of flour
    (when it is used) within half a point. *)
Theorem share_link_rounds_to_the_grid (window_origin : option string) (p : Recipe) :
  well_formed_origin window_origin ->
  percentages_in_plain_digits p ->
  exists r,
    decodeRecipe (VString (encodeRecipe window_origin p)) = Some r /\
    holds_number_within r "hydration" (hydration p) (1 # 200) /\
    holds_number_within r "salt" (salt p) (1 # 2000) /\
    holds_number_within r "yeast" (yeast p) (1 # 2000) /\
    (0 < oil p -> holds_number_within r "oil" (oil p) (1 # 200)) /\
    (0 < sugar p -> holds_number_within r "sugar" (sugar p) (1 # 200)) /\
    (usePreFerment p = true ->
       holds_number_within r "preFermentFlourPercent"
                           (preFermentFlourPercent p) (1 # 200)).
Proof.
  intros Ho (Ph & Psa & Py & Poil & Psu & Ppfp).
  eexists. split; [now apply decodeRecipe_encodeRecipe |].
  assert (Hpos : forall x, 0 < x -> Qle_bool x 0 = false).
  { intros x Hx. destruct (Qle_bool x 0) eqn:E; [| reflexivity].
    apply Qle_bool_iff in E. lra. }
  unfold holds_number_within. repeat split.
  - rewrite decoded_hydration, get_h, (scaled_text_read_back _ 100 eq_refl Ph).
    eexists. split; [reflexivity | apply nearest_hundredth].
  - rewrite decoded_salt, get_sa, (scaled_text_read_back _ 1000 eq_refl Psa).
    eexists. split; [reflexivity | apply nearest_thousandth].
  - rewrite decoded_yeast, get_y, (scaled_text_read_back _ 1000 eq_refl Py).
    eexists. split; [reflexivity | apply nearest_thousandth].
  - intros Hx. rewrite decoded_oil, get_o, (Hpos _ Hx).
    rewrite (scaled_text_read_back _ 100 eq_refl Poil).
    eexists. split; [reflexivity | apply nearest_hundredth].
  - intros Hx. rewrite decoded_sugar, get_su, (Hpos _ Hx).
    rewrite (scaled_text_read_back _ 100 eq_refl Psu).
    eexists. split; [reflexivity | apply nearest_hundredth].
  - intros Hx. rewrite decoded_preFermentFlourPercent, get_pf, get_pfp, Hx.
    change (ShareRecipe.is_one (Some "1")) with true. cbn iota.
    rewrite (scaled_text_read_back _ 100 eq_refl Ppfp).
    eexists. split; [reflexivity | apply nearest_hundredth].
Qed.

Lemma share_link_rounds_to_the_grid_example :
  exists r,
    decodeRecipe (VString (encodeRecipe None off_grid_recipe)) = Some r /\
    holds_number_within r "hydration" (hydration off_grid_recipe) (1 # 200) /\
    holds_number_within r "salt" (salt off_grid_recipe) (1 # 2000) /\
    holds_number_within r "yeast" (yeast off_grid_recipe) (1 # 2000) /\
    (0 < oil off_grid_recipe ->
       holds_number_within r "oil" (oil off_grid_recipe) (1 # 200)) /\
    (0 < sugar off_grid_recipe ->
       holds_number_within r "sugar" (sugar off_grid_recipe) (1 # 200)) /\
    (usePreFerment off_grid_recipe = true ->
       holds_number_within r "preFermentFlourPercent"
                           (preFermentFlourPercent off_grid_recipe) (1 # 200)).
Proof.
  apply (share_link_rounds_to_the_grid None off_grid_recipe).
  - exact I.
  - repeat split.
Defined.

(** *** Query strings *)

Lemma scheme_ends_without_colon (s : string) :
  contains ":" s = false -> scheme_ends s = false.
Proof.
  induction s as [| c s IH]; cbn; [reflexivity |].
  intros H. apply orb_false_iff in H as [Hc Hs].
  rewrite Hc. destruct (is_scheme_char c); [now apply IH | reflexivity].
Qed.

Lemma encode_byte_has_no_colon (c : ascii) : contains ":" (encode_byte c) = false.
Proof. each_byte c; reflexivity. Qed.

Lemma form_encode_has_no_colon (s : string) :
  contains ":" (form_encode s) = false.
Proof.
  induction s as [| c s IH]; cbn [form_encode]; [reflexivity |].
  now rewrite contains_app, encode_byte_has_no_colon, IH.
Qed.

Lemma serialize_has_no_colon (params : URLSearchParams) :
  contains ":" (serialize params) = false.
Proof.
  induction params as [| [n v] rest IH]; cbn [serialize]; [reflexivity |].
  rewrite !contains_app, !form_encode_has_no_colon.
  destruct rest; [reflexivity |].
  rewrite contains_app, IH. reflexivity.
Qed.

Lemma serialize_is_no_URL (params : URLSearchParams) :
  has_scheme (serialize params) = false.
Proof.
  pose proof (serialize_has_no_colon params) as H.
  destruct (serialize params) as [| c s]; [reflexivity |].
  cbn in H. apply orb_false_iff in H as [_ Hs].
  cbn [has_scheme]. rewrite (scheme_ends_without_colon s Hs).
  apply andb_false_r.
Qed.

Lemma serialize_has_no_question_mark (params : URLSearchParams) :
  contains "?" (serialize params) = false.
Proof.
  induction params as [| [n v] rest IH]; cbn [serialize]; [reflexivity |].
  rewrite !contains_app.
  rewrite !form_encode_has_no_delimiter by reflexivity.
  destruct rest; [reflexivity |].
  rewrite contains_app, IH. reflexivity.
Qed.

Lemma new_URLSearchParams_without_question_mark (s : string) :
  contains "?" s = false -> new_URLSearchParams s = parse_query s.
Proof.
  destruct s as [| c s]; [reflexivity |].
  cbn [contains]. intros H. apply orb_false_iff in H as [Hc _].
  each_byte c; try reflexivity. discriminate Hc.
Qed.

Lemma decodeRecipe_of_search (query : string) :
  decodeRecipe (VString (String "?" query))
  = Some (decode_params (parse_query query)).
Proof. reflexivity. Qed.

(** [decodeRecipe] reads the text that [URLSearchParams.toString] gives, with
    or without a leading [?], as it reads the parameters themselves: the text
    is no URL, so the parameters are parsed from the text as a query. *)
Theorem decodeRecipe_of_query_text (params : URLSearchParams) :
  URL_searchParams (serialize params) = Throw InvalidURL /\
  decodeRecipe (VString (serialize params)) = decodeRecipe (VSearchParams params) /\
  decodeRecipe (VString ("?" ++ serialize params))
  = decodeRecipe (VSearchParams params).
Proof.
  assert (Hurl : URL_searchParams (serialize params) = Throw InvalidURL).
  { unfold URL_searchParams. now rewrite serialize_is_no_URL. }
  split; [exact Hurl |]. split.
  - unfold decodeRecipe. rewrite Hurl.
    rewrite new_URLSearchParams_without_question_mark
      by apply serialize_has_no_question_mark.
    now rewrite parse_query_serialize.
  - rewrite append_cons, append_empty_l, decodeRecipe_of_search.
    now rewrite parse_query_serialize.
Qed.

(** *** The recipe of the page's own URL *)

(** On the page a share link opens, [getRecipeFromURL] gives what
    [decodeRecipe] gives for the link: [window.location.search] is the
    link's query with its [?]. *)
Theorem getRecipeFromURL_of_share_link (window_origin : option string) (p : Recipe) :
  well_formed_origin window_origin ->
  let search := "?" ++ serialize (encode_params p) in
  hasRecipeInURL (Some search) = true /\
  getRecipeFromURL (Some search)
  = decodeRecipe (VString (encodeRecipe window_origin p)).
Proof.
  intros Ho search. subst search.
  rewrite (decodeRecipe_encodeRecipe window_origin p Ho).
  rewrite append_cons, append_empty_l.
  assert (Hhas : hasRecipeInURL (Some (String "?" (serialize (encode_params p)))) = true).
  { unfold hasRecipeInURL.
    change (new_URLSearchParams (String "?" (serialize (encode_params p))))
      with (parse_query (serialize (encode_params p))).
    rewrite parse_query_serialize. unfold has. now rewrite get_n. }
  split; [exact Hhas |].
  unfold getRecipeFromURL. rewrite Hhas. cbn [negb].
  rewrite decodeRecipe_of_search. now rewrite parse_query_serialize.
Qed.

Lemma getRecipeFromURL_of_share_link_example :
  let search := "?" ++ serialize (encode_params off_grid_recipe) in
  hasRecipeInURL (Some search) = true /\
  getRecipeFromURL (Some search)
  = decodeRecipe (VString (encodeRecipe None off_grid_recipe)).
Proof.
  apply (getRecipeFromURL_of_share_link None off_grid_recipe). exact I.
Defined.

(** Without [n] and [s] in the query there is no recipe, whatever else the
    query holds; with one of them there is one, decoded from the same
    parameters (possibly an object with no property at all). *)
Theorem getRecipeFromURL_needs_n_or_s (query : string) :
  let params := parse_query query in
  getRecipeFromURL (Some ("?" ++ query))
  = if (has "n" params || has "s" params)%bool
    then Some (decode_params params) else None.
Proof.
  intros params. rewrite append_cons, append_empty_l.
  unfold getRecipeFromURL, hasRecipeInURL.
  change (new_URLSearchParams (String "?" query)) with params.
  destruct (has "n" params || has "s" params)%bool; cbn [negb];
    [apply decodeRecipe_of_search | reflexivity].
Qed.

End ShareMoreProofs.

(* ====================================================================== *)
(** ** Properties of the unit conversion *)

Module UnitsProofs.
Import Web Units.

Local Open Scope string_scope.

(** What [UNITS[unit]] is, by the unit's name. *)
Lemma unit_property_cases (unit : string) :
  (unit = "grams" /\ get_property unit = Unit grams_unit) \/
  (unit = "ounces" /\ get_property unit = Unit ounces_unit) \/
  (unit <> "grams" /\ unit <> "ounces" /\
   (get_property unit = Builtin unit \/ get_property unit = Undefined)).
Proof.
  unfold get_property, UNITS. cbn [own_property].
  destruct (String.eqb_spec "grams" unit) as [<- | Hg]; [now left |].
  destruct (String.eqb_spec "ounces" unit) as [<- | Ho]; [now right; left |].
  right. right. repeat split; try congruence.
  destruct (existsb (String.eqb unit) Presets.Object_prototype_names);
    [now left | now right].
Qed.

(** The two formatters return a text exactly for the units ["grams"] and
    ["ounces"]: for every other unit, inherited name or not, they throw. *)
Theorem formatters_return_only_for_the_two_units
    (fraction_text : Q -> string) (grams : num) (unit : string) :
  ((exists text, formatWeight fraction_text grams (Some unit) = Normal text)
   <-> unit = "grams" \/ unit = "ounces") /\
  ((exists text, formatWeightPrecise fraction_text grams (Some unit) = Normal text)
   <-> unit = "grams" \/ unit = "ounces").
Proof.
  unfold formatWeight, formatWeightPrecise, convertWeight. cbn [or_grams].
  destruct (unit_property_cases unit)
    as [[-> ->] | [[-> ->] | (Hg & Ho & [-> | ->])]];
    (split; (split; [intros [text H] | intros H]));
    try (now left); try (now right);
    try discriminate H;
    try (destruct H as [H | H]; contradiction);
    try (cbn; eexists; reflexivity).
Qed.

(** A unit that [UNITS] neither has nor inherits leaves the weight as it
    is, not rounded; a name that [UNITS] inherits makes the conversion
    throw. *)
Theorem convertWeight_of_other_units (grams : num) (unit : string) :
  unit <> "grams" -> unit <> "ounces" ->
  convertWeight grams (Some unit)
  = if existsb (String.eqb unit) Presets.Object_prototype_names
    then Throw (NotAFunction "convert") else Normal grams.
Proof.
  intros Hg Ho. unfold convertWeight, get_property, UNITS.
  cbn [or_grams own_property].
  destruct (String.eqb_spec "grams" unit) as [E | _]; [congruence |].
  destruct (String.eqb_spec "ounces" unit) as [E | _]; [congruence |].
  destruct (existsb (String.eqb unit) Presets.Object_prototype_names);
    reflexivity.
Qed.

Lemma convertWeight_of_other_units_example :
  convertWeight (Fin (2505 # 10)) (Some "kilograms") = Normal (Fin (2505 # 10)) /\
  convertWeight (Fin (2505 # 10)) (Some "valueOf") = Throw (NotAFunction "convert").
Proof.
  split.
  - apply (convertWeight_of_other_units (Fin (2505 # 10)) "kilograms");
      discriminate.
  - apply (convertWeight_of_other_units (Fin (2505 # 10)) "valueOf");
      discriminate.
Defined.

Lemma convertWeight_grams (g : Q) :
  convertWeight (Fin g) (Some "grams")
  = Normal (Fin (inject_Z (round_half_up g))).
Proof. reflexivity. Qed.

Lemma convertWeight_ounces (g : Q) :
  convertWeight (Fin g) (Some "ounces")
  = Normal (Fin (inject_Z (round_half_up (g / GRAMS_PER_OUNCE * 10)) / 10)).
Proof. reflexivity. Qed.

(** A finite weight in grams comes out as the nearest whole number of grams,
    and in ounces as a number of tenths within a twentieth of an ounce of
    [grams / 28.3495]; a unit left out is grams. *)
Theorem convertWeight_accuracy (g : Q) :
  exists whole tenths : Z,
    convertWeight (Fin g) None = Normal (Fin (inject_Z whole)) /\
    convertWeight (Fin g) (Some "grams") = Normal (Fin (inject_Z whole)) /\
    Qabs (inject_Z whole - g) <= 1 # 2 /\
    convertWeight (Fin g) (Some "ounces") = Normal (Fin (inject_Z tenths / 10)) /\
    Qabs (inject_Z tenths / 10 - g / GRAMS_PER_OUNCE) <= 1 # 20.
Proof.
  exists (round_half_up g), (round_half_up (g / GRAMS_PER_OUNCE * 10)).
  split; [reflexivity |]. split; [reflexivity |]. split; [| split].
  - unfold round_half_up.
    destruct (EngineProofs.floor_half_bounds g) as [Hlo Hhi].
    apply Qabs_Qle_condition. split; lra.
  - reflexivity.
  - set (x := g / GRAMS_PER_OUNCE). unfold round_half_up.
    destruct (EngineProofs.floor_half_bounds (x * 10)) as [Hlo Hhi].
    apply Qabs_Qle_condition.
    set (z := inject_Z (Qfloor (x * 10 + (1 # 2)))) in *.
    assert (Hz : z / 10 == z * (1 # 10)) by field.
    rewrite Hz. split; lra.
Qed.

Lemma round_half_up_le (x y : Q) :
  x <= y -> inject_Z (round_half_up x) <= inject_Z (round_half_up y).
Proof.
  intros H. unfold round_half_up. rewrite <- Zle_Qle.
  apply Qfloor_resp_le. lra.
Qed.

(** A heavier weight never converts to less: for a unit whose name [UNITS]
    does not inherit, the conversion of finite weights keeps their order. *)
Theorem convertWeight_is_monotone (a b : Q) (unit : option string) :
  a <= b ->
  existsb (String.eqb (or_grams unit)) Presets.Object_prototype_names = false ->
  exists x y : Q,
    convertWeight (Fin a) unit = Normal (Fin x) /\
    convertWeight (Fin b) unit = Normal (Fin y) /\
    x <= y.
Proof.
  intros Hab Hproto. unfold convertWeight.
  destruct (unit_property_cases (or_grams unit))
    as [[-> ->] | [[-> ->] | (Hg & Ho & [E | E])]].
  - do 2 eexists. split; [reflexivity |]. split; [reflexivity |].
    now apply round_half_up_le.
  - do 2 eexists. split; [reflexivity |]. split; [reflexivity |].
    assert (H : a / GRAMS_PER_OUNCE * 10 <= b / GRAMS_PER_OUNCE * 10).
    { assert (Ha : a / GRAMS_PER_OUNCE * 10 == a * (100000 # 283495))
        by (unfold GRAMS_PER_OUNCE; field).
      assert (Hb : b / GRAMS_PER_OUNCE * 10 == b * (100000 # 283495))
        by (unfold GRAMS_PER_OUNCE; field).
      rewrite Ha, Hb. lra. }
    pose proof (round_half_up_le _ _ H) as Hr.
    set (x := inject_Z (round_half_up (a / GRAMS_PER_OUNCE * 10))) in *.
    set (y := inject_Z (round_half_up (b / GRAMS_PER_OUNCE * 10))) in *.
    assert (Hx : x / 10 == x * (1 # 10)) by field.
    assert (Hy : y / 10 == y * (1 # 10)) by field.
    rewrite Hx, Hy. lra.
  - unfold get_property in E.
    destruct (own_property (or_grams unit) UNITS); [discriminate E |].
    rewrite Hproto in E. discriminate E.
  - rewrite E. exists a, b. now repeat split.
Qed.

Lemma convertWeight_is_monotone_example :
  exists x y : Q,
    convertWeight (Fin 100) (Some "ounces") = Normal (Fin x) /\
    convertWeight (Fin 101) (Some "ounces") = Normal (Fin y) /\
    x <= y.
Proof.
  apply (convertWeight_is_monotone 100 101 (Some "ounces")).
  - discriminate.
  - reflexivity.
Defined.

(** From 10 g up the precise formatter prints grams as the plain one does,
    and below 10 g it prints ounces as the plain one does. *)
Theorem formatWeightPrecise_agrees_with_formatWeight
    (fraction_text : Q -> string) (grams : num) :
  (below grams 10 = false ->
     formatWeightPrecise fraction_text grams (Some "grams")
     = formatWeight fraction_text grams (Some "grams")) /\
  (below grams 10 = true ->
     formatWeightPrecise fraction_text grams (Some "ounces")
     = formatWeight fraction_text grams (Some "ounces")).
Proof.
  unfold formatWeightPrecise, formatWeight, convertWeight.
  cbn [or_grams].
  change (get_property "grams") with (Unit grams_unit).
  change (get_property "ounces") with (Unit ounces_unit).
  cbn [String.eqb Ascii.eqb Bool.eqb].
  split; intros ->; reflexivity.
Qed.

(** [toggleUnit] always gives one of the two units, and toggling twice gives
    the unit back exactly when it was one of the two. *)
Theorem toggleUnit_twice (currentUnit : string) :
  (toggleUnit currentUnit = "grams" \/ toggleUnit currentUnit = "ounces") /\
  (toggleUnit (toggleUnit currentUnit) = currentUnit
   <-> currentUnit = "grams" \/ currentUnit = "ounces").
Proof.
  unfold toggleUnit.
  destruct (String.eqb_spec currentUnit "grams") as [-> | Hg].
  - split; [now right |]. split; [now left | reflexivity].
  - split; [now left |]. cbn. split.
    + intros <-. now right.
    + intros [E | E]; [contradiction | now symmetry].
Qed.

(** The stored unit is read back as it was written, whatever text it is,
    except the empty text, which reads as ["grams"]; without [localStorage]
    nothing is stored and the unit is ["grams"]. *)
Theorem getStoredUnit_after_setStoredUnit
    (unit : string) (store : gmap string string) :
  getStoredUnit (setStoredUnit unit (Some store))
  = (if String.eqb unit "" then "grams" else unit) /\
  getStoredUnit (setStoredUnit unit None) = "grams" /\
  getStoredUnit (Some ∅) = "grams".
Proof.
  split; [| split; reflexivity].
  unfold getStoredUnit, setStoredUnit. now rewrite lookup_insert_eq.
Qed.

End UnitsProofs.
(* ====================================================================== *)
(** ** Properties of the volume converter *)

Module VolumeConverterProofs.
Import VolumeConverter.

Local Open Scope string_scope.

(** What [VOLUME_CONVERSIONS[id]] is: an ingredient of the table, or a value
    without rates. *)
Lemma ingredient_property_cases (id : string) :
  (exists ingredient,
     In (id, ingredient) VOLUME_CONVERSIONS /\
     get_property id = Found ingredient) \/
  (~ In id (map fst VOLUME_CONVERSIONS) /\
   forall field, rate field (get_property id) = None).
Proof.
  unfold get_property, VOLUME_CONVERSIONS. cbn [own_property map fst In].
  repeat match goal with
  | |- context [String.eqb ?k id] =>
      destruct (String.eqb_spec k id) as [<- | ?];
      [ left; eexists; split; [| reflexivity];
        repeat first [left; reflexivity | right]
      | ]
  end.
  right. split.
  - intros H. repeat (destruct H as [H | H]; [congruence |]). exact H.
  - intros field.
    destruct (existsb (String.eqb id) Presets.Object_prototype_names);
      reflexivity.
Qed.

Ltac each_ingredient H :=
  unfold VOLUME_CONVERSIONS in H; cbn [In] in H;
  repeat (destruct H as [H | H]; [injection H as <- <- |]);
  [.. | contradiction H].

(** The cup measures listed for an ingredient are what [cupsToGrams] gives
    for the fraction of that name in [FRACTIONS]. *)
Theorem commonMeasures_agree_with_cupsToGrams
    (key measure : string) (ingredient : Ingredient) (grams cups : Q) :
  In (key, ingredient) VOLUME_CONVERSIONS ->
  In (measure, grams) (commonMeasures ingredient) ->
  own_property measure FRACTIONS = Some cups ->
  exists r, cupsToGrams (Fin cups) key = Some r /\ num_eq r (Fin grams).
Proof.
  intros Hi Hm Hf.
  each_ingredient Hi;
    cbn [commonMeasures allPurposeFlour breadFlour doubleZeroFlour
         wholeWheatFlour semolinaFlour water sugar tableSalt kosherSalt
         oliveOil instantYeast activeYeast cup_measures In] in Hm;
    repeat (destruct Hm as [Hm | Hm]; [injection Hm as <- <- |]);
    try contradiction Hm;
    vm_compute in Hf; try discriminate Hf; injection Hf as <-;
    (eexists; split; [reflexivity | vm_compute; reflexivity]).
Qed.

Lemma commonMeasures_agree_with_cupsToGrams_example :
  exists r, cupsToGrams (Fin (667 # 1000)) "semolinaFlour" = Some r /\
            num_eq r (Fin 111).
Proof.
  apply (commonMeasures_agree_with_cupsToGrams
           "semolinaFlour" "2/3" semolinaFlour 111 (667 # 1000)).
  - unfold VOLUME_CONVERSIONS. cbn [In].
    right. right. right. right. left. reflexivity.
  - cbn. right. right. right. left. reflexivity.
  - reflexivity.
Defined.

(** Which conversions return [null].  [tspToGrams] converts every
    ingredient of the table, and returns [null] exactly for the other
    names; [cupsToGrams] and [tbspToGrams] return [null] also for the two
    yeasts, and for no other ingredient.  A name the table inherits gives
    [null] as any unknown name does. *)
Theorem conversions_returning_null (amount : num) (id : string) :
  (tspToGrams amount id = None <-> ~ In id (map fst VOLUME_CONVERSIONS)) /\
  (cupsToGrams amount id = None
   <-> ~ In id (map fst VOLUME_CONVERSIONS) \/
       id = "instantYeast" \/ id = "activeYeast") /\
  (tbspToGrams amount id = None <-> cupsToGrams amount id = None).
Proof.
  unfold tspToGrams, tbspToGrams, cupsToGrams.
  destruct (ingredient_property_cases id) as [(ingredient & Hi & ->) | [Hn Hr]].
  - assert (Hin : In id (map fst VOLUME_CONVERSIONS)).
    { change id with (fst (id, ingredient)). now apply in_map. }
    each_ingredient Hi; cbn;
      (split; [| split]); split; intros H;
      try discriminate H; try reflexivity; try contradiction;
      try (now right; left); try (now right; right);
      try (destruct H as [H | [H | H]];
           [contradiction | discriminate H | discriminate H]).
  - rewrite !Hr. repeat split; intros _; try reflexivity; try assumption.
    now left.
Qed.

(** The ingredients of [getAllIngredients] are found by [getIngredientById]
    under their own [id]. *)
Theorem getIngredientById_finds_every_ingredient (ingredient : Ingredient) :
  In ingredient getAllIngredients ->
  getIngredientById (id ingredient) = Found ingredient.
Proof.
  unfold getAllIngredients, VOLUME_CONVERSIONS. cbn [map snd In].
  intros H.
  repeat (destruct H as [<- | H]; [reflexivity |]).
  contradiction H.
Qed.

Lemma getIngredientById_finds_every_ingredient_example :
  getIngredientById (id oliveOil) = Found oliveOil.
Proof.
  apply (getIngredientById_finds_every_ingredient oliveOil).
  unfold getAllIngredients, VOLUME_CONVERSIONS. cbn [map snd In].
  do 9 right. left. reflexivity.
Defined.

(** *** Spoons and cups *)

Lemma nearest_whole (x : Q) :
  Qabs (inject_Z (round_half_up x) - x) <= 1 # 2.
Proof.
  unfold round_half_up.
  destruct (EngineProofs.floor_half_bounds x) as [Hlo Hhi].
  apply Qabs_Qle_condition. split; lra.
Qed.

Lemma nearest_tenth (x y : Q) :
  x == y ->
  Qabs (inject_Z (round_half_up (x * 10)) / 10 - y) <= 1 # 20.
Proof.
  intros E. unfold round_half_up.
  destruct (EngineProofs.floor_half_bounds (x * 10)) as [Hlo Hhi].
  apply Qabs_Qle_condition.
  set (z := inject_Z (Qfloor (x * 10 + (1 # 2)))) in *.
  assert (Hz : z / 10 == z * (1 # 10)) by field.
  rewrite Hz. split; lra.
Qed.

(** For an ingredient that the table measures by the cup only, sixteen
    tablespoons and forty-eight teaspoons make a cup: the three conversions
    of the same volume differ by the roundings only, at most 0.55 g. *)
Theorem spoons_make_a_cup
    (cups : Q) (key : string) (ingredient : Ingredient) :
  In (key, ingredient) VOLUME_CONVERSIONS ->
  gramsPerTbsp ingredient = None ->
  gramsPerTsp ingredient = None ->
  exists whole from_tbsp from_tsp : Q,
    cupsToGrams (Fin cups) key = Some (Fin whole) /\
    tbspToGrams (Fin (16 * cups)) key = Some (Fin from_tbsp) /\
    tspToGrams (Fin (48 * cups)) key = Some (Fin from_tsp) /\
    Qabs (from_tbsp - whole) <= 11 # 20 /\
    Qabs (from_tsp - whole) <= 11 # 20.
Proof.
  intros Hi Htbsp Htsp.
  each_ingredient Hi; try discriminate Htbsp; try discriminate Htsp;
    (do 3 eexists;
     split; [reflexivity |]; split; [reflexivity |]; split; [reflexivity |];
     match goal with
     | |- Qabs (inject_Z (round_half_up (16 * cups / 16 * ?r * 10)) / 10 - _) <= _ /\ _ =>
         pose proof (nearest_whole (cups * r)) as Hw;
         pose proof (nearest_tenth (16 * cups / 16 * r) (cups * r)
                       ltac:(field)) as Ha;
         pose proof (nearest_tenth (48 * cups / 48 * r) (cups * r)
                       ltac:(field)) as Hb
     end;
     apply Qabs_Qle_condition in Hw, Ha, Hb;
     split; apply Qabs_Qle_condition; split; lra).
Qed.

Lemma spoons_make_a_cup_example :
  exists whole from_tbsp from_tsp : Q,
    cupsToGrams (Fin (1 # 3)) "water" = Some (Fin whole) /\
    tbspToGrams (Fin (16 * (1 # 3))) "water" = Some (Fin from_tbsp) /\
    tspToGrams (Fin (48 * (1 # 3))) "water" = Some (Fin from_tsp) /\
    Qabs (from_tbsp - whole) <= 11 # 20 /\
    Qabs (from_tsp - whole) <= 11 # 20.
Proof.
  apply (spoons_make_a_cup (1 # 3) "water" water).
  - unfold VOLUME_CONVERSIONS. cbn [In]. do 5 right. left. reflexivity.
  - reflexivity.
  - reflexivity.
Defined.

End VolumeConverterProofs.
